(** * Points-Lines: a shallow embedding of PointsLines.cpp

    The editor keeps two registries (points and lines, each a flat
    [std::vector<vec3>]), a [Line] class with an implicit and a parametric
    form, and four GLUT callbacks that form the interaction state machine.

    The program is written once against an interface for the C++ [float]
    type and read at two instances:
    - [exactR], exact real arithmetic, for the algebraic properties;
    - [binary32], IEEE-754 single precision built from the library's
      [SpecFloat] operations, which evaluates the code bit for bit.

    What the two nearest-neighbour scans compute is stated once for every
    arithmetic whose [<] is a strict order ([FloatOrder]); both instances
    are such arithmetics. *)

From Stdlib Require Import ZArith List Bool Reals Lra Lia.
From Stdlib Require Import Floats.SpecFloat.
From Stdlib Require QArith.
Import ListNotations.

(** ** The scalar interface *)

Class FloatOps (F : Type) : Type := {
  f_of_Z : Z -> F;            (* an [int] literal or variable converted to float *)
  fadd : F -> F -> F;
  fsub : F -> F -> F;
  fmul : F -> F -> F;
  fdiv : F -> F -> F;
  fneg : F -> F;
  fsqrt : F -> F;             (* sqrtf *)
  feqb : F -> F -> bool;      (* == *)
  fltb : F -> F -> bool;      (* <  *)
  flt_0_01 : F -> bool        (* [x < 0.01]: x promoted to double, 0.01 a double literal *)
}.

Declare Scope flt_scope.
Delimit Scope flt_scope with flt.
Infix "+" := fadd : flt_scope.
Infix "-" := fsub : flt_scope.
Infix "*" := fmul : flt_scope.
Infix "/" := fdiv : flt_scope.
Notation "- x" := (fneg x) : flt_scope.
Infix "==" := feqb (at level 70, no associativity) : flt_scope.
Infix "<?" := fltb : flt_scope.
Notation "0" := (f_of_Z 0%Z) : flt_scope.
Notation "1" := (f_of_Z 1%Z) : flt_scope.
Notation "2" := (f_of_Z 2%Z) : flt_scope.
Notation "20" := (f_of_Z 20%Z) : flt_scope.

(** [x != y] of C++ is the negation of [x == y] (also on NaN). *)
Definition fneb {F} `{FloatOps F} (x y : F) : bool := negb (x == y)%flt.

(** ** framework.h: vec3 *)

Record vec3 (F : Type) : Type := mkvec3 { x : F; y : F; z : F }.
Arguments mkvec3 {F} _ _ _.
Arguments x {F} _.
Arguments y {F} _.
Arguments z {F} _.

Section Vec3.
Context {F : Type} `{FloatOps F}.
Open Scope flt_scope.

Definition vec3_sub (v w : vec3 F) : vec3 F :=
  mkvec3 (x v - x w) (y v - y w) (z v - z w).

Definition dot (v1 v2 : vec3 F) : F :=
  x v1 * x v2 + y v1 * y v2 + z v1 * z v2.

Definition length (v : vec3 F) : F := fsqrt (dot v v).

Definition cross (v1 v2 : vec3 F) : vec3 F :=
  mkvec3 (y v1 * z v2 - z v1 * y v2)
         (z v1 * x v2 - x v1 * z v2)
         (x v1 * y v2 - y v1 * x v2).
End Vec3.

(** ** class Line *)

Record Line (F : Type) : Type := mkLine {
  getP1 : vec3 F;   (* p1, p2: the defining points *)
  getP2 : vec3 F;
  getP3 : vec3 F;   (* p3, p4: the endpoints that are drawn *)
  getP4 : vec3 F;
  getA : F;         (* a x + b y + c = 0 *)
  getB : F;
  getC : F;
  getPx : F;        (* parametric direction *)
  getPy : F
}.
Arguments mkLine {F} _ _ _ _ _ _ _ _ _.
Arguments getP1 {F} _.
Arguments getP2 {F} _.
Arguments getP3 {F} _.
Arguments getP4 {F} _.
Arguments getA {F} _.
Arguments getB {F} _.
Arguments getC {F} _.
Arguments getPx {F} _.
Arguments getPy {F} _.

Section LineClass.
Context {F : Type} `{FloatOps F}.
Open Scope flt_scope.

(** [Line()] on an object of static storage duration: the floats keep
    their zero initialisation and the vec3 members are [vec3()]. *)
Definition Line_default : Line F :=
  let o := mkvec3 0 0 0 in mkLine o o o o 0 0 0 0 0.

(** The three coefficients chosen by [Line(vec3 p1, vec3 p2)]. *)
Definition Line_abc (p1 p2 : vec3 F) : F * F * F :=
  if x p1 == x p2 then
    (1, 0, - x p1)
  else
    let a := y p2 - y p1 in
    let b := x p1 - x p2 in
    (a, b, - a * x p1 - b * y p1).

(** [Line(vec3 p1, vec3 p2)]. *)
Definition Line_ctor (p1 p2 : vec3 F) : Line F :=
  let '(a, b, c) := Line_abc p1 p2 in
  let px := x p2 - x p1 in
  let py := y p2 - y p1 in
  let '(p3, p4) :=
    if fneb b 0 then
      (mkvec3 (- (1)) ((- a * - (1) - c) / b) 1,
       mkvec3 1 ((- a * 1 - c) / b) 1)
    else
      (mkvec3 (x p1) (- (1)) 1,
       mkvec3 (x p1) 1 1) in
  mkLine p1 p2 p3 p4 a b c px py.

(** [Line::findIntersectionPoint]. *)
Definition findIntersectionPoint (this line2 : Line F) : vec3 F :=
  let a1 := getA this in let b1 := getB this in let c1 := getC this in
  let a2 := getA line2 in let b2 := getB line2 in let c2 := getC line2 in
  let determinant := a1 * b2 - a2 * b1 in
  if determinant == 0 then
    mkvec3 0 0 1
  else
    let x := (b1 * c2 - b2 * c1) / determinant in
    let y := (a2 * c1 - a1 * c2) / determinant in
    mkvec3 x y 1.

Definition setP1 (l : Line F) (p : vec3 F) : Line F :=
  mkLine p (getP2 l) (getP3 l) (getP4 l) (getA l) (getB l) (getC l) (getPx l) (getPy l).
Definition setP2 (l : Line F) (p : vec3 F) : Line F :=
  mkLine (getP1 l) p (getP3 l) (getP4 l) (getA l) (getB l) (getC l) (getPx l) (getPy l).
Definition setP3 (l : Line F) (p : vec3 F) : Line F :=
  mkLine (getP1 l) (getP2 l) p (getP4 l) (getA l) (getB l) (getC l) (getPx l) (getPy l).
Definition setP4 (l : Line F) (p : vec3 F) : Line F :=
  mkLine (getP1 l) (getP2 l) (getP3 l) p (getA l) (getB l) (getC l) (getPx l) (getPy l).

(** The value [newC] that [Line::move] computes (and does not store). *)
Definition move_newC (this : Line F) (clickP : vec3 F) : F :=
  - getA this * x clickP - getB this * y clickP.

(** [Line::move]. *)
Definition move (this : Line F) (clickP : vec3 F) : Line F :=
  let a := getA this in
  let b := getB this in
  let newC := - a * x clickP - b * y clickP in
  let this := setP1 this (mkvec3 (- (1)) ((- a * - (1) - newC) / b) 1) in
  let this := setP2 this (mkvec3 1 ((- a * 1 - newC) / b) 1) in
  let this := setP3 this (mkvec3 (- (1)) ((- a * - (1) - newC) / b) 1) in
  let this := setP4 this (mkvec3 1 ((- a * 1 - newC) / b) 1) in
  this.

(** Division as a partial operation: [None] when the divisor compares
    equal to zero.  [move_checked] is [move] with every [/] replaced by it,
    so it answers whether a call of [move] divides by zero. *)
Definition fdiv_checked (n d : F) : option F :=
  if d == 0 then None else Some (n / d).

Definition move_checked (this : Line F) (clickP : vec3 F) : option (Line F) :=
  let a := getA this in
  let b := getB this in
  let newC := - a * x clickP - b * y clickP in
  match fdiv_checked (- a * - (1) - newC) b with None => None | Some y1 =>
  let this := setP1 this (mkvec3 (- (1)) y1 1) in
  match fdiv_checked (- a * 1 - newC) b with None => None | Some y2 =>
  let this := setP2 this (mkvec3 1 y2 1) in
  match fdiv_checked (- a * - (1) - newC) b with None => None | Some y3 =>
  let this := setP3 this (mkvec3 (- (1)) y3 1) in
  match fdiv_checked (- a * 1 - newC) b with None => None | Some y4 =>
  let this := setP4 this (mkvec3 1 y4 1) in
  Some this
  end end end end.

(** A point lies on the line with coefficients (a, b, c). *)
Definition on_line (a b c : F) (p : vec3 F) : F := a * x p + b * y p + c.
End LineClass.

(** ** Instances of the scalar interface *)

(** Exact arithmetic over the reals. *)
Definition Reqb (u v : R) : bool := if Req_dec_T u v then true else false.
Definition Rltb (u v : R) : bool := if Rlt_dec u v then true else false.

#[export] Instance exactR : FloatOps R := {
  f_of_Z := IZR;
  fadd := Rplus;
  fsub := Rminus;
  fmul := Rmult;
  fdiv := Rdiv;
  fneg := Ropp;
  fsqrt := sqrt;
  feqb := Reqb;
  fltb := Rltb;
  flt_0_01 := fun u => Rltb u (1 / 100)
}.

(** IEEE-754 binary32: 24 bits of precision, emax = 128; every operation
    rounds to nearest, ties to even. *)
Module B32.
Definition prec : Z := 24.
Definition emax : Z := 128.
Definition t : Type := spec_float.

Definition of_Z (n : Z) : t := binary_normalize prec emax n 0 false.

(** float to double: exact, every binary32 value is a binary64 value. *)
Definition to_double (u : t) : spec_float :=
  match u with
  | S754_finite s m e => binary_normalize 53 1024 (cond_Zopp s (Zpos m)) e false
  | _ => u
  end.

(** The double literal [0.01]: the double nearest to 1/100. *)
Definition dbl_0_01 : spec_float :=
  SFdiv 53 1024 (binary_normalize 53 1024 1 0 false)
                (binary_normalize 53 1024 100 0 false).

Definition is_nan (u : t) : bool :=
  match u with S754_nan => true | _ => false end.
Definition is_infinity (u : t) : bool :=
  match u with S754_infinity _ => true | _ => false end.
End B32.

#[export] Instance binary32 : FloatOps B32.t := {
  f_of_Z := B32.of_Z;
  fadd := SFadd B32.prec B32.emax;
  fsub := SFsub B32.prec B32.emax;
  fmul := SFmul B32.prec B32.emax;
  fdiv := SFdiv B32.prec B32.emax;
  fneg := SFopp;
  fsqrt := SFsqrt B32.prec B32.emax;
  feqb := SFeqb;
  fltb := SFltb;
  flt_0_01 := fun u => SFltb (B32.to_double u) B32.dbl_0_01
}.

(** ** The order of [<] *)

(** What the scans of [searchNearestP] and [findNearestLine] rely on: [<]
    is irreflexive and transitive, and every value other than those marked
    by [f_nan] falls on one side of any strict inequality.  [f_nan] marks
    the values that compare false with everything: the NaN of binary32,
    nothing over the reals. *)
Class FloatOrder {F : Type} `{FloatOps F} (f_nan : F -> bool) : Prop := {
  fltb_irrefl : forall a : F, (a <? a)%flt = false;
  fltb_trans : forall a b c : F,
    (a <? b)%flt = true -> (b <? c)%flt = true -> (a <? c)%flt = true;
  fltb_cotrans : forall a b c : F,
    (a <? b)%flt = true -> f_nan c = false ->
    (a <? c)%flt = true \/ (c <? b)%flt = true;
  fltb_not_nan : forall a b : F,
    (a <? b)%flt = true -> f_nan a = false /\ f_nan b = false
}.

(** ** Results of code that indexes a [std::vector] *)

Inductive result (A : Type) : Type :=
| Ok (a : A)
| OutOfBounds.     (* operator[] with an index outside [0, size) *)
Arguments Ok {A} _.
Arguments OutOfBounds {A}.

Definition bind {A B} (r : result A) (k : A -> result B) : result B :=
  match r with Ok a => k a | OutOfBounds => OutOfBounds end.

Notation "x <- r ;; k" := (bind r (fun x => k))
  (at level 61, r at next level, right associativity).

(** 32-bit [int] as Z; the conversion from [size_t] wraps. *)
Definition int_of_size_t (n : nat) : Z :=
  ((Z.of_nat n + 2 ^ 31) mod 2 ^ 32 - 2 ^ 31)%Z.

Section Vector.
Context {A : Type}.

(** [v[i]] with an [int] index: a negative index converts to a huge
    [size_t], so it is out of bounds like any index >= size. *)
Definition vtx_at (v : list A) (i : Z) : result A :=
  if (i <? 0)%Z then OutOfBounds
  else match nth_error v (Z.to_nat i) with
       | Some a => Ok a
       | None => OutOfBounds
       end.

Fixpoint set_nth (v : list A) (n : nat) (a : A) : list A :=
  match v, n with
  | [], _ => []
  | _ :: tl, O => a :: tl
  | hd :: tl, S n' => hd :: set_nth tl n' a
  end.

(** [v[i] = a]. *)
Definition vtx_set (v : list A) (i : Z) (a : A) : result (list A) :=
  if (i <? 0)%Z then OutOfBounds
  else if (Z.to_nat i <? List.length v)%nat then Ok (set_nth v (Z.to_nat i) a)
  else OutOfBounds.
End Vector.

(** ** class PointCollection *)

Section PointCollection.
Context {F : Type} `{FloatOps F}.
Open Scope flt_scope.

(** Only the vertex vector of [Object] matters here; the GPU handles are
    outside the model. *)
Definition PointCollection : Type := list (vec3 F).

(** [PointCollection::size]; a registry never holds 2^31 points. *)
Definition size (points : PointCollection) : Z := Z.of_nat (List.length points).

Definition addPoint (points : PointCollection) (p : vec3 F) : PointCollection :=
  points ++ [p].

(** The distance that [searchNearestP] computes for a stored point. *)
Definition point_distance (pos q : vec3 F) : F :=
  fsqrt ((x pos - x q) * (x pos - x q) + (y pos - y q) * (y pos - y q)).

(** The loop [for (i = 1; i < size; i++)] over the remaining points. *)
Fixpoint searchNearestP_loop (pos : vec3 F) (rest : list (vec3 F))
         (minD : F) (est : vec3 F) : vec3 F :=
  match rest with
  | [] => est
  | q :: rest' =>
      let d := point_distance pos q in
      if d <? minD then searchNearestP_loop pos rest' d q
      else searchNearestP_loop pos rest' minD est
  end.

(** [PointCollection::searchNearestP]. *)
Definition searchNearestP (points : PointCollection) (pos : vec3 F) : vec3 F :=
  match points with
  | [] => mkvec3 0 0 1
  | est :: rest => searchNearestP_loop pos rest (point_distance pos est) est
  end.
End PointCollection.

(** ** class LineCollection *)

Record LineCollection (F : Type) : Type := mkLineCollection {
  Vtx : list (vec3 F);      (* lines.Vtx(): four slots per line, p1 p2 p3 p4 *)
  firstCLick : bool;        (* the public flag; the private [firstClick] is never used *)
  startPoint : vec3 F
}.
Arguments mkLineCollection {F} _ _ _.
Arguments Vtx {F} _.
Arguments firstCLick {F} _.
Arguments startPoint {F} _.

Section LineCollection.
Context {F : Type} `{FloatOps F}.
Open Scope flt_scope.

Definition addLine (lc : LineCollection F) (l : Line F) : LineCollection F :=
  mkLineCollection (Vtx lc ++ [getP1 l; getP2 l; getP3 l; getP4 l])
                   (firstCLick lc) (startPoint lc).

Definition startDrawing (lc : LineCollection F) (p : vec3 F) : LineCollection F :=
  mkLineCollection (Vtx lc) true p.

Definition finishDrawing (lc : LineCollection F) (endPoint : vec3 F) : LineCollection F :=
  let lc := mkLineCollection (Vtx lc) false (startPoint lc) in
  addLine lc (Line_ctor (startPoint lc) endPoint).

Definition isFirst (lc : LineCollection F) : bool := firstCLick lc.

(** [distanceLine] of [findNearestLine]. *)
Definition distanceLine (firstPoint secPoint clickP : vec3 F) : F :=
  let lineVector := vec3_sub secPoint firstPoint in
  let pointVector := vec3_sub clickP firstPoint in
  length (cross lineVector pointVector) / length lineVector.

(** The loop of [findNearestLine]: [rest] is the storage from slot [i] on.
    It stops when [i >= size]; reading slot [i + 1] past the end is out of
    bounds; then [i += 4]. *)
Fixpoint findNearestLine_loop (clickP : vec3 F) (rest : list (vec3 F)) (i : nat)
         (minDistance : F) (nearestLine : Z) : result Z :=
  match rest with
  | [] => Ok nearestLine
  | [_] => OutOfBounds
  | firstPoint :: secPoint :: tl =>
      let d := distanceLine firstPoint secPoint clickP in
      let '(minDistance, nearestLine) :=
        if (d <? minDistance) && flt_0_01 d then (d, int_of_size_t i)
        else (minDistance, nearestLine) in
      match tl with
      | _ :: _ :: rest' =>
          findNearestLine_loop clickP rest' (i + 4) minDistance nearestLine
      | _ => Ok nearestLine
      end
  end.

(** [LineCollection::findNearestLine]. *)
Definition findNearestLine (lc : LineCollection F) (clickP : vec3 F) : result Z :=
  findNearestLine_loop clickP (Vtx lc) 0 20 (-1)%Z.
End LineCollection.

(** ** The globals and the GLUT callbacks *)

Module Key.
Inductive t : Set := p | l | m | i.

Definition eqb (k1 k2 : t) : bool :=
  match k1, k2 with
  | p, p | l, l | m, m | i, i => true
  | _, _ => false
  end.
End Key.

(** Constants of GLUT and of framework.h. *)
Definition GLUT_LEFT_BUTTON : Z := 0.
Definition GLUT_MIDDLE_BUTTON : Z := 1.
Definition GLUT_RIGHT_BUTTON : Z := 2.
Definition GLUT_DOWN : Z := 0.
Definition GLUT_UP : Z := 1.
Definition windowWidth : Z := 600.
Definition windowHeight : Z := 600.

Record App (F : Type) : Type := mkApp {
  points : list (vec3 F);
  lines : LineCollection F;
  current : Key.t;
  l1 : Line F;
  l2 : Line F;
  moved : Line F;
  idx : Z;
  firstLine : bool
}.
Arguments mkApp {F} _ _ _ _ _ _ _ _.
Arguments points {F} _.
Arguments lines {F} _.
Arguments current {F} _.
Arguments l1 {F} _.
Arguments l2 {F} _.
Arguments moved {F} _.
Arguments idx {F} _.
Arguments firstLine {F} _.

Inductive event : Set :=
| Keyboard (key : Z)
| KeyboardUp (key : Z)
| Mouse (button state pX pY : Z)
| MouseMotion (pX pY : Z).

Section Callbacks.
Context {F : Type} `{FloatOps F}.
Open Scope flt_scope.

(** The state after [onInitialization]: the globals are zero-initialised
    ([idx] is 0, not -1) and both registries are empty. *)
Definition initial : App F :=
  mkApp [] (mkLineCollection [] false (mkvec3 0 0 0)) Key.p
        Line_default Line_default Line_default 0%Z false.

Definition set_current (s : App F) (k : Key.t) : App F :=
  mkApp (points s) (lines s) k (l1 s) (l2 s) (moved s) (idx s) (firstLine s).
Definition set_points (s : App F) (ps : list (vec3 F)) : App F :=
  mkApp ps (lines s) (current s) (l1 s) (l2 s) (moved s) (idx s) (firstLine s).
Definition set_lines (s : App F) (lc : LineCollection F) : App F :=
  mkApp (points s) lc (current s) (l1 s) (l2 s) (moved s) (idx s) (firstLine s).
Definition set_l1 (s : App F) (l : Line F) : App F :=
  mkApp (points s) (lines s) (current s) l (l2 s) (moved s) (idx s) (firstLine s).
Definition set_l2 (s : App F) (l : Line F) : App F :=
  mkApp (points s) (lines s) (current s) (l1 s) l (moved s) (idx s) (firstLine s).
Definition set_moved (s : App F) (l : Line F) : App F :=
  mkApp (points s) (lines s) (current s) (l1 s) (l2 s) l (idx s) (firstLine s).
Definition set_idx (s : App F) (n : Z) : App F :=
  mkApp (points s) (lines s) (current s) (l1 s) (l2 s) (moved s) n (firstLine s).
Definition set_firstLine (s : App F) (b : bool) : App F :=
  mkApp (points s) (lines s) (current s) (l1 s) (l2 s) (moved s) (idx s) b.

(** Character codes of 'p', 'l', 'm', 'i'. *)
Definition onKeyboard (key : Z) (s : App F) : App F :=
  let s := if (key =? 112)%Z then set_current s Key.p else s in
  let s := if (key =? 108)%Z then set_current s Key.l else s in
  let s := if (key =? 109)%Z then set_current s Key.m else s in
  let s := if (key =? 105)%Z then set_current s Key.i else s in
  s.

Definition onKeyboardUp (key : Z) (s : App F) : App F := onKeyboard key s.

(** Pixel to normalized device coordinates. *)
Definition cX_of (pX : Z) : F := 2 * f_of_Z pX / f_of_Z windowWidth - 1.
Definition cY_of (pY : Z) : F := 1 - 2 * f_of_Z pY / f_of_Z windowHeight.
Definition cursor (pX pY : Z) : vec3 F := mkvec3 (cX_of pX) (cY_of pY) 1.

(** [Line(lines->getLines().Vtx()[idx], lines->getLines().Vtx()[idx + 1])]. *)
Definition Line_at (lc : LineCollection F) (n : Z) : result (Line F) :=
  q1 <- vtx_at (Vtx lc) n ;;
  q2 <- vtx_at (Vtx lc) (n + 1) ;;
  Ok (Line_ctor q1 q2).

(** The four branches of case GLUT_LEFT_BUTTON, in the order of the source. *)
Definition onMouse_p (state pX pY : Z) (s : App F) : App F :=
  if Key.eqb (current s) Key.p && (state =? GLUT_DOWN)%Z then
    set_points s (addPoint (points s) (cursor pX pY))
  else s.

Definition onMouse_l (state pX pY : Z) (s : App F) : App F :=
  if Key.eqb (current s) Key.l && (state =? GLUT_DOWN)%Z
     && (2 <=? size (points s))%Z then
    if negb (isFirst (lines s)) then
      set_lines s (startDrawing (lines s) (searchNearestP (points s) (cursor pX pY)))
    else
      set_lines s (finishDrawing (lines s) (searchNearestP (points s) (cursor pX pY)))
  else s.

Definition onMouse_i (state pX pY : Z) (s : App F) : result (App F) :=
  if Key.eqb (current s) Key.i && (state =? GLUT_DOWN)%Z then
    let clickPos := cursor pX pY in
    n <- findNearestLine (lines s) clickPos ;;
    let s := set_idx s n in
    if negb (idx s =? -1)%Z then
      if negb (firstLine s) then
        ln <- Line_at (lines s) (idx s) ;;
        Ok (set_firstLine (set_l1 s ln) true)
      else
        ln <- Line_at (lines s) (idx s) ;;
        let s := set_l2 s ln in
        let s := set_points s (addPoint (points s) (findIntersectionPoint (l1 s) (l2 s))) in
        let o := Line_ctor (mkvec3 0 0 0) (mkvec3 0 0 0) in
        let s := set_l1 (set_l2 s o) o in
        let s := set_firstLine s false in
        Ok (set_idx s (-1)%Z)
    else Ok s
  else Ok s.

Definition onMouse_m (state pX pY : Z) (s : App F) : result (App F) :=
  if Key.eqb (current s) Key.m && (state =? GLUT_DOWN)%Z then
    n <- findNearestLine (lines s) (cursor pX pY) ;;
    let s := set_idx s n in
    ln <- Line_at (lines s) (idx s) ;;
    Ok (set_moved s ln)
  else if Key.eqb (current s) Key.m && negb (state =? GLUT_DOWN)%Z then
    let s := set_idx s (-1)%Z in
    Ok (set_moved s (Line_ctor (mkvec3 0 0 0) (mkvec3 0 0 0)))
  else Ok s.

(** [onMouse]: the middle and right buttons only print. *)
Definition onMouse (button state pX pY : Z) (s : App F) : result (App F) :=
  if (button =? GLUT_LEFT_BUTTON)%Z then
    let s := onMouse_p state pX pY s in
    let s := onMouse_l state pX pY s in
    s <- onMouse_i state pX pY s ;;
    onMouse_m state pX pY s
  else Ok s.

(** [onMouseMotion]. *)
Definition onMouseMotion (pX pY : Z) (s : App F) : result (App F) :=
  if negb (idx s =? -1)%Z && Key.eqb (current s) Key.m then
    let s := set_moved s (move (moved s) (cursor pX pY)) in
    let n := idx s in
    let v := Vtx (lines s) in
    v <- vtx_set v (n + 2) (getP1 (moved s)) ;;
    v <- vtx_set v n (getP1 (moved s)) ;;
    v <- vtx_set v (n + 3) (getP2 (moved s)) ;;
    v <- vtx_set v (n + 1) (getP2 (moved s)) ;;
    Ok (set_lines s (mkLineCollection v (firstCLick (lines s)) (startPoint (lines s))))
  else Ok s.

Definition step (e : event) (s : App F) : result (App F) :=
  match e with
  | Keyboard key => Ok (onKeyboard key s)
  | KeyboardUp key => Ok (onKeyboardUp key s)
  | Mouse button state pX pY => onMouse button state pX pY s
  | MouseMotion pX pY => onMouseMotion pX pY s
  end.

(** Events are handled one after the other on one thread. *)
Fixpoint run (es : list event) (s : App F) : result (App F) :=
  match es with
  | [] => Ok s
  | e :: es' => s' <- step e s ;; run es' s'
  end.

(** A state the program can be in: reached from [initial] by events that
    were all handled within bounds. *)
Definition reachable (s : App F) : Prop :=
  exists es, run es initial = Ok s.
End Callbacks.

(** ** Vocabulary of the statements *)

(** The point (a, b, 1) with integer coordinates. *)
Definition pt {F : Type} `{FloatOps F} (a b : Z) : vec3 F :=
  mkvec3 (f_of_Z a) (f_of_Z b) 1%flt.

(** The events that place two points at pixels [a] and [b], join them by a
    line, select that line in MoveLine mode at pixel [c] and drag it to [d]. *)
Definition draw_and_drag (a b c d : Z * Z) : list event :=
  [ Mouse GLUT_LEFT_BUTTON GLUT_DOWN (fst a) (snd a);
    Mouse GLUT_LEFT_BUTTON GLUT_DOWN (fst b) (snd b);
    Keyboard 108;
    Mouse GLUT_LEFT_BUTTON GLUT_DOWN (fst a) (snd a);
    Mouse GLUT_LEFT_BUTTON GLUT_DOWN (fst b) (snd b);
    Keyboard 109;
    Mouse GLUT_LEFT_BUTTON GLUT_DOWN (fst c) (snd c);
    MouseMotion (fst d) (snd d) ]%Z.

(** The state after a list of events ([initial] if one of them failed). *)
Definition state_after {F : Type} `{FloatOps F} (es : list event) : App F :=
  match run es initial with Ok s => s | OutOfBounds => initial end.

(** Two points at pixels (150,450) and (450,150), that is (-0.5,-0.5) and
    (0.5,0.5), then DrawLine mode. *)
Definition two_points : list event :=
  [ Mouse GLUT_LEFT_BUTTON GLUT_DOWN 150 450;
    Mouse GLUT_LEFT_BUTTON GLUT_DOWN 450 150;
    Keyboard 108 ]%Z.

(** ... then the first click of a line on the first point ... *)
Definition pending_line : list event :=
  two_points ++ [ Mouse GLUT_LEFT_BUTTON GLUT_DOWN 150 450 ]%Z.

(** ... the second click on the second point, and MoveLine mode ... *)
Definition one_line : list event :=
  pending_line ++ [ Mouse GLUT_LEFT_BUTTON GLUT_DOWN 450 150; Keyboard 109 ]%Z.

(** ... and a press on the line at the centre of the window. *)
Definition line_grabbed : list event :=
  one_line ++ [ Mouse GLUT_LEFT_BUTTON GLUT_DOWN 300 300 ]%Z.

Section Invariants.
Context {F : Type} `{FloatOps F}.


(** The line registry always holds four slots per line. *)
Definition slots_inv (s : App F) : Prop :=
  exists n : nat, List.length (Vtx (lines s)) = (4 * n)%nat.

End Invariants.

(** The distance [findNearestLine] computes for the k-th stored line, in
    the arithmetic of the code: its defining points are slots 4k and 4k+1. *)
Definition stored_distance {F : Type} `{FloatOps F}
           (v : list (vec3 F)) (clickP : vec3 F) (k : nat) : F :=
  distanceLine (nth (4 * k) v (mkvec3 0 0 0)%flt)
               (nth (4 * k + 1) v (mkvec3 0 0 0)%flt) clickP.

(** The events that place two points at pixels [a] and [b], join them by a
    line and switch to MoveLine mode. *)
Definition draw_line (a b : Z * Z) : list event :=
  [ Mouse GLUT_LEFT_BUTTON GLUT_DOWN (fst a) (snd a);
    Mouse GLUT_LEFT_BUTTON GLUT_DOWN (fst b) (snd b);
    Keyboard 108;
    Mouse GLUT_LEFT_BUTTON GLUT_DOWN (fst a) (snd a);
    Mouse GLUT_LEFT_BUTTON GLUT_DOWN (fst b) (snd b);
    Keyboard 109 ]%Z.

(** ** Further code of the same files *)

Section LineCollectionIndex.
Context {F : Type} `{FloatOps F}.
Open Scope flt_scope.

(** One alternative of [isSameLine] in [LineCollection::index]: slot i is
    compared with [u]; only when both comparisons hold ([&&] short-circuits)
    is slot i + 1 read and compared with [w]. *)
Definition same_pair (fp : vec3 F) (second : result (vec3 F)) (u w : vec3 F)
  : result bool :=
  if (x fp == x u) && (y fp == y u) then
    sp <- second ;; Ok ((x sp == x w) && (y sp == y w))
  else Ok false.

(** [isSameLine]: the defining points in either order; the second
    alternative is evaluated only when the first is false. *)
Definition isSameLine (fp : vec3 F) (second : result (vec3 F)) (l1 : Line F)
  : result bool :=
  same <- same_pair fp second (getP1 l1) (getP2 l1) ;;
  if same then Ok true else same_pair fp second (getP2 l1) (getP1 l1).

(** The loop of [LineCollection::index]: [rest] is the storage from slot
    [i] on.  The counter is an [int]; it stays below 2^31 with the size. *)
Fixpoint index_loop (l1 : Line F) (rest : list (vec3 F)) (i : nat) : result Z :=
  match rest with
  | [] => Ok (-1)%Z
  | fp :: tl =>
      let second := match tl with sp :: _ => Ok sp | [] => OutOfBounds end in
      same <- isSameLine fp second l1 ;;
      if same then Ok (Z.of_nat i)
      else match tl with
           | _ :: _ :: _ :: rest' => index_loop l1 rest' (i + 4)
           | _ => Ok (-1)%Z
           end
  end.

(** [LineCollection::index]. *)
Definition index (lc : LineCollection F) (l1 : Line F) : result Z :=
  index_loop l1 (Vtx lc) 0.

(** What [addLine] prints: the implicit equation, with c recomputed from a,
    b and p1 instead of read from the line, and the parametric form. *)
Record line_report : Type := mkReport {
  report_a : F; report_b : F; report_c : F;
  report_origin : F * F;
  report_direction : F * F
}.

Definition addLine_report (l : Line F) : line_report :=
  let a := getA l in
  let b := getB l in
  let c := - a * x (getP1 l) - b * y (getP1 l) in
  mkReport a b c (x (getP1 l), y (getP1 l)) (getPx l, getPy l).
End LineCollectionIndex.
Arguments line_report F : clear implicits.

(** The k-th stored line has the defining points of [l], in either order
    (exact arithmetic). *)
Definition stored_same (v : list (vec3 R)) (l : Line R) (k : nat) : Prop :=
  let fp := nth (4 * k) v (mkvec3 0%R 0%R 0%R) in
  let sp := nth (4 * k + 1) v (mkvec3 0%R 0%R 0%R) in
  (x fp = x (getP1 l) /\ y fp = y (getP1 l) /\ x sp = x (getP2 l) /\ y sp = y (getP2 l)) \/
  (x fp = x (getP2 l) /\ y fp = y (getP2 l) /\ x sp = x (getP1 l) /\ y sp = y (getP1 l)).

Section MoreInvariants.
Context {F : Type} `{FloatOps F}.

(** Every stored position is a point of the plane z = 1, and so is the
    pending start point while a line is being drawn. *)
Definition homogeneous_inv (s : App F) : Prop :=
  Forall (fun q => z q = 1%flt) (points s) /\
  Forall (fun q => z q = 1%flt) (Vtx (lines s)) /\
  (firstCLick (lines s) = true -> z (startPoint (lines s)) = 1%flt).

(** Between two states: the stored points of the first are a prefix of the
    points of the second, and the line registry is not shorter. *)
Definition grows (s s' : App F) : Prop :=
  (exists added, points s' = points s ++ added) /\
  (List.length (Vtx (lines s)) <= List.length (Vtx (lines s')))%nat.


(** The four assignments of [onMouseMotion] on the vertex vector. *)
Definition overwrite_line (v : list (vec3 F)) (k : nat) (q1 q2 : vec3 F) : list (vec3 F) :=
  set_nth (set_nth (set_nth (set_nth v (k + 2) q1) k q1) (k + 3) q2) (k + 1) q2.

End MoreInvariants.

(** In Intersect mode, then the state with one stored line. *)
Definition one_line_intersect : list event := one_line ++ [Keyboard 105]%Z.

(** A binary32 value that is a zero or a NaN. *)
Definition zero_or_nan (u : B32.t) : bool :=
  match u with S754_zero _ | S754_nan => true | _ => false end.

(** A binary32 value that is a number: a zero, a subnormal or a normal. *)
Definition B32_finite (u : B32.t) : bool :=
  match u with S754_zero _ | S754_finite _ _ _ => true | _ => false end.

(** The place of a binary32 value in the order of [<]: the sign class, then
    the exponent, then the mantissa, both mirrored for negative values.  This
    is the order in which [SFcompare] inspects them. *)
Definition SF_rank (u : B32.t) : Z * Z * Z :=
  match u with
  | S754_infinity true => (-2, 0, 0)
  | S754_finite true m e => (-1, - e, - Zpos m)
  | S754_zero _ | S754_nan => (0, 0, 0)
  | S754_finite false m e => (1, e, Zpos m)
  | S754_infinity false => (2, 0, 0)
  end%Z.

Definition lex_lt (a b : Z * Z * Z) : Prop :=
  (fst (fst a) < fst (fst b) \/
   (fst (fst a) = fst (fst b) /\
    (snd (fst a) < snd (fst b) \/
     (snd (fst a) = snd (fst b) /\ snd a < snd b))))%Z.

(** The rational number that a binary32 value stands for: m * 2^e with its
    sign (0 for the values that are not numbers). *)
Definition B32_exact (u : B32.t) : QArith_base.Q :=
  match u with
  | S754_finite s m e =>
      match e with
      | Zneg k => QArith_base.Qmake (cond_Zopp s (Zpos m)) (2 ^ k)
      | _ => QArith_base.Qmake (cond_Zopp s (Zpos m) * 2 ^ e) 1
      end
  | _ => QArith_base.Qmake 0 1
  end.

(** The square of the Euclidean distance between two stored positions,
    without rounding. *)
Definition exact_sq_distance (p q : vec3 B32.t) : QArith_base.Q :=
  let dx := QArith_base.Qminus (B32_exact (x p)) (B32_exact (x q)) in
  let dy := QArith_base.Qminus (B32_exact (y p)) (B32_exact (y q)) in
  QArith_base.Qplus (QArith_base.Qmult dx dx) (QArith_base.Qmult dy dy).

(** The square of the perpendicular distance from [q] to the line through
    [p1] and [p2], without rounding: cross^2 / |direction|^2. *)
Definition exact_sq_distanceLine (p1 p2 q : vec3 B32.t) : QArith_base.Q :=
  let lx := QArith_base.Qminus (B32_exact (x p2)) (B32_exact (x p1)) in
  let ly := QArith_base.Qminus (B32_exact (y p2)) (B32_exact (y p1)) in
  let px := QArith_base.Qminus (B32_exact (x q)) (B32_exact (x p1)) in
  let py := QArith_base.Qminus (B32_exact (y q)) (B32_exact (y p1)) in
  let c := QArith_base.Qminus (QArith_base.Qmult lx py) (QArith_base.Qmult ly px) in
  QArith_base.Qdiv (QArith_base.Qmult c c)
                   (QArith_base.Qplus (QArith_base.Qmult lx lx) (QArith_base.Qmult ly ly)).

(** * Properties *)

Ltac conj_split := match goal with |- _ /\ _ => split end.

(** ** Comparisons of the exact instance *)

Lemma Reqb_true (u v : R) : Reqb u v = true <-> u = v.
Proof. unfold Reqb; destruct (Req_dec_T u v); split; congruence. Qed.

Lemma Reqb_false (u v : R) : Reqb u v = false <-> u <> v.
Proof. unfold Reqb; destruct (Req_dec_T u v); split; congruence. Qed.

Lemma Rltb_true (u v : R) : Rltb u v = true <-> (u < v)%R.
Proof. unfold Rltb; destruct (Rlt_dec u v); split; auto; discriminate. Qed.

Lemma Rltb_false (u v : R) : Rltb u v = false <-> (v <= u)%R.
Proof.
  unfold Rltb; destruct (Rlt_dec u v); split; auto; try discriminate.
  - intros; lra.
  - intros; lra.
Qed.

Ltac Rbool :=
  repeat match goal with
  | Hb : Reqb _ _ = true |- _ => apply Reqb_true in Hb
  | Hb : Reqb _ _ = false |- _ => apply Reqb_false in Hb
  | Hb : Rltb _ _ = true |- _ => apply Rltb_true in Hb
  | Hb : Rltb _ _ = false |- _ => apply Rltb_false in Hb
  end.

(** ** The order of [<] in both instances *)

Lemma Rltb_irrefl (a : R) : Rltb a a = false.
Proof. apply Rltb_false. lra. Qed.

Lemma Rltb_trans (a b c : R) : Rltb a b = true -> Rltb b c = true -> Rltb a c = true.
Proof. intros E1 E2; Rbool. apply Rltb_true. lra. Qed.

Lemma Rltb_cotrans (a b c : R) :
  Rltb a b = true -> Rltb a c = true \/ Rltb c b = true.
Proof.
  intros E1; Rbool. destruct (Rlt_dec a c) as [D | D].
  - left; apply Rltb_true; exact D.
  - right; apply Rltb_true; lra.
Qed.

(** Over the reals [<] is a strict total order and no value is a NaN. *)
Lemma exactR_order : FloatOrder (F := R) (fun _ => false).
Proof.
  split.
  - exact Rltb_irrefl.
  - exact Rltb_trans.
  - intros a b c E _. exact (Rltb_cotrans a b c E).
  - intros a b _. split; reflexivity.
Qed.

Lemma SFltb_not_nan (u v : B32.t) :
  SFltb u v = true -> B32.is_nan u = false /\ B32.is_nan v = false.
Proof. destruct u, v; cbn; intros E; try discriminate; split; reflexivity. Qed.

(** Apart from NaN, [SFltb] is the lexicographic order of the ranks. *)
Lemma SFltb_rank (u v : B32.t) :
  B32.is_nan u = false -> B32.is_nan v = false ->
  (SFltb u v = true <-> lex_lt (SF_rank u) (SF_rank v)).
Proof.
  destruct u as [s1 | s1 | | s1 m1 e1], v as [s2 | s2 | | s2 m2 e2];
    intros Hu Hv; try discriminate; unfold SFltb, SFcompare, SF_rank, lex_lt;
    try (destruct s1); try (destruct s2); cbn [fst snd];
    try (split; intros; try discriminate; try reflexivity; lia).
  - change (Pos.compare_cont Eq m1 m2) with (Pos.compare m1 m2).
    destruct (Z.compare_spec e1 e2); [destruct (Pos.compare_spec m1 m2) | |]; cbn;
      split; intros; try discriminate; try reflexivity; lia.
  - change (Pos.compare_cont Eq m1 m2) with (Pos.compare m1 m2).
    destruct (Z.compare_spec e1 e2); [destruct (Pos.compare_spec m1 m2) | |]; cbn;
      split; intros; try discriminate; try reflexivity; lia.
Qed.

Lemma SFltb_irrefl (a : B32.t) : SFltb a a = false.
Proof.
  destruct (SFltb a a) eqn:E; [exfalso | reflexivity].
  destruct (SFltb_not_nan _ _ E) as [Ha _].
  apply (SFltb_rank _ _ Ha Ha) in E. unfold lex_lt in E. lia.
Qed.

Lemma SFltb_trans (a b c : B32.t) :
  SFltb a b = true -> SFltb b c = true -> SFltb a c = true.
Proof.
  intros E1 E2.
  destruct (SFltb_not_nan _ _ E1) as [Ha Hb].
  destruct (SFltb_not_nan _ _ E2) as [_ Hc].
  apply (SFltb_rank _ _ Ha Hb) in E1. apply (SFltb_rank _ _ Hb Hc) in E2.
  apply (SFltb_rank _ _ Ha Hc). unfold lex_lt in *. lia.
Qed.

Lemma SFltb_cotrans (a b c : B32.t) :
  SFltb a b = true -> B32.is_nan c = false ->
  SFltb a c = true \/ SFltb c b = true.
Proof.
  intros E1 Hc.
  destruct (SFltb_not_nan _ _ E1) as [Ha Hb].
  apply (SFltb_rank _ _ Ha Hb) in E1.
  assert (D : lex_lt (SF_rank a) (SF_rank c) \/ lex_lt (SF_rank c) (SF_rank b))
    by (unfold lex_lt in *; lia).
  destruct D as [D | D];
    [left; apply (SFltb_rank _ _ Ha Hc) | right; apply (SFltb_rank _ _ Hc Hb)];
    exact D.
Qed.

(** In binary32 [<] is a strict order in which only NaN is unordered, for
    all values: zeros of both signs, subnormals, infinities. *)
Lemma binary32_order : FloatOrder B32.is_nan.
Proof.
  split.
  - exact SFltb_irrefl.
  - exact SFltb_trans.
  - exact SFltb_cotrans.
  - exact SFltb_not_nan.
Qed.

Section OrderFacts.
Context {F : Type} `{FloatOps F} (f_nan : F -> bool) {Hord : FloatOrder f_nan}.
Open Scope flt_scope.

Lemma fltb_asym (a b : F) : (a <? b) = true -> (b <? a) = false.
Proof.
  intros E. destruct (b <? a) eqn:E'; [| reflexivity].
  pose proof (fltb_trans _ _ _ E E') as T. rewrite fltb_irrefl in T. discriminate.
Qed.
End OrderFacts.

(** ** Line: construction, intersection, move *)

Section ExactLine.
Open Scope R_scope.


(** The sentinel cannot be told from a real intersection at the origin. *)
Example findIntersectionPoint_origin_ambiguous :
  let o := mkvec3 0 0 0 in
  findIntersectionPoint (mkLine o o o o 1 0 0 0 0) (mkLine o o o o 0 1 0 0 0)
  = findIntersectionPoint (mkLine o o o o 1 0 0 0 0) (mkLine o o o o 1 0 1 0 0).
Proof.
  cbv zeta. unfold findIntersectionPoint; cbn.
  destruct (Reqb (1 * 1 - 0 * 0) 0) eqn:E1; Rbool; [lra |].
  destruct (Reqb (1 * 0 - 1 * 0) 0) eqn:E2; Rbool; [| lra].
  f_equal; field.
Qed.
End ExactLine.

(** The branch is taken on the exact comparison [determinant == 0] in every
    arithmetic; there is no tolerance. *)
Lemma findIntersectionPoint_branches {F : Type} `{FloatOps F} (this line2 : Line F) :
  let det := (getA this * getB line2 - getA line2 * getB this)%flt in
  findIntersectionPoint this line2
  = if (det == 0)%flt then mkvec3 0%flt 0%flt 1%flt
    else mkvec3 ((getB this * getC line2 - getB line2 * getC this) / det)%flt
                ((getA line2 * getC this - getA this * getC line2) / det)%flt
                1%flt.
Proof. reflexivity. Qed.

(** C2. [Line(p1, p2)] sets (a, b, c) = (1, 0, -p1.x) when p1.x == p2.x and
    otherwise a = p2.y - p1.y, b = p1.x - p2.x, c = -a p1.x - b p1.y; in both
    cases (px, py) = (p2.x - p1.x, p2.y - p1.y).  It holds for every
    arithmetic, so for binary32 as for the reals. *)
Theorem Line_ctor_coefficients {F : Type} `{FloatOps F} (p1 p2 : vec3 F) :
  let ln := Line_ctor p1 p2 in
  (if (x p1 == x p2)%flt
   then getA ln = 1%flt /\ getB ln = 0%flt /\ getC ln = (- x p1)%flt
   else getA ln = (y p2 - y p1)%flt /\
        getB ln = (x p1 - x p2)%flt /\
        getC ln = (- getA ln * x p1 - getB ln * y p1)%flt) /\
  getPx ln = (x p2 - x p1)%flt /\
  getPy ln = (y p2 - y p1)%flt.
Proof.
  cbv zeta; unfold Line_ctor, Line_abc.
  destruct (x p1 == x p2)%flt;
    match goal with |- context [fneb ?u ?v] => destruct (fneb u v) end;
    cbn; repeat split; reflexivity.
Qed.

(** The constructor stores the two defining points as they are given. *)
Lemma Line_ctor_points {F : Type} `{FloatOps F} (p1 p2 : vec3 F) :
  getP1 (Line_ctor p1 p2) = p1 /\ getP2 (Line_ctor p1 p2) = p2.
Proof.
  unfold Line_ctor. destruct (Line_abc p1 p2) as [[a b] c].
  destruct (fneb b 0%flt); split; reflexivity.
Qed.

(** The coefficients over the reals, with equality of coordinates as a
    proposition. *)
Lemma Line_ctor_vertical (p1 p2 : vec3 R) :
  x p1 = x p2 ->
  getA (Line_ctor p1 p2) = 1%R /\ getB (Line_ctor p1 p2) = 0%R /\
  getC (Line_ctor p1 p2) = (- x p1)%R.
Proof.
  intros E. unfold Line_ctor, Line_abc; cbn.
  destruct (Reqb (x p1) (x p2)) eqn:Eb; Rbool; [| contradiction].
  destruct (fneb 0%R 0%R); repeat split; reflexivity.
Qed.

Lemma Line_ctor_oblique (p1 p2 : vec3 R) :
  x p1 <> x p2 ->
  getA (Line_ctor p1 p2) = (y p2 - y p1)%R /\
  getB (Line_ctor p1 p2) = (x p1 - x p2)%R /\
  getC (Line_ctor p1 p2) = (- (y p2 - y p1) * x p1 - (x p1 - x p2) * y p1)%R.
Proof.
  intros E. unfold Line_ctor, Line_abc; cbn.
  destruct (Reqb (x p1) (x p2)) eqn:Eb; Rbool; [contradiction |].
  destruct (fneb (x p1 - x p2)%R 0%R); repeat split; reflexivity.
Qed.

Section ExactMove.
Open Scope R_scope.

Lemma move_keeps_coefficients {F : Type} `{FloatOps F} (l : Line F) (t : vec3 F) :
  getA (move l t) = getA l /\ getB (move l t) = getB l /\
  getC (move l t) = getC l /\
  getPx (move l t) = getPx l /\ getPy (move l t) = getPy l.
Proof. repeat split; reflexivity. Qed.



(** When no divisor is zero, [move_checked] is [move]. *)
Lemma move_checked_sound {F : Type} `{FloatOps F} (l l' : Line F) (t : vec3 F) :
  move_checked l t = Some l' -> l' = move l t.
Proof.
  unfold move_checked, fdiv_checked.
  destruct (getB l == 0)%flt; [discriminate |].
  intros E; injection E as <-. reflexivity.
Qed.

(** [move] divides by zero exactly when b = 0: it has no vertical case. *)
Lemma move_checked_None_iff (l : Line R) (t : vec3 R) :
  move_checked l t = None <-> getB l = 0.
Proof.
  unfold move_checked, fdiv_checked; cbn.
  destruct (Reqb (getB l) 0) eqn:E; Rbool; split; intros; congruence.
Qed.

(** The constructor gives b = 0 to every pair of points with equal x, so
    [move] on such a line divides by zero. *)
Lemma move_checked_vertical (p1 p2 t : vec3 R) :
  x p1 = x p2 -> move_checked (Line_ctor p1 p2) t = None.
Proof.
  intros E. apply move_checked_None_iff.
  destruct (Line_ctor_vertical p1 p2 E) as (_ & Lb & _). exact Lb.
Qed.

(** After construction the drawn endpoints satisfy the stored equation. *)
Lemma Line_ctor_endpoints_on_line (p1 p2 : vec3 R) :
  let ln := Line_ctor p1 p2 in
  on_line (getA ln) (getB ln) (getC ln) (getP3 ln) = 0 /\
  on_line (getA ln) (getB ln) (getC ln) (getP4 ln) = 0.
Proof.
  cbv zeta. unfold Line_ctor, Line_abc, fneb, on_line; cbn.
  destruct (Reqb (x p1) (x p2)) eqn:E; Rbool.
  - destruct (Reqb 0 0) eqn:E0; Rbool; [| contradiction]. cbn. split; ring.
  - destruct (Reqb (x p1 - x p2) 0) eqn:E0; Rbool; [lra |]. cbn.
    split; field; exact E0.
Qed.

(** [move] computes newC for the new positions but leaves the member [c]
    as it was: against the stored (a, b, c) the new endpoints are off by
    c - newC. *)
Lemma move_leaves_c_stale (l : Line R) (t : vec3 R) :
  getB l <> 0 ->
  let l' := move l t in
  getC l' = getC l /\
  on_line (getA l') (getB l') (getC l') (getP3 l') = getC l - move_newC l t /\
  on_line (getA l') (getB l') (getC l') (getP4 l') = getC l - move_newC l t.
Proof.
  intros Hb l'; unfold l', on_line, move_newC; cbn.
  repeat split; field; exact Hb.
Qed.
End ExactMove.

(** ** The same code read in binary32 *)

(** Dividing by zero in binary32 gives an infinity or a NaN, whatever the
    numerator. *)
Lemma SFdiv_by_zero (u : B32.t) (s : bool) :
  B32.is_nan (SFdiv B32.prec B32.emax u (S754_zero s))
  || B32.is_infinity (SFdiv B32.prec B32.emax u (S754_zero s)) = true.
Proof. destruct u; reflexivity. Qed.

(** So [move] on a line with b = 0 stores points whose y is not finite. *)
Lemma move_b_zero_not_finite (l : Line B32.t) (t : vec3 B32.t) (s : bool) :
  getB l = S754_zero s ->
  let not_finite u := B32.is_nan u || B32.is_infinity u in
  not_finite (y (getP1 (move l t))) = true /\
  not_finite (y (getP2 (move l t))) = true /\
  not_finite (y (getP3 (move l t))) = true /\
  not_finite (y (getP4 (move l t))) = true.
Proof.
  intros Hb; cbv zeta; unfold move; cbn. rewrite Hb.
  repeat split; apply SFdiv_by_zero.
Qed.

(** C4. [move] has no vertical case: on the line that the constructor
    builds from (0,0) and (0,1), which has b = 0, it divides by zero, in exact
    arithmetic and in binary32, where the y-coordinates it stores become
    infinite or NaN; dragging such a line puts these points into the
    registry. *)
Theorem move_vertical_line_divides_by_zero :
  move_checked (F := R) (Line_ctor (pt 0 0) (pt 0 1)) (pt 1 0) = None /\
  move_checked (F := B32.t) (Line_ctor (pt 0 0) (pt 0 1)) (pt 1 0) = None /\
  y (getP1 (move (F := B32.t) (Line_ctor (pt 0 0) (pt 0 1)) (pt 1 0))) = S754_infinity false /\
  y (getP2 (move (F := B32.t) (Line_ctor (pt 0 0) (pt 0 1)) (pt 1 0))) = S754_nan /\
  run (F := B32.t) (draw_and_drag (300, 450) (300, 150) (300, 300) (150, 300))%Z initial
  = Ok (state_after (draw_and_drag (300, 450) (300, 150) (300, 300) (150, 300))%Z) /\
  map y (Vtx (lines (state_after (F := B32.t)
                       (draw_and_drag (300, 450) (300, 150) (300, 300) (150, 300))%Z)))
  = [S754_infinity false; S754_infinity true; S754_infinity false; S754_infinity true].
Proof.
  split; [apply move_checked_vertical; reflexivity |].
  repeat conj_split; vm_compute; reflexivity.
Qed.

(** C5. After [move] the drawn endpoints no longer satisfy the stored
    equation: on the line through (0,0) and (1,0) moved to (0,1), p3 and p4
    are on y = 1 while the stored (a, b, c) still describes y = 0. *)
Theorem move_endpoints_off_stored_equation :
  (let l' := move (F := R) (Line_ctor (pt 0 0) (pt 1 0)) (pt 0 1) in
   on_line (getA l') (getB l') (getC l') (getP3 l') = (-1)%R /\
   on_line (getA l') (getB l') (getC l') (getP4 l') = (-1)%R) /\
  (let l' := move (F := B32.t) (Line_ctor (pt 0 0) (pt 1 0)) (pt 0 1) in
   (on_line (getA l') (getB l') (getC l') (getP3 l') == 0)%flt = false /\
   (on_line (getA l') (getB l') (getC l') (getP4 l') == 0)%flt = false) /\
  (let s := state_after (F := B32.t)
              (draw_and_drag (150, 300) (450, 300) (300, 300) (300, 150))%Z in
   run (draw_and_drag (150, 300) (450, 300) (300, 300) (300, 150))%Z initial = Ok s /\
   getP3 (moved s) = mkvec3 (- (1))%flt ((1 / 2)%flt) 1%flt /\
   (on_line (getA (moved s)) (getB (moved s)) (getC (moved s)) (getP3 (moved s)) == 0)%flt
   = false).
Proof.
  split; [| split; cbv zeta; repeat conj_split; vm_compute; reflexivity].
  cbv zeta.
  assert (Hx : x (pt (F := R) 0 0) <> x (pt (F := R) 1 0)) by (cbn; lra).
  destruct (Line_ctor_oblique _ _ Hx) as (La & Lb & Lc).
  cbn in La, Lb, Lc.
  assert (Hb : getB (Line_ctor (pt (F := R) 0 0) (pt 1 0)) <> 0%R) by (rewrite Lb; lra).
  destruct (move_leaves_c_stale _ (pt 0 1) Hb) as (_ & E3 & E4).
  cbv zeta in E3, E4. rewrite E3, E4.
  unfold move_newC. rewrite La, Lb, Lc. cbn. split; lra.
Qed.


(** ** Nearest point *)

Section ExactNearestPoint.
Open Scope R_scope.

(** What the scan over the remaining points returns, for any running
    minimum: either nothing beat it, or the first of the strictly smallest. *)
Lemma searchNearestP_loop_spec (pos : vec3 R) (rest : list (vec3 R)) :
  forall (minD : R) (est : vec3 R),
    let r := searchNearestP_loop pos rest minD est in
    (r = est /\ forall q, In q rest -> minD <= point_distance pos q) \/
    (exists k, nth_error rest k = Some r /\ point_distance pos r < minD /\
       (forall j q, nth_error rest j = Some q -> point_distance pos r <= point_distance pos q) /\
       (forall j q, (j < k)%nat -> nth_error rest j = Some q -> point_distance pos r < point_distance pos q)).
Proof.
  induction rest as [| q rest IH]; intros minD est;
    cbn [searchNearestP_loop fltb exactR].
  - left; split; [reflexivity | intros ? []].
  - destruct (Rltb (point_distance pos q) minD) eqn:E; Rbool.
    + destruct (IH (point_distance pos q) q) as [[-> Hall] | (k & Hk & Hlt & Hmin & Hfirst)].
      * right; exists 0%nat. repeat conj_split; auto.
        -- intros [| j] q' Hj; cbn in Hj.
           ++ injection Hj as <-; lra.
           ++ apply Hall, (nth_error_In _ _ Hj).
        -- intros j q' Hj; lia.
      * right; exists (S k). cbn [nth_error]. repeat conj_split; auto; try lra.
        -- intros [| j] q' Hj; cbn in Hj.
           ++ injection Hj as <-; lra.
           ++ eapply Hmin; eauto.
        -- intros [| j] q' Hjk Hj; cbn in Hj.
           ++ injection Hj as <-; lra.
           ++ eapply Hfirst; eauto; lia.
    + destruct (IH minD est) as [[-> Hall] | (k & Hk & Hlt & Hmin & Hfirst)].
      * left; split; [reflexivity |].
        intros q' [<- | Hin]; [lra | auto].
      * right; exists (S k). cbn [nth_error]. repeat conj_split; auto.
        -- intros [| j] q' Hj; cbn in Hj.
           ++ injection Hj as <-; lra.
           ++ eapply Hmin; eauto.
        -- intros [| j] q' Hjk Hj; cbn in Hj.
           ++ injection Hj as <-; lra.
           ++ eapply Hfirst; eauto; lia.
Qed.

Lemma point_distance_nonneg (pos q : vec3 R) : 0 <= point_distance pos q.
Proof. unfold point_distance; cbn. apply sqrt_pos. Qed.

Lemma point_distance_same_xy (pos q : vec3 R) :
  x q = x pos -> y q = y pos -> point_distance pos q = 0.
Proof.
  intros Ex Ey; unfold point_distance; cbn. rewrite Ex, Ey.
  replace ((x pos - x pos) * (x pos - x pos) + (y pos - y pos) * (y pos - y pos))
    with 0 by ring.
  apply sqrt_0.
Qed.

(** Over the reals, where the computed distance is the Euclidean distance:
    on a non-empty registry [searchNearestP] returns a stored point at
    minimal Euclidean distance from the query, the first such point in
    insertion order; on an empty registry it returns (0,0,1); queried at the
    coordinates of a stored point it returns a stored point at distance 0. *)
Lemma searchNearestP_nearest (ps : list (vec3 R)) (pos : vec3 R) :
  let r := searchNearestP ps pos in
  (ps = [] -> r = mkvec3 0 0 1) /\
  (ps <> [] ->
     exists k, nth_error ps k = Some r /\
       (forall j q, nth_error ps j = Some q -> point_distance pos r <= point_distance pos q) /\
       (forall j q, (j < k)%nat -> nth_error ps j = Some q -> point_distance pos r < point_distance pos q)) /\
  (forall q, In q ps -> x q = x pos -> y q = y pos ->
     In r ps /\ point_distance pos r = 0).
Proof.
  cbv zeta.
  assert (Hmain : ps <> [] ->
     exists k, nth_error ps k = Some (searchNearestP ps pos) /\
       (forall j q, nth_error ps j = Some q ->
          point_distance pos (searchNearestP ps pos) <= point_distance pos q) /\
       (forall j q, (j < k)%nat -> nth_error ps j = Some q ->
          point_distance pos (searchNearestP ps pos) < point_distance pos q)).
  { destruct ps as [| p0 rest]; [congruence | intros _]. cbn [searchNearestP].
    destruct (searchNearestP_loop_spec pos rest (point_distance pos p0) p0)
      as [[E Hall] | (k & Hk & Hlt & Hmin & Hfirst)].
    - rewrite E. exists 0%nat. repeat conj_split; auto.
      + intros [| j] q Hj; cbn in Hj.
        * injection Hj as <-; lra.
        * apply Hall, (nth_error_In _ _ Hj).
      + intros; lia.
    - exists (S k). cbn [nth_error]. repeat conj_split; auto.
      + intros [| j] q Hj; cbn in Hj.
        * injection Hj as <-; lra.
        * eapply Hmin; eauto.
      + intros [| j] q Hjk Hj; cbn in Hj.
        * injection Hj as <-; lra.
        * eapply Hfirst; eauto; lia. }
  split; [intros ->; reflexivity |].
  split; [exact Hmain |].
  intros q Hin Ex Ey.
  assert (Hne : ps <> []) by (intros ->; destruct Hin).
  destruct (Hmain Hne) as (k & Hk & Hmin & _).
  split; [exact (nth_error_In _ _ Hk) |].
  destruct (In_nth_error _ _ Hin) as (j & Hj).
  pose proof (Hmin j q Hj) as Hle.
  rewrite (point_distance_same_xy pos q Ex Ey) in Hle.
  pose proof (point_distance_nonneg pos (searchNearestP ps pos)). lra.
Qed.
End ExactNearestPoint.

(** The scan in any arithmetic with an order: what it returns is stated with
    the distances and the comparison that the code computes. *)
Section OrderedNearestPoint.
Context {F : Type} `{FloatOps F} (f_nan : F -> bool) {Hord : FloatOrder f_nan}.
Open Scope flt_scope.

(** For any running minimum: either nothing beat it, or the result is a
    remaining point that beat it, that no remaining point undercuts, and
    that every earlier remaining point exceeds (unless its distance is NaN). *)
Lemma searchNearestP_loop_order (pos : vec3 F) (rest : list (vec3 F)) :
  forall (minD : F) (est : vec3 F),
    let r := searchNearestP_loop pos rest minD est in
    (r = est /\ forall q, In q rest -> (point_distance pos q <? minD) = false) \/
    (exists k, nth_error rest k = Some r /\
       (point_distance pos r <? minD) = true /\
       (forall j q, nth_error rest j = Some q ->
          (point_distance pos q <? point_distance pos r) = false) /\
       (forall j q, (j < k)%nat -> nth_error rest j = Some q ->
          (point_distance pos r <? point_distance pos q) = true \/
          f_nan (point_distance pos q) = true)).
Proof.
  induction rest as [| q rest IH]; intros minD est; cbn [searchNearestP_loop].
  - left; split; [reflexivity | intros ? []].
  - destruct (point_distance pos q <? minD) eqn:E.
    + destruct (IH (point_distance pos q) q) as [[Er Hall] | (k & Hk & Hlt & Hmin & Hfirst)].
      * right; exists 0%nat. cbv zeta in Er |- *. rewrite Er.
        repeat conj_split; auto.
        -- intros [| j] q' Hj; cbn in Hj.
           ++ injection Hj as <-; apply fltb_irrefl.
           ++ apply Hall, (nth_error_In _ _ Hj).
        -- intros j q' Hj; lia.
      * right; exists (S k). cbn [nth_error]. repeat conj_split; auto.
        -- exact (fltb_trans _ _ _ Hlt E).
        -- intros [| j] q' Hj; cbn in Hj.
           ++ injection Hj as <-; apply (fltb_asym f_nan); exact Hlt.
           ++ eapply Hmin; eauto.
        -- intros [| j] q' Hjk Hj; cbn in Hj.
           ++ injection Hj as <-; left; exact Hlt.
           ++ eapply Hfirst; eauto; lia.
    + destruct (IH minD est) as [[Er Hall] | (k & Hk & Hlt & Hmin & Hfirst)].
      * left; split; [exact Er |].
        intros q' [<- | Hin]; [exact E | auto].
      * right; exists (S k). cbn [nth_error]. repeat conj_split; auto.
        -- intros [| j] q' Hj; cbn in Hj.
           ++ injection Hj as <-.
              destruct (point_distance pos q <? point_distance pos _) eqn:E'; [| reflexivity].
              rewrite (fltb_trans _ _ _ E' Hlt) in E. discriminate.
           ++ eapply Hmin; eauto.
        -- intros [| j] q' Hjk Hj; cbn in Hj.
           ++ injection Hj as <-.
              destruct (f_nan (point_distance pos q)) eqn:En; [right; reflexivity | left].
              destruct (fltb_cotrans _ _ _ Hlt En) as [D | D]; [exact D |].
              rewrite D in E; discriminate.
           ++ eapply Hfirst; eauto; lia.
Qed.

(** On a non-empty registry: the result is the stored point at some index
    k; no stored point has a smaller computed distance; every point before
    k has a larger one or a NaN; and the result's distance is a NaN only if
    the first point's is. *)
Lemma searchNearestP_order (p0 : vec3 F) (rest : list (vec3 F)) (pos : vec3 F) :
  let r := searchNearestP (p0 :: rest) pos in
  exists k, nth_error (p0 :: rest) k = Some r /\
    (forall j q, nth_error (p0 :: rest) j = Some q ->
       (point_distance pos q <? point_distance pos r) = false) /\
    (forall j q, (j < k)%nat -> nth_error (p0 :: rest) j = Some q ->
       (point_distance pos r <? point_distance pos q) = true \/
       f_nan (point_distance pos q) = true) /\
    (f_nan (point_distance pos p0) = false -> f_nan (point_distance pos r) = false).
Proof.
  cbv zeta. cbn [searchNearestP].
  destruct (searchNearestP_loop_order pos rest (point_distance pos p0) p0)
    as [[E Hall] | (k & Hk & Hlt & Hmin & Hfirst)].
  - cbv zeta in E. rewrite E. exists 0%nat. repeat conj_split; auto.
    + intros [| j] q Hj; cbn in Hj.
      * injection Hj as <-; apply fltb_irrefl.
      * apply Hall, (nth_error_In _ _ Hj).
    + intros; lia.
  - exists (S k). cbn [nth_error]. repeat conj_split; auto.
    + intros [| j] q Hj; cbn in Hj.
      * injection Hj as <-; apply (fltb_asym f_nan); exact Hlt.
      * eapply Hmin; eauto.
    + intros [| j] q Hjk Hj; cbn in Hj.
      * injection Hj as <-; left; exact Hlt.
      * eapply Hfirst; eauto; lia.
    + intros _. exact (proj1 (fltb_not_nan _ _ Hlt)).
Qed.
End OrderedNearestPoint.

(** In binary32 a number minus itself is +0. *)
Lemma SFsub_diag (u : B32.t) :
  B32_finite u = true -> SFsub B32.prec B32.emax u u = S754_zero false.
Proof.
  destruct u as [s | s | | s m e]; intros Hf; try discriminate.
  - destruct s; reflexivity.
  - unfold SFsub. rewrite Z.sub_diag. reflexivity.
Qed.

(** So the distance computed at the coordinates of a stored point is +0. *)
Lemma point_distance_same_xy_binary32 (pos q : vec3 B32.t) :
  x q = x pos -> y q = y pos ->
  B32_finite (x pos) = true -> B32_finite (y pos) = true ->
  point_distance pos q = S754_zero false.
Proof.
  intros Ex Ey Fx Fy. unfold point_distance. cbn [fsub fmul fadd fsqrt binary32].
  rewrite Ex, Ey, (SFsub_diag _ Fx), (SFsub_diag _ Fy). reflexivity.
Qed.

(** Rounding keeps the sign it is given. *)
Lemma binary_round_aux_sign (s : bool) (m e : Z) (l : location) :
  match binary_round_aux B32.prec B32.emax s m e l with
  | S754_zero s' | S754_infinity s' | S754_finite s' _ _ => s' = s
  | S754_nan => True
  end.
Proof.
  unfold binary_round_aux.
  destruct (shr_fexp B32.prec B32.emax m e l) as [mrs' e'].
  destruct (shr_fexp B32.prec B32.emax _ e' loc_Exact) as [mrs'' e''].
  destruct (shr_m mrs''); [reflexivity | | exact I].
  destruct (e'' <=? B32.emax - B32.prec)%Z; reflexivity.
Qed.

(** A square root that is neither above zero nor a NaN is a zero. *)
Lemma SFsqrt_not_above_zero (w : B32.t) :
  SFltb (S754_zero false) (SFsqrt B32.prec B32.emax w) = false ->
  B32.is_nan (SFsqrt B32.prec B32.emax w) = false ->
  SFeqb (SFsqrt B32.prec B32.emax w) (S754_zero false) = true.
Proof.
  destruct w as [s | s | | s m e].
  - intros _ _. reflexivity.
  - destruct s; cbn; intros; discriminate.
  - cbn; intros; discriminate.
  - destruct s; [cbn; intros; discriminate |].
    unfold SFsqrt.
    destruct (SFsqrt_core_binary B32.prec B32.emax (Z.pos m) e) as [[mz ez] lz].
    pose proof (binary_round_aux_sign false mz ez lz) as Hs.
    destruct (binary_round_aux B32.prec B32.emax false mz ez lz) as [s' | s' | | s' m' e'];
      try subst s'; cbn; intros; try discriminate; reflexivity.
Qed.

(** C7 as stated fails in binary32.  With the points placed at pixels
    (385,189) and (381,153) and the query at pixel (356,174), the two
    computed distances are the same float, so the scan keeps the first
    point; of the stored coordinates the second point is strictly nearer
    (the squares of the exact distances are compared). *)
Lemma searchNearestP_not_Euclidean_nearest :
  let p1 := cursor (F := B32.t) 385 189 in
  let p2 := cursor (F := B32.t) 381 153 in
  let pos := cursor (F := B32.t) 356 174 in
  points (state_after [Mouse GLUT_LEFT_BUTTON GLUT_DOWN 385 189;
                       Mouse GLUT_LEFT_BUTTON GLUT_DOWN 381 153]%Z) = [p1; p2] /\
  searchNearestP [p1; p2] pos = p1 /\
  point_distance pos p1 = point_distance pos p2 /\
  QArith_base.Qlt (exact_sq_distance pos p2) (exact_sq_distance pos p1).
Proof. cbv zeta; repeat conj_split; vm_compute; reflexivity. Qed.

(** C7, for the distance that the code computes.  In binary32, with
    d(q) = sqrtf((pos.x - q.x)^2 + (pos.y - q.y)^2) evaluated with its
    rounding: on an empty registry [searchNearestP] returns (0,0,1); on a
    non-empty one it returns the stored point at some index k such that no
    stored point has a smaller computed distance and every point before k
    has a larger one (or a NaN); queried at the coordinates of a stored
    point, both numbers, it returns a stored point at computed distance 0,
    unless the distance of the first stored point is a NaN. *)
Theorem searchNearestP_computed_nearest (ps : list (vec3 B32.t)) (pos : vec3 B32.t) :
  let r := searchNearestP ps pos in
  let d := point_distance pos in
  (ps = [] -> r = mkvec3 0 0 1)%flt /\
  (ps <> [] ->
     exists k, nth_error ps k = Some r /\
       (forall j q, nth_error ps j = Some q -> (d q <? d r)%flt = false) /\
       (forall j q, (j < k)%nat -> nth_error ps j = Some q ->
          (d r <? d q)%flt = true \/ B32.is_nan (d q) = true)) /\
  (forall q, In q ps -> x q = x pos -> y q = y pos ->
     B32_finite (x pos) = true -> B32_finite (y pos) = true ->
     B32.is_nan (d (hd pos ps)) = false ->
     In r ps /\ (d r == 0)%flt = true).
Proof.
  cbv zeta.
  split; [intros ->; reflexivity |].
  destruct ps as [| p0 rest].
  - split; [congruence | intros q []].
  - destruct (searchNearestP_order B32.is_nan (Hord := binary32_order) p0 rest pos)
      as (k & Hk & Hmin & Hfirst & Hnan).
    split.
    + intros _. exists k. repeat conj_split; [exact Hk | exact Hmin | exact Hfirst].
    + intros q Hin Ex Ey Fx Fy Hn. cbn [hd] in Hn.
      split; [exact (nth_error_In _ _ Hk) |].
      destruct (In_nth_error _ _ Hin) as (j & Hj).
      pose proof (Hmin j q Hj) as Hle.
      rewrite (point_distance_same_xy_binary32 pos q Ex Ey Fx Fy) in Hle.
      specialize (Hnan Hn).
      revert Hle Hnan. unfold point_distance at 1 2.
      cbn [fsqrt binary32]. intros Hle Hnan.
      exact (SFsqrt_not_above_zero _ Hle Hnan).
Qed.

Lemma searchNearestP_computed_nearest_witness :
  let ps := points (state_after (F := B32.t) two_points) in
  B32.is_nan (point_distance (cursor 450 150) (hd (cursor 450 150) ps)) = false /\
  (point_distance (cursor 450 150) (searchNearestP ps (cursor 450 150)) == 0)%flt = true.
Proof.
  cbv zeta.
  assert (Hn : B32.is_nan (point_distance (cursor 450 150)
                 (hd (cursor 450 150) (points (state_after (F := B32.t) two_points)))) = false)
    by (vm_compute; reflexivity).
  split; [exact Hn |].
  destruct (searchNearestP_computed_nearest (points (state_after (F := B32.t) two_points))
              (cursor 450 150)) as (_ & _ & H3).
  apply (H3 (cursor 450 150)); try (vm_compute; reflexivity).
  vm_compute. right; left; reflexivity.
Defined.

(** The hypothesis on the first stored point is needed: when its distance
    is a NaN no comparison succeeds and the scan returns it, whatever else
    is stored. *)
Example searchNearestP_first_distance_nan :
  searchNearestP [mkvec3 S754_nan 0%flt 1%flt; pt (F := B32.t) 1 1] (pt 1 1)
  = mkvec3 S754_nan 0%flt 1%flt.
Proof. vm_compute; reflexivity. Qed.

(** ** Nearest line *)

(** The index that the scan converts to [int] is the index itself while the
    registry is smaller than 2^31. *)
Lemma int_of_size_t_small (i : nat) :
  (Z.of_nat i < 2147483648)%Z -> int_of_size_t i = Z.of_nat i.
Proof.
  unfold int_of_size_t. change (2 ^ 31)%Z with 2147483648%Z.
  change (2 ^ 32)%Z with 4294967296%Z.
  intros Hi. rewrite Z.mod_small by lia. lia.
Qed.

(** The conversion to [int] may wrap, but a multiple of 4 stays one. *)
Lemma int_of_size_t_mod4 (i : nat) :
  (Z.of_nat i mod 4 = 0)%Z -> (int_of_size_t i mod 4 = 0)%Z.
Proof.
  unfold int_of_size_t. change (2 ^ 31)%Z with 2147483648%Z.
  change (2 ^ 32)%Z with 4294967296%Z.
  intros Hi. rewrite (Z.mod_eq (Z.of_nat i + 2147483648) 4294967296) by lia.
  set (q := ((Z.of_nat i + 2147483648) / 4294967296)%Z).
  apply Z.mod_divide in Hi; [| lia]. destruct Hi as [k Hk]. rewrite Hk.
  replace (k * 4 + 2147483648 - 4294967296 * q - 2147483648)%Z
    with ((k - 1073741824 * q) * 4)%Z by lia.
  apply Z_mod_mult.
Qed.

Section StoredDistance.
Context {F : Type} `{FloatOps F}.

Lemma stored_distance_O (a b : vec3 F) (tl : list (vec3 F)) (q : vec3 F) :
  stored_distance (a :: b :: tl) q 0 = distanceLine a b q.
Proof. reflexivity. Qed.

Lemma stored_distance_S (a b c d : vec3 F) (tl : list (vec3 F)) (q : vec3 F) (j : nat) :
  stored_distance (a :: b :: c :: d :: tl) q (S j) = stored_distance tl q j.
Proof.
  unfold stored_distance.
  replace (4 * S j)%nat with (S (S (S (S (4 * j))))) by lia. reflexivity.
Qed.

(** While no stored line is below the threshold the scan keeps its
    candidate, in every arithmetic. *)
Lemma findNearestLine_loop_far (q : vec3 F) (n : nat) :
  forall (rest : list (vec3 F)) (i : nat) (minD : F) (near : Z),
    List.length rest = (4 * n)%nat ->
    (forall j, (j < n)%nat -> flt_0_01 (stored_distance rest q j) = false) ->
    findNearestLine_loop q rest i minD near = Ok near.
Proof.
  induction n as [| n IH]; intros rest i minD near Hlen Hfar.
  - destruct rest; [reflexivity | discriminate].
  - destruct rest as [| a [| b [| c [| d rest']]]]; cbn in Hlen; try lia.
    cbn [findNearestLine_loop].
    pose proof (Hfar 0%nat ltac:(lia)) as Hz. rewrite stored_distance_O in Hz.
    rewrite Hz, andb_false_r.
    apply IH; [lia |].
    intros j Hj. specialize (Hfar (S j) ltac:(lia)).
    rewrite stored_distance_S in Hfar. exact Hfar.
Qed.

(** In particular a query for which no stored line has a computed distance
    below 0.01 finds nothing. *)
Lemma findNearestLine_far (lc : LineCollection F) (clickP : vec3 F) (n : nat) :
  List.length (Vtx lc) = (4 * n)%nat ->
  (forall j, (j < n)%nat -> flt_0_01 (stored_distance (Vtx lc) clickP j) = false) ->
  findNearestLine lc clickP = Ok (-1)%Z.
Proof. intros Hlen Hfar. exact (findNearestLine_loop_far clickP n _ _ _ _ Hlen Hfar). Qed.
End StoredDistance.

Section OrderedNearestLine.
Context {F : Type} `{FloatOps F} (f_nan : F -> bool) {Hord : FloatOrder f_nan}.
Open Scope flt_scope.

(** The scan from slot [i] on, for any running minimum and candidate: it
    returns, and either no remaining line is below both the running minimum
    and the threshold, and the candidate is kept; or it returns the slot of
    a remaining line that is below both, that no such line undercuts, and
    that every earlier such line exceeds. *)
Lemma findNearestLine_loop_spec (q : vec3 F) (n : nat) :
  forall (rest : list (vec3 F)) (i : nat) (minD : F) (near : Z),
    List.length rest = (4 * n)%nat ->
    exists r, findNearestLine_loop q rest i minD near = Ok r /\
      ((r = near /\
        forall j, (j < n)%nat ->
          (stored_distance rest q j <? minD) && flt_0_01 (stored_distance rest q j) = false) \/
       (exists k, (k < n)%nat /\ r = int_of_size_t (i + 4 * k) /\
          (stored_distance rest q k <? minD) = true /\
          flt_0_01 (stored_distance rest q k) = true /\
          (forall j, (j < n)%nat ->
             (stored_distance rest q j <? minD) = true ->
             flt_0_01 (stored_distance rest q j) = true ->
             (stored_distance rest q j <? stored_distance rest q k) = false) /\
          (forall j, (j < k)%nat ->
             (stored_distance rest q j <? minD) = true ->
             flt_0_01 (stored_distance rest q j) = true ->
             (stored_distance rest q k <? stored_distance rest q j) = true))).
Proof.
  induction n as [| n IH]; intros rest i minD near Hlen.
  - destruct rest; [| discriminate]. exists near.
    split; [reflexivity |]. left; split; [reflexivity | intros; lia].
  - destruct rest as [| a [| b [| c [| d rest']]]]; cbn in Hlen; try lia.
    assert (Hlen' : List.length rest' = (4 * n)%nat) by lia.
    cbn [findNearestLine_loop].
    pose proof (stored_distance_O a b (c :: d :: rest') q) as Hz.
    set (d0 := distanceLine a b q) in *.
    destruct ((d0 <? minD) && flt_0_01 d0) eqn:E.
    + apply andb_true_iff in E; destruct E as [E1 E2].
      destruct (IH rest' (i + 4)%nat d0 (int_of_size_t i) Hlen')
        as (r & Hr & [[Er Hnone] | (k & Hk & Er & Hlt & Hth & Hmin & Hfirst)]);
        exists r; (split; [exact Hr |]); subst r; right.
      * exists 0%nat. rewrite Hz. replace (i + 4 * 0)%nat with i by lia.
        repeat conj_split; auto; try lia.
        intros [| j] Hj Hm Ht; [rewrite Hz; apply fltb_irrefl |].
        rewrite stored_distance_S in *.
        pose proof (Hnone j ltac:(lia)) as Hn. rewrite Ht, andb_true_r in Hn. exact Hn.
      * exists (S k). rewrite !stored_distance_S.
        repeat conj_split; auto; try lia.
        -- f_equal; lia.
        -- exact (fltb_trans _ _ _ Hlt E1).
        -- intros [| j] Hj Hm Ht; [rewrite Hz; apply (fltb_asym f_nan); exact Hlt |].
           rewrite stored_distance_S in *.
           destruct (stored_distance rest' q j <? d0) eqn:Hd.
           ++ apply Hmin; auto; lia.
           ++ destruct (stored_distance rest' q j <? stored_distance rest' q k) eqn:Hjk;
                [| reflexivity].
              rewrite (fltb_trans _ _ _ Hjk Hlt) in Hd. discriminate.
        -- intros [| j] Hj Hm Ht; [rewrite Hz; exact Hlt |].
           rewrite stored_distance_S in *.
           destruct (stored_distance rest' q j <? d0) eqn:Hd.
           ++ apply Hfirst; auto; lia.
           ++ destruct (fltb_cotrans _ _ (stored_distance rest' q j) Hlt
                          (proj1 (fltb_not_nan _ _ Hm))) as [D | D]; [exact D |].
              rewrite D in Hd; discriminate.
    + destruct (IH rest' (i + 4)%nat minD near Hlen')
        as (r & Hr & [[Er Hnone] | (k & Hk & Er & Hlt & Hth & Hmin & Hfirst)]);
        exists r; (split; [exact Hr |]); subst r.
      * left; split; [reflexivity |].
        intros [| j] Hj; [rewrite Hz; exact E |].
        rewrite stored_distance_S. apply Hnone; lia.
      * right; exists (S k). rewrite !stored_distance_S.
        repeat conj_split; auto; try lia.
        -- f_equal; lia.
        -- intros [| j] Hj Hm Ht.
           ++ rewrite Hz in Hm, Ht. rewrite Hm, Ht in E. discriminate.
           ++ rewrite stored_distance_S in *. apply Hmin; auto; lia.
        -- intros [| j] Hj Hm Ht.
           ++ rewrite Hz in Hm, Ht. rewrite Hm, Ht in E. discriminate.
           ++ rewrite stored_distance_S in *. apply Hfirst; auto; lia.
Qed.
End OrderedNearestLine.

(** C6, for the distance that the code computes.  In every arithmetic whose
    [<] is a strict order (binary32 with its rounding and NaN, or the
    reals), with d(j) = |cross(direction, query - p1)| / |direction|
    evaluated in that arithmetic for the j-th stored line, and a line
    qualifying when d(j) < 20 and d(j) < 0.01: on a registry of n lines
    [findNearestLine] returns -1 exactly when no line qualifies; otherwise
    it returns the slot index 4k of a qualifying line that no qualifying line
    undercuts and that every earlier qualifying line exceeds; if no stored
    line has a distance below 0.01, the result is -1. *)
Theorem findNearestLine_nearest {F : Type} `{FloatOps F} (f_nan : F -> bool)
        (lc : LineCollection F) (clickP : vec3 F) (n : nat) :
  FloatOrder f_nan ->
  List.length (Vtx lc) = (4 * n)%nat ->
  let d := stored_distance (Vtx lc) clickP in
  let qualifies j := ((d j <? 20) && flt_0_01 (d j))%flt in
  exists r, findNearestLine lc clickP = Ok r /\
    ((r = (-1)%Z /\ forall j, (j < n)%nat -> qualifies j = false) \/
     (r <> (-1)%Z /\
      exists k, (k < n)%nat /\ r = int_of_size_t (4 * k) /\
        (d k <? 20)%flt = true /\ flt_0_01 (d k) = true /\
        (forall j, (j < n)%nat -> qualifies j = true -> (d j <? d k)%flt = false) /\
        (forall j, (j < k)%nat -> qualifies j = true -> (d k <? d j)%flt = true))) /\
    ((forall j, (j < n)%nat -> flt_0_01 (d j) = false) -> r = (-1)%Z).
Proof.
  intros Hord Hlen d qualifies. unfold findNearestLine.
  destruct (findNearestLine_loop_spec f_nan clickP n (Vtx lc) 0 20%flt (-1)%Z Hlen)
    as (r & Hr & [[Er Hnone] | (k & Hk & Er & Hlt & Hth & Hmin & Hfirst)]); subst r.
  - exists (-1)%Z. split; [exact Hr |].
    split; [left; split; [reflexivity | exact Hnone] | reflexivity].
  - exists (int_of_size_t (0 + 4 * k)). split; [exact Hr |]. split.
    + right. split.
      * intros E.
        assert (M : (int_of_size_t (0 + 4 * k) mod 4 = 0)%Z).
        { apply int_of_size_t_mod4. rewrite Nat.add_0_l, Nat2Z.inj_mul, Z.mul_comm.
          apply Z_mod_mult. }
        rewrite E in M. discriminate.
      * exists k. repeat conj_split; auto.
        -- intros j Hj Hq. apply andb_true_iff in Hq. destruct Hq. apply Hmin; auto.
        -- intros j Hj Hq. apply andb_true_iff in Hq. destruct Hq. apply Hfirst; auto.
    + intros Hfar. specialize (Hfar k Hk). unfold d in Hfar. rewrite Hfar in Hth. discriminate.
Qed.

Section ExactNearestLine.
Open Scope R_scope.

(** For points of the plane (equal z, as all stored points have z = 1) the
    distance is the perpendicular distance |d x (q - p1)| / |d| in 2D. *)
Lemma distanceLine_planar (p1 p2 q : vec3 R) :
  z p2 = z p1 -> z q = z p1 ->
  distanceLine p1 p2 q
  = Rabs ((x p2 - x p1) * (y q - y p1) - (y p2 - y p1) * (x q - x p1))
    / sqrt ((x p2 - x p1) * (x p2 - x p1) + (y p2 - y p1) * (y p2 - y p1)).
Proof.
  intros E2 Eq. unfold distanceLine, length, dot, cross, vec3_sub; cbn.
  rewrite E2, Eq.
  replace (z p1 - z p1) with 0 by ring.
  f_equal.
  - rewrite <- sqrt_Rsqr_abs. f_equal. unfold Rsqr. ring.
  - f_equal. ring.
Qed.
End ExactNearestLine.

(** ** Vector indexing *)

Section VectorFacts.
Context {A : Type}.

Lemma set_nth_length (v : list A) (n : nat) (a : A) :
  List.length (set_nth v n a) = List.length v.
Proof.
  revert n; induction v as [| hd tl IH]; intros [| n]; cbn; auto.
Qed.

Lemma nth_error_set_nth_same (v : list A) (n : nat) (a : A) :
  (n < List.length v)%nat -> nth_error (set_nth v n a) n = Some a.
Proof.
  revert n; induction v as [| hd tl IH]; intros [| n] Hn; cbn in *; try lia; auto.
  apply IH; lia.
Qed.

Lemma nth_error_set_nth_other (v : list A) (n k : nat) (a : A) :
  k <> n -> nth_error (set_nth v n a) k = nth_error v k.
Proof.
  revert n k; induction v as [| hd tl IH]; intros [| n] [| k] Hk; cbn; auto; try lia.
Qed.

Lemma vtx_set_in_bounds (v : list A) (i : Z) (a : A) :
  (0 <= i < Z.of_nat (List.length v))%Z ->
  vtx_set v i a = Ok (set_nth v (Z.to_nat i) a).
Proof.
  intros Hi; unfold vtx_set.
  destruct (Z.ltb_spec i 0); [lia |].
  destruct (Nat.ltb_spec (Z.to_nat i) (List.length v)); [reflexivity | lia].
Qed.

Lemma vtx_at_set_nth_same (v : list A) (i : Z) (a : A) :
  (0 <= i < Z.of_nat (List.length v))%Z ->
  vtx_at (set_nth v (Z.to_nat i) a) i = Ok a.
Proof.
  intros Hi; unfold vtx_at.
  destruct (Z.ltb_spec i 0); [lia |].
  rewrite nth_error_set_nth_same by lia. reflexivity.
Qed.

Lemma vtx_at_set_nth_other (v : list A) (i k : Z) (a : A) :
  (0 <= i)%Z -> k <> i ->
  vtx_at (set_nth v (Z.to_nat i) a) k = vtx_at v k.
Proof.
  intros Hi Hk; unfold vtx_at.
  destruct (Z.ltb_spec k 0); [reflexivity |].
  rewrite nth_error_set_nth_other by lia. reflexivity.
Qed.

Lemma vtx_at_negative (v : list A) (i : Z) : (i < 0)%Z -> vtx_at v i = OutOfBounds.
Proof. intros Hi; unfold vtx_at. destruct (Z.ltb_spec i 0); [reflexivity | lia]. Qed.
End VectorFacts.

(** ** The interaction state machine *)

Section StateMachine.
Context {F : Type} `{FloatOps F}.

Lemma size_addPoint (ps : list (vec3 F)) (q : vec3 F) :
  size (addPoint ps q) = (size ps + 1)%Z.
Proof. unfold size, addPoint. rewrite length_app; cbn. lia. Qed.

Lemma onKeyboard_fields (key : Z) (s : App F) :
  points (onKeyboard key s) = points s /\ lines (onKeyboard key s) = lines s.
Proof.
  unfold onKeyboard.
  destruct (key =? 112)%Z, (key =? 108)%Z, (key =? 109)%Z, (key =? 105)%Z;
    split; reflexivity.
Qed.








Lemma vtx_set_length (v v' : list (vec3 F)) (k : Z) (q : vec3 F) :
  vtx_set v k q = Ok v' -> List.length v' = List.length v.
Proof.
  unfold vtx_set. destruct (k <? 0)%Z; [discriminate |].
  destruct (Z.to_nat k <? List.length v)%nat; [| discriminate].
  intros E; injection E as <-. apply set_nth_length.
Qed.

Lemma onMouse_p_lines (state pX pY : Z) (s : App F) :
  lines (onMouse_p state pX pY s) = lines s.
Proof.
  unfold onMouse_p.
  destruct (Key.eqb (current s) Key.p && (state =? GLUT_DOWN)%Z); reflexivity.
Qed.

Lemma onMouse_l_slots (state pX pY : Z) (s : App F) :
  slots_inv s -> slots_inv (onMouse_l state pX pY s).
Proof.
  unfold onMouse_l, slots_inv. intros [n Hn].
  destruct (Key.eqb (current s) Key.l && (state =? GLUT_DOWN)%Z
            && (2 <=? size (points s))%Z); [| exists n; exact Hn].
  destruct (negb (isFirst (lines s))); cbn.
  - exists n; exact Hn.
  - exists (S n). rewrite length_app; cbn [List.length]. lia.
Qed.

Lemma onMouse_i_lines (state pX pY : Z) (s s' : App F) :
  onMouse_i state pX pY s = Ok s' -> lines s' = lines s.
Proof.
  unfold onMouse_i.
  destruct (Key.eqb (current s) Key.i && (state =? GLUT_DOWN)%Z);
    [| intros E; injection E as <-; reflexivity].
  destruct (findNearestLine (lines s) (cursor pX pY)) as [n |]; [| discriminate].
  cbn [bind idx set_idx].
  destruct (negb (n =? -1)%Z); [| intros E; injection E as <-; reflexivity].
  destruct (negb (firstLine (set_idx s n))); cbn [lines set_idx];
    (destruct (Line_at (lines s) n); [| discriminate]);
    cbn; intros E; injection E as <-; reflexivity.
Qed.

Lemma onMouse_m_lines (state pX pY : Z) (s s' : App F) :
  onMouse_m state pX pY s = Ok s' -> lines s' = lines s.
Proof.
  unfold onMouse_m.
  destruct (Key.eqb (current s) Key.m && (state =? GLUT_DOWN)%Z).
  - destruct (findNearestLine (lines s) (cursor pX pY)) as [n |]; [| discriminate].
    cbn [bind idx set_idx lines].
    destruct (Line_at (lines s) n); [| discriminate].
    cbn. intros E; injection E as <-; reflexivity.
  - destruct (Key.eqb (current s) Key.m && negb (state =? GLUT_DOWN)%Z);
      intros E; injection E as <-; reflexivity.
Qed.

Lemma onMouseMotion_slots (pX pY : Z) (s s' : App F) :
  onMouseMotion pX pY s = Ok s' ->
  List.length (Vtx (lines s')) = List.length (Vtx (lines s)).
Proof.
  unfold onMouseMotion.
  destruct (negb (idx s =? -1)%Z && Key.eqb (current s) Key.m);
    [| intros E; injection E as <-; reflexivity].
  cbn [idx set_moved lines moved].
  destruct (vtx_set (Vtx (lines s)) (idx s + 2) _) as [v1 |] eqn:E1; [| discriminate].
  cbn [bind].
  destruct (vtx_set v1 (idx s) _) as [v2 |] eqn:E2; [| discriminate]. cbn [bind].
  destruct (vtx_set v2 (idx s + 3) _) as [v3 |] eqn:E3; [| discriminate]. cbn [bind].
  destruct (vtx_set v3 (idx s + 1) _) as [v4 |] eqn:E4; [| discriminate]. cbn [bind].
  intros E; injection E as <-. cbn.
  rewrite (vtx_set_length _ _ _ _ E4), (vtx_set_length _ _ _ _ E3),
    (vtx_set_length _ _ _ _ E2), (vtx_set_length _ _ _ _ E1). reflexivity.
Qed.

Lemma step_slots (e : event) (s s' : App F) :
  step e s = Ok s' -> slots_inv s -> slots_inv s'.
Proof.
  destruct e as [key | key | button state pX pY | pX pY]; cbn [step].
  - intros E; injection E as <-. unfold slots_inv.
    destruct (onKeyboard_fields key s) as [_ ->]; auto.
  - intros E; injection E as <-. unfold slots_inv, onKeyboardUp.
    destruct (onKeyboard_fields key s) as [_ ->]; auto.
  - unfold onMouse.
    destruct (button =? GLUT_LEFT_BUTTON)%Z; [| intros E; injection E as <-; auto].
    intros E Hs.
    destruct (onMouse_i state pX pY (onMouse_l state pX pY (onMouse_p state pX pY s)))
      as [s1 |] eqn:Ei; [| discriminate].
    cbn [bind] in E.
    unfold slots_inv. rewrite (onMouse_m_lines _ _ _ _ _ E), (onMouse_i_lines _ _ _ _ _ Ei).
    apply onMouse_l_slots. unfold slots_inv. rewrite onMouse_p_lines. exact Hs.
  - intros E [n Hn]. exists n. rewrite (onMouseMotion_slots _ _ _ _ E). exact Hn.
Qed.

Lemma reachable_slots_inv (s : App F) : reachable s -> slots_inv s.
Proof.
  intros [es Hes].
  assert (G : forall es (s0 s1 : App F), run es s0 = Ok s1 -> slots_inv s0 -> slots_inv s1).
  { clear. induction es as [| e es IH]; intros s0 s1; cbn [run].
    - intros E; injection E as <-; auto.
    - destruct (step e s0) as [s2 |] eqn:Es; [| discriminate]. cbn [bind].
      intros E Hs. eapply IH; [exact E |]. eapply step_slots; eauto. }
  eapply G; [exact Hes |]. exists 0%nat. reflexivity.
Qed.

(** [findNearestLine] returns -1 or a multiple of 4. *)
Lemma findNearestLine_loop_mod4 (q : vec3 F) (n : nat) :
  forall (rest : list (vec3 F)) (i : nat) (minD : F) (near r : Z),
    (List.length rest <= n)%nat ->
    (Z.of_nat i mod 4 = 0)%Z ->
    (near = -1 \/ near mod 4 = 0)%Z ->
    findNearestLine_loop q rest i minD near = Ok r ->
    (r = -1 \/ r mod 4 = 0)%Z.
Proof.
  induction n as [| n IH]; intros rest i minD near r Hlen Hi Hnear.
  - destruct rest; [| cbn in Hlen; lia]. cbn. intros E; injection E as <-; exact Hnear.
  - destruct rest as [| a [| b tl]]; cbn [findNearestLine_loop].
    + intros E; injection E as <-; exact Hnear.
    + discriminate.
    + destruct ((distanceLine a b q <? minD)%flt && flt_0_01 (distanceLine a b q)).
      * destruct tl as [| c [| d rest']]; try (intros E; injection E as <-; right;
          apply int_of_size_t_mod4; exact Hi).
        apply IH; [cbn in Hlen; lia | | right; apply int_of_size_t_mod4; exact Hi].
        rewrite Nat2Z.inj_add, Z.add_mod, Hi by lia. reflexivity.
      * destruct tl as [| c [| d rest']]; try (intros E; injection E as <-; exact Hnear).
        apply IH; [cbn in Hlen; lia | | exact Hnear].
        rewrite Nat2Z.inj_add, Z.add_mod, Hi by lia. reflexivity.
Qed.

(** A press in MoveLine mode that is handled selects four slots of the
    registry: this is the state in which a drag starts. *)
Lemma MoveLine_press_selects_slots (s s' : App F) (pX pY : Z) :
  slots_inv s ->
  current s = Key.m ->
  onMouse GLUT_LEFT_BUTTON GLUT_DOWN pX pY s = Ok s' ->
  current s' = Key.m /\ lines s' = lines s /\
  (0 <= idx s')%Z /\ (idx s' + 3 < Z.of_nat (List.length (Vtx (lines s'))))%Z /\
  Line_at (lines s) (idx s') = Ok (moved s').
Proof.
  intros [n Hn] Hcur.
  assert (Ep : onMouse_p GLUT_DOWN pX pY s = s)
    by (unfold onMouse_p; rewrite Hcur; reflexivity).
  assert (El : onMouse_l GLUT_DOWN pX pY s = s)
    by (unfold onMouse_l; rewrite Hcur; reflexivity).
  assert (Ei : onMouse_i GLUT_DOWN pX pY s = Ok s)
    by (unfold onMouse_i; rewrite Hcur; reflexivity).
  unfold onMouse. change (GLUT_LEFT_BUTTON =? GLUT_LEFT_BUTTON)%Z with true.
  cbv iota. rewrite Ep, El, Ei. cbn [bind].
  unfold onMouse_m. rewrite Hcur.
  change (Key.eqb Key.m Key.m && (GLUT_DOWN =? GLUT_DOWN)%Z) with true. cbv iota.
  destruct (findNearestLine (lines s) (cursor pX pY)) as [r |] eqn:Er; [| discriminate].
  cbn [bind idx set_idx lines].
  destruct (Line_at (lines s) r) as [ln |] eqn:El'; [| discriminate]. cbn [bind].
  intros E; injection E as <-. cbn [current lines idx moved set_moved set_idx].
  split; [exact Hcur |]. split; [reflexivity |].
  assert (Hmod : (r = -1 \/ r mod 4 = 0)%Z).
  { unfold findNearestLine in Er.
    eapply (findNearestLine_loop_mod4 _ (List.length (Vtx (lines s))) (Vtx (lines s))
              0%nat _ (-1)%Z); [lia | reflexivity | left; reflexivity | exact Er]. }
  unfold Line_at, vtx_at in El'.
  destruct (Z.ltb_spec r 0); [discriminate |].
  destruct (nth_error (Vtx (lines s)) (Z.to_nat r)) as [q1 |] eqn:E1; [| discriminate].
  assert (Hr : (Z.to_nat r < List.length (Vtx (lines s)))%nat)
    by (apply nth_error_Some; congruence).
  destruct Hmod as [Hm | Hm]; [lia |].
  split; [lia |]. split; [| unfold Line_at, vtx_at;
    destruct (Z.ltb_spec r 0); [lia |]; rewrite E1; exact El'].
  rewrite Hn in *.
  apply Z.mod_divide in Hm; [| lia]. destruct Hm as [k Hk]. lia.
Qed.
End StateMachine.

Section Handlers.
Context {F : Type} `{FloatOps F}.
Open Scope Z_scope.


(** C9. In MoveLine mode, when [findNearestLine] finds no line (-1), the
    press handler still builds the drag line from slots idx and idx + 1: the
    read of slot -1 is out of bounds.  The premise holds whenever no
    stored line has a computed distance below 0.01 ([findNearestLine_far]);
    the states concerned are reachable, for instance right after start-up
    ([MoveLine_press_on_empty_registry] below). *)
Theorem onMouse_MoveLine_miss_out_of_bounds (s : App F) (pX pY : Z) :
  current s = Key.m ->
  findNearestLine (lines s) (cursor pX pY) = Ok (-1)%Z ->
  vtx_at (Vtx (lines s)) (-1) = OutOfBounds /\
  Line_at (lines s) (-1) = OutOfBounds /\
  step (Mouse GLUT_LEFT_BUTTON GLUT_DOWN pX pY) s = OutOfBounds.
Proof.
  intros Hcur Hmiss.
  split; [reflexivity | split; [reflexivity |]].
  assert (Ep : onMouse_p GLUT_DOWN pX pY s = s)
    by (unfold onMouse_p; rewrite Hcur; reflexivity).
  assert (El : onMouse_l GLUT_DOWN pX pY s = s)
    by (unfold onMouse_l; rewrite Hcur; reflexivity).
  assert (Ei : onMouse_i GLUT_DOWN pX pY s = Ok s)
    by (unfold onMouse_i; rewrite Hcur; reflexivity).
  cbn [step]. unfold onMouse. change (GLUT_LEFT_BUTTON =? GLUT_LEFT_BUTTON)%Z with true.
  cbv iota. rewrite Ep, El, Ei. cbn [bind].
  unfold onMouse_m. rewrite Hcur, Hmiss. reflexivity.
Qed.

(** With an empty line registry the miss needs no arithmetic: pressing 'm'
    and then the left button anywhere fails right after start-up. *)
Lemma MoveLine_press_on_empty_registry (pX pY : Z) :
  run [Keyboard 109; Mouse GLUT_LEFT_BUTTON GLUT_DOWN pX pY] (initial (F := F))
  = OutOfBounds.
Proof. reflexivity. Qed.

(** [idx] starts at 0, not -1: a motion event in MoveLine mode before any
    press writes to slots 0..3 of the empty registry. *)
Lemma MoveLine_motion_before_press (pX pY : Z) :
  run [Keyboard 109; Mouse GLUT_RIGHT_BUTTON GLUT_DOWN pX pY; MouseMotion pX pY]
      (initial (F := F)) = OutOfBounds.
Proof. reflexivity. Qed.

(** C10. A motion event of a MoveLine drag on the line at slots idx..idx+3
    overwrites all four slots: idx and idx + 2 with the moved line's p1,
    idx + 1 and idx + 3 with its p2, so the defining-point slots equal the
    endpoint slots; the x-coordinates are -1 and 1; what is stored depends
    only on the dragged line's coefficients and the cursor, not on what the
    slots held; the other slots, the mode and idx are unchanged. *)
Theorem onMouseMotion_overwrites_line (s : App F) (pX pY : Z) :
  current s = Key.m ->
  (0 <= idx s)%Z ->
  (idx s + 3 < Z.of_nat (List.length (Vtx (lines s))))%Z ->
  let mv := move (moved s) (cursor pX pY) in
  exists s', onMouseMotion pX pY s = Ok s' /\
    vtx_at (Vtx (lines s')) (idx s) = Ok (getP1 mv) /\
    vtx_at (Vtx (lines s')) (idx s + 1) = Ok (getP2 mv) /\
    vtx_at (Vtx (lines s')) (idx s + 2) = Ok (getP1 mv) /\
    vtx_at (Vtx (lines s')) (idx s + 3) = Ok (getP2 mv) /\
    x (getP1 mv) = (- (1))%flt /\ x (getP2 mv) = 1%flt /\
    y (getP1 mv) = ((- getA (moved s) * - (1) - move_newC (moved s) (cursor pX pY))
                    / getB (moved s))%flt /\
    y (getP2 mv) = ((- getA (moved s) * 1 - move_newC (moved s) (cursor pX pY))
                    / getB (moved s))%flt /\
    (forall k, (k < idx s \/ idx s + 3 < k)%Z ->
       vtx_at (Vtx (lines s')) k = vtx_at (Vtx (lines s)) k) /\
    List.length (Vtx (lines s')) = List.length (Vtx (lines s)) /\
    moved s' = mv /\ idx s' = idx s /\ current s' = Key.m.
Proof.
  intros Hcur Hlo Hhi mv.
  unfold onMouseMotion. rewrite Hcur.
  destruct (Z.eqb_spec (idx s) (-1)); [lia |].
  cbn [negb andb Key.eqb idx set_moved lines moved]. fold mv.
  set (v0 := Vtx (lines s)) in *.
  rewrite (vtx_set_in_bounds v0 (idx s + 2) (getP1 mv)) by lia. cbn [bind].
  set (v1 := set_nth v0 (Z.to_nat (idx s + 2)) (getP1 mv)).
  assert (L1 : List.length v1 = List.length v0) by apply set_nth_length.
  rewrite (vtx_set_in_bounds v1 (idx s) (getP1 mv)) by lia. cbn [bind].
  set (v2 := set_nth v1 (Z.to_nat (idx s)) (getP1 mv)).
  assert (L2 : List.length v2 = List.length v0)
    by (unfold v2; rewrite set_nth_length; exact L1).
  rewrite (vtx_set_in_bounds v2 (idx s + 3) (getP2 mv)) by lia. cbn [bind].
  set (v3 := set_nth v2 (Z.to_nat (idx s + 3)) (getP2 mv)).
  assert (L3 : List.length v3 = List.length v0)
    by (unfold v3; rewrite set_nth_length; exact L2).
  rewrite (vtx_set_in_bounds v3 (idx s + 1) (getP2 mv)) by lia. cbn [bind].
  set (v4 := set_nth v3 (Z.to_nat (idx s + 1)) (getP2 mv)).
  eexists; split; [reflexivity |].
  cbn [lines Vtx set_lines moved idx current set_moved]. fold v4.
  repeat conj_split; try reflexivity; auto.
  - unfold v4, v3. rewrite !vtx_at_set_nth_other by lia.
    apply vtx_at_set_nth_same; lia.
  - apply vtx_at_set_nth_same; lia.
  - unfold v4, v3, v2. rewrite !vtx_at_set_nth_other by lia.
    apply vtx_at_set_nth_same; lia.
  - unfold v4. rewrite vtx_at_set_nth_other by lia.
    apply vtx_at_set_nth_same; lia.
  - intros k Hk. unfold v4, v3, v2, v1.
    rewrite !vtx_at_set_nth_other by lia. reflexivity.
  - unfold v4. rewrite set_nth_length. exact L3.
Qed.
End Handlers.

(** ** Concrete runs *)

Lemma reachable_state_after (es : list event) :
  run (F := B32.t) es initial <> OutOfBounds -> reachable (state_after (F := B32.t) es).
Proof.
  intros Hok. exists es. unfold state_after.
  destruct (run es initial); [reflexivity | contradiction].
Qed.

(** Scenario 1 of the specification: the line through (-0.5,-0.5) and
    (0.5,0.5) has a = 1, b = -1, c = 0, direction (1,1) and is drawn from
    (-1,-1) to (1,1). *)
Example scenario_line_through_diagonal :
  let ln := Line_ctor (F := B32.t)
              (mkvec3 (cX_of 150) (cY_of 450) 1%flt) (mkvec3 (cX_of 450) (cY_of 150) 1%flt) in
  (getA ln, getB ln, getPx ln, getPy ln) = (1%flt, (- (1))%flt, 1%flt, 1%flt) /\
  (getC ln == 0)%flt = true /\
  map (fun q => (x q, y q)) (Vtx (lines (state_after (F := B32.t) one_line)))
  = [ ((- (1 / 2))%flt, (- (1 / 2))%flt); ((1 / 2)%flt, (1 / 2)%flt);
      ((- (1))%flt, (- (1))%flt); (1%flt, 1%flt) ].
Proof. cbv zeta; repeat conj_split; vm_compute; reflexivity. Qed.

(** The nearest-line query in binary32: a press on the line selects slot 0,
    a press away from it selects nothing. *)
Example findNearestLine_hit_and_miss :
  findNearestLine (lines (state_after (F := B32.t) one_line)) (cursor 300 300) = Ok 0%Z /\
  findNearestLine (lines (state_after (F := B32.t) one_line)) (cursor 150 150) = Ok (-1)%Z.
Proof. split; vm_compute; reflexivity. Qed.

(** Scenario 2: the lines y = 0 and x = 0 meet at the origin. *)
Example scenario_axes_intersect :
  let h := Line_ctor (F := B32.t) (pt (-1) 0) (pt 1 0) in
  let v := Line_ctor (F := B32.t) (pt 0 (-1)) (pt 0 1) in
  let P := findIntersectionPoint h v in
  (x P == 0)%flt = true /\ (y P == 0)%flt = true /\ z P = 1%flt /\
  findIntersectionPoint h h = mkvec3 0%flt 0%flt 1%flt.
Proof. cbv zeta; repeat conj_split; vm_compute; reflexivity. Qed.

(** The nearest-point query in binary32: at the pixel of a stored point it
    returns that point; on the empty registry, the sentinel. *)
Example searchNearestP_hit_and_empty :
  searchNearestP (points (state_after (F := B32.t) two_points)) (cursor 450 150)
  = mkvec3 (1 / 2)%flt (1 / 2)%flt 1%flt /\
  searchNearestP (points (state_after (F := B32.t) two_points)) (cursor 0 600)
  = mkvec3 (- (1 / 2))%flt (- (1 / 2))%flt 1%flt /\
  searchNearestP (F := B32.t) [] (cursor 450 150) = mkvec3 0%flt 0%flt 1%flt.
Proof. repeat conj_split; vm_compute; reflexivity. Qed.

(** No tolerance: a determinant of 2^-20 is not zero, and the lines x = 0
    and x + 2^-20 y = 1 meet at (0, 2^20). *)
Example findIntersectionPoint_tiny_determinant :
  let o := mkvec3 (F := B32.t) 0%flt 0%flt 0%flt in
  let eps := (1 / f_of_Z 1048576)%flt in
  let P := findIntersectionPoint (mkLine o o o o 1%flt 0%flt 0%flt 0%flt 0%flt)
                                 (mkLine o o o o 1%flt eps (- (1))%flt 0%flt 0%flt) in
  (x P == 0)%flt = true /\ y P = f_of_Z 1048576 /\ z P = 1%flt.
Proof. cbv zeta; repeat conj_split; vm_compute; reflexivity. Qed.

Lemma findNearestLine_nearest_witness :
  let lc := lines (state_after (F := B32.t) one_line) in
  FloatOrder B32.is_nan /\
  List.length (Vtx lc) = (4 * 1)%nat /\
  exists r, findNearestLine lc (cursor 300 300) = Ok r /\
    ((r = (-1)%Z /\ flt_0_01 (stored_distance (Vtx lc) (cursor 300 300) 0) = false) \/
     (r = int_of_size_t (4 * 0) /\
      flt_0_01 (stored_distance (Vtx lc) (cursor 300 300) 0) = true)).
Proof.
  cbv zeta.
  assert (Hlen : List.length (Vtx (lines (state_after (F := B32.t) one_line))) = (4 * 1)%nat)
    by (vm_compute; reflexivity).
  split; [exact binary32_order |]. split; [exact Hlen |].
  destruct (findNearestLine_nearest B32.is_nan (lines (state_after one_line)) (cursor 300 300) 1
              binary32_order Hlen) as (r & Hr & Hcase & _).
  exists r. split; [exact Hr |].
  destruct Hcase as [[E Hnone] | (_ & k & Hk & E & _ & Hth & _)].
  - left. split; [exact E |]. specialize (Hnone 0%nat ltac:(lia)).
    apply andb_false_iff in Hnone. destruct Hnone as [Hn | Hn]; [| exact Hn].
    exfalso. revert Hn. vm_compute. discriminate.
  - right. replace k with 0%nat in * by lia. split; [exact E | exact Hth].
Defined.

(** C6 as stated fails in binary32 when the distance is read as the
    perpendicular distance itself.  The line drawn between pixels (394,19)
    and (352,75) is selected by a press at pixel (355,66): the distance the
    code computes there is 10737417 * 2^-30, the largest float below 0.01,
    while the perpendicular distance of the stored query position from the
    line through the stored defining points is above 0.01 (its square is
    above 1/10000). *)
Lemma findNearestLine_selects_beyond_threshold :
  let s := state_after (F := B32.t) (draw_line (394, 19) (352, 75))%Z in
  let click := cursor (F := B32.t) 355 66 in
  run (draw_line (394, 19) (352, 75))%Z initial = Ok s /\
  Vtx (lines s)
  = [ cursor 394 19; cursor 352 75;
      getP3 (Line_ctor (cursor 394 19) (cursor 352 75));
      getP4 (Line_ctor (cursor 394 19) (cursor 352 75)) ] /\
  findNearestLine (lines s) click = Ok 0%Z /\
  idx (state_after (draw_line (394, 19) (352, 75)
                    ++ [Mouse GLUT_LEFT_BUTTON GLUT_DOWN 355 66])%Z) = 0%Z /\
  stored_distance (Vtx (lines s)) click 0 = S754_finite false 10737417 (-30) /\
  QArith_base.Qlt (QArith_base.Qmake 1 10000)
    (exact_sq_distanceLine (cursor 394 19) (cursor 352 75) click).
Proof. cbv zeta; repeat conj_split; vm_compute; reflexivity. Qed.

(** A line from a point to itself is stored first, the line y = 0 second;
    a press on y = 0 selects slot 4: the distance computed for the first
    line is 0/0, a NaN, which is below nothing. *)
Example findNearestLine_skips_degenerate_line :
  findNearestLine
    (mkLineCollection (F := B32.t)
       [pt 0 0; pt 0 0; pt 0 (-1); pt 0 1; pt (-1) 0; pt 1 0; pt (-1) 0; pt 1 0]
       false (pt 0 0)) (pt 3 0)
  = Ok 4%Z.
Proof. vm_compute; reflexivity. Qed.


Lemma onMouse_MoveLine_miss_out_of_bounds_witness :
  reachable (state_after (F := B32.t) one_line) /\
  current (state_after (F := B32.t) one_line) = Key.m /\
  List.length (Vtx (lines (state_after (F := B32.t) one_line))) = 4%nat /\
  findNearestLine (lines (state_after (F := B32.t) one_line)) (cursor 150 150) = Ok (-1)%Z /\
  step (Mouse GLUT_LEFT_BUTTON GLUT_DOWN 150 150) (state_after (F := B32.t) one_line)
  = OutOfBounds.
Proof.
  assert (R1 : reachable (state_after (F := B32.t) one_line))
    by (apply reachable_state_after; vm_compute; discriminate).
  assert (C1 : current (state_after (F := B32.t) one_line) = Key.m)
    by (vm_compute; reflexivity).
  assert (M1 : findNearestLine (lines (state_after (F := B32.t) one_line)) (cursor 150 150)
               = Ok (-1)%Z) by (vm_compute; reflexivity).
  split; [exact R1 |]. split; [exact C1 |].
  split; [vm_compute; reflexivity |]. split; [exact M1 |].
  exact (proj2 (proj2 (onMouse_MoveLine_miss_out_of_bounds
                         (state_after one_line) 150 150 C1 M1))).
Defined.

Lemma onMouseMotion_overwrites_line_witness :
  let s := state_after (F := B32.t) line_grabbed in
  current s = Key.m /\ (0 <= idx s)%Z /\
  (idx s + 3 < Z.of_nat (List.length (Vtx (lines s))))%Z /\
  exists s', onMouseMotion 300 150 s = Ok s' /\
    vtx_at (Vtx (lines s')) (idx s) = vtx_at (Vtx (lines s')) (idx s + 2) /\
    vtx_at (Vtx (lines s')) (idx s + 1) = vtx_at (Vtx (lines s')) (idx s + 3).
Proof.
  cbv zeta.
  assert (C1 : current (state_after (F := B32.t) line_grabbed) = Key.m)
    by (vm_compute; reflexivity).
  assert (B1 : (0 <= idx (state_after (F := B32.t) line_grabbed))%Z)
    by (vm_compute; discriminate).
  assert (B2 : (idx (state_after (F := B32.t) line_grabbed) + 3
                < Z.of_nat (List.length (Vtx (lines (state_after (F := B32.t) line_grabbed)))))%Z)
    by (vm_compute; reflexivity).
  split; [exact C1 |]. split; [exact B1 |]. split; [exact B2 |].
  destruct (onMouseMotion_overwrites_line (state_after line_grabbed) 300 150 C1 B1 B2)
    as (s' & E & A0 & A1 & A2 & A3 & _).
  exists s'. split; [exact E |].
  rewrite A0, A1, A2, A3. split; reflexivity.
Defined.

(** The drag of the example in binary32: the registry held (-0.5,-0.5) and
    (0.5,0.5) as the defining points; after one motion event it holds
    (-1,-0.5) and (1,1.5) in both pairs of slots. *)
Example drag_loses_defining_points :
  map (fun q => (x q, y q)) (Vtx (lines (state_after (F := B32.t) line_grabbed)))
  = [ ((- (1 / 2))%flt, (- (1 / 2))%flt); ((1 / 2)%flt, (1 / 2)%flt);
      ((- (1))%flt, (- (1))%flt); (1%flt, 1%flt) ] /\
  map (fun q => (x q, y q))
      (Vtx (lines (state_after (F := B32.t) (line_grabbed ++ [MouseMotion 300 150]))))
  = [ ((- (1))%flt, (- (1 / 2))%flt); (1%flt, (f_of_Z 3 / 2)%flt);
      ((- (1))%flt, (- (1 / 2))%flt); (1%flt, (f_of_Z 3 / 2)%flt) ].
Proof. split; vm_compute; reflexivity. Qed.

(** * Further properties of the code *)

(** ** The constructed line *)

Section ExactLineGeometry.
Open Scope R_scope.

Lemma Line_ctor_pxpy {F : Type} `{FloatOps F} (p1 p2 : vec3 F) :
  getPx (Line_ctor p1 p2) = (x p2 - x p1)%flt /\
  getPy (Line_ctor p1 p2) = (y p2 - y p1)%flt.
Proof.
  unfold Line_ctor. destruct (Line_abc p1 p2) as [[a b] c].
  destruct (fneb b 0%flt); split; reflexivity.
Qed.

(** X1. The line built by [Line(p1, p2)] passes through both defining
    points, in the vertical branch as in the general one, and also when the
    two points coincide. *)
Theorem Line_ctor_through_points (p1 p2 : vec3 R) :
  let ln := Line_ctor p1 p2 in
  on_line (getA ln) (getB ln) (getC ln) p1 = 0 /\
  on_line (getA ln) (getB ln) (getC ln) p2 = 0.
Proof.
  cbv zeta. unfold on_line; cbn.
  destruct (Req_dec_T (x p1) (x p2)) as [E | E].
  - destruct (Line_ctor_vertical p1 p2 E) as (-> & -> & ->). rewrite <- E. split; ring.
  - destruct (Line_ctor_oblique p1 p2 E) as (-> & -> & ->). split; ring.
Qed.

(** X2. The parametric direction (px, py) is orthogonal to the normal
    (a, b): every point p1 + t (px, py) of the parametric form lies on the
    implicit line; t = 1 gives p2. *)
Theorem Line_ctor_parametric_on_line (p1 p2 : vec3 R) (t : R) :
  let ln := Line_ctor p1 p2 in
  getA ln * getPx ln + getB ln * getPy ln = 0 /\
  on_line (getA ln) (getB ln) (getC ln)
          (mkvec3 (x p1 + t * getPx ln) (y p1 + t * getPy ln) 1) = 0 /\
  x p1 + 1 * getPx ln = x p2 /\ y p1 + 1 * getPy ln = y p2.
Proof.
  cbv zeta. unfold on_line; cbn.
  destruct (Line_ctor_pxpy p1 p2) as (-> & ->); cbn.
  destruct (Req_dec_T (x p1) (x p2)) as [E | E].
  - destruct (Line_ctor_vertical p1 p2 E) as (-> & -> & ->). rewrite <- E.
    repeat conj_split; ring.
  - destruct (Line_ctor_oblique p1 p2 E) as (-> & -> & ->). repeat conj_split; ring.
Qed.

(** X3. The endpoints that are drawn lie on the line and on the border of
    the world square: at x = -1 and x = 1 in general, and at y = -1 and
    y = 1 above and below p1 for a vertical pair of points. *)
Theorem Line_ctor_render_endpoints (p1 p2 : vec3 R) :
  let ln := Line_ctor p1 p2 in
  on_line (getA ln) (getB ln) (getC ln) (getP3 ln) = 0 /\
  on_line (getA ln) (getB ln) (getC ln) (getP4 ln) = 0 /\
  z (getP3 ln) = 1 /\ z (getP4 ln) = 1 /\
  (x p1 <> x p2 -> x (getP3 ln) = -1 /\ x (getP4 ln) = 1) /\
  (x p1 = x p2 ->
   getP3 ln = mkvec3 (x p1) (-1) 1 /\ getP4 ln = mkvec3 (x p1) 1 1).
Proof.
  cbv zeta.
  destruct (Line_ctor_endpoints_on_line p1 p2) as [E3 E4].
  split; [exact E3 |]. split; [exact E4 |].
  unfold Line_ctor, Line_abc, fneb; cbn.
  destruct (Reqb (x p1) (x p2)) eqn:E; Rbool.
  - destruct (Reqb 0 0) eqn:E0; Rbool; [| contradiction]. cbn.
    repeat conj_split; try reflexivity; intros; [contradiction | split; reflexivity].
  - destruct (Reqb (x p1 - x p2) 0) eqn:E0; Rbool; [lra |]. cbn.
    repeat conj_split; try reflexivity; intros; [split; reflexivity | contradiction].
Qed.

(** X4. The equation that [addLine] prints, with c recomputed from a, b
    and p1, is the stored one for a constructed line; both defining points
    satisfy it, and the printed parametric form starts at p1 and reaches p2
    at t = 1. *)
Theorem addLine_report_consistent (p1 p2 : vec3 R) :
  let rp := addLine_report (Line_ctor p1 p2) in
  report_c rp = getC (Line_ctor p1 p2) /\
  on_line (report_a rp) (report_b rp) (report_c rp) p1 = 0 /\
  on_line (report_a rp) (report_b rp) (report_c rp) p2 = 0 /\
  report_origin rp = (x p1, y p1) /\
  fst (report_origin rp) + fst (report_direction rp) = x p2 /\
  snd (report_origin rp) + snd (report_direction rp) = y p2.
Proof.
  cbv zeta. unfold addLine_report, on_line; cbn.
  destruct (Line_ctor_points p1 p2) as (-> & _).
  destruct (Line_ctor_pxpy p1 p2) as (-> & ->); cbn.
  destruct (Req_dec_T (x p1) (x p2)) as [E | E].
  - destruct (Line_ctor_vertical p1 p2 E) as (-> & -> & ->). rewrite <- E.
    repeat conj_split; try reflexivity; ring.
  - destruct (Line_ctor_oblique p1 p2 E) as (-> & -> & ->).
    repeat conj_split; try reflexivity; ring.
Qed.
End ExactLineGeometry.

(** ** Intersection *)

Section ExactIntersection.
Open Scope R_scope.

(** X5. [findIntersectionPoint] does not depend on which of the two lines
    is the receiver. *)
Theorem findIntersectionPoint_comm (la lb : Line R) :
  findIntersectionPoint la lb = findIntersectionPoint lb la.
Proof.
  unfold findIntersectionPoint; cbn.
  destruct (Reqb (getA la * getB lb - getA lb * getB la) 0) eqn:E1;
    destruct (Reqb (getA lb * getB la - getA la * getB lb) 0) eqn:E2; Rbool;
    try reflexivity; try lra.
  f_equal; field; split; assumption.
Qed.

(** X6. When the determinant is not zero the returned point is the only
    common point of the two lines: any (x, y) satisfying both equations has
    the coordinates of the result. *)
Theorem findIntersectionPoint_unique (la lb : Line R) (q : vec3 R) :
  getA la * getB lb - getA lb * getB la <> 0 ->
  on_line (getA la) (getB la) (getC la) q = 0 ->
  on_line (getA lb) (getB lb) (getC lb) q = 0 ->
  x q = x (findIntersectionPoint la lb) /\ y q = y (findIntersectionPoint la lb).
Proof.
  unfold on_line, findIntersectionPoint; cbn. intros Hdet Ha Hb.
  destruct (Reqb (getA la * getB lb - getA lb * getB la) 0) eqn:E; Rbool;
    [contradiction |]. cbn.
  set (det := getA la * getB lb - getA lb * getB la) in *.
  assert (Ex : x q * det = getB la * getC lb - getB lb * getC la).
  { unfold det.
    replace (getB la * getC lb - getB lb * getC la)
      with (getB la * getC lb - getB lb * getC la
            + getB lb * (getA la * x q + getB la * y q + getC la)
            - getB la * (getA lb * x q + getB lb * y q + getC lb))
      by (rewrite Ha, Hb; ring).
    ring. }
  assert (Ey : y q * det = getA lb * getC la - getA la * getC lb).
  { unfold det.
    replace (getA lb * getC la - getA la * getC lb)
      with (getA lb * getC la - getA la * getC lb
            + getA la * (getA lb * x q + getB lb * y q + getC lb)
            - getA lb * (getA la * x q + getB la * y q + getC la))
      by (rewrite Ha, Hb; ring).
    ring. }
  split.
  - rewrite <- Ex. field. exact Hdet.
  - rewrite <- Ey. field. exact Hdet.
Qed.

Lemma findIntersectionPoint_unique_witness :
  let o := mkvec3 0 0 0 in
  let la := mkLine o o o o 1 0 (-2) 0 0 in
  let lb := mkLine o o o o 0 1 (-3) 0 0 in
  getA la * getB lb - getA lb * getB la <> 0 /\
  x (findIntersectionPoint la lb) = 2 /\ y (findIntersectionPoint la lb) = 3.
Proof.
  cbv zeta.
  assert (Hdet : 1 * 1 - 0 * 0 <> 0) by lra.
  split; [exact Hdet |].
  destruct (findIntersectionPoint_unique
              (mkLine (mkvec3 0 0 0) (mkvec3 0 0 0) (mkvec3 0 0 0) (mkvec3 0 0 0) 1 0 (-2) 0 0)
              (mkLine (mkvec3 0 0 0) (mkvec3 0 0 0) (mkvec3 0 0 0) (mkvec3 0 0 0) 0 1 (-3) 0 0)
              (mkvec3 2 3 1) Hdet) as [Wx Wy].
  - unfold on_line; cbn; ring.
  - unfold on_line; cbn; ring.
  - cbn [x y] in Wx, Wy. split; symmetry; assumption.
Defined.
End ExactIntersection.

(** ** The distance used for selecting a line *)

Section ExactDistance.
Open Scope R_scope.

Lemma sqrt_square_abs (u : R) : sqrt (u * u) = Rabs u.
Proof. exact (sqrt_Rsqr_abs u). Qed.

(** X7. For two distinct defining points in the plane z = 1 the distance
    of [findNearestLine] is the distance to the line that the constructor
    builds from them: |a x + b y + c| / sqrt(a^2 + b^2). *)
Theorem distanceLine_implicit_form (p1 p2 q : vec3 R) :
  z p1 = 1 -> z p2 = 1 -> z q = 1 ->
  (x p1 <> x p2 \/ y p1 <> y p2) ->
  let ln := Line_ctor p1 p2 in
  distanceLine p1 p2 q
  = Rabs (on_line (getA ln) (getB ln) (getC ln) q)
    / sqrt (getA ln * getA ln + getB ln * getB ln).
Proof.
  intros Z1 Z2 Zq Hne; cbv zeta.
  rewrite (distanceLine_planar p1 p2 q) by congruence.
  unfold on_line; cbn.
  destruct (Req_dec_T (x p1) (x p2)) as [E | E].
  - destruct (Line_ctor_vertical p1 p2 E) as (-> & -> & ->).
    assert (Hy : y p2 - y p1 <> 0) by (destruct Hne; [contradiction | lra]).
    rewrite <- E.
    replace ((x p1 - x p1) * (y q - y p1) - (y p2 - y p1) * (x q - x p1))
      with (- ((y p2 - y p1) * (x q - x p1))) by ring.
    replace ((x p1 - x p1) * (x p1 - x p1) + (y p2 - y p1) * (y p2 - y p1))
      with ((y p2 - y p1) * (y p2 - y p1)) by ring.
    replace (1 * 1 + 0 * 0) with 1 by ring.
    replace (1 * x q + 0 * y q + - x p1) with (x q - x p1) by ring.
    rewrite sqrt_square_abs, sqrt_1, Rabs_Ropp, Rabs_mult.
    field. apply Rabs_no_R0; exact Hy.
  - destruct (Line_ctor_oblique p1 p2 E) as (-> & -> & ->).
    f_equal.
    + rewrite <- Rabs_Ropp. f_equal. ring.
    + f_equal. ring.
Qed.

Lemma distanceLine_implicit_form_witness :
  let p1 := mkvec3 0 0 1 in
  let p2 := mkvec3 1 0 1 in
  let q := mkvec3 0 1 1 in
  (x p1 <> x p2 \/ y p1 <> y p2) /\
  distanceLine p1 p2 q
  = Rabs (on_line (getA (Line_ctor p1 p2)) (getB (Line_ctor p1 p2))
                  (getC (Line_ctor p1 p2)) q)
    / sqrt (getA (Line_ctor p1 p2) * getA (Line_ctor p1 p2)
            + getB (Line_ctor p1 p2) * getB (Line_ctor p1 p2)).
Proof.
  cbv zeta.
  assert (Hne : x (mkvec3 0 0 1) <> x (mkvec3 1 0 1)
                \/ y (mkvec3 0 0 1) <> y (mkvec3 1 0 1)) by (left; cbn; lra).
  split; [exact Hne |].
  exact (distanceLine_implicit_form (mkvec3 0 0 1) (mkvec3 1 0 1) (mkvec3 0 1 1)
           eq_refl eq_refl eq_refl Hne).
Defined.

(** X8. Over the reals, for two distinct defining points in the plane:
    the distance is never negative, does not depend on the order of the two
    defining points, and is zero for a query on the line through them, in
    particular at either defining point. *)
Theorem distanceLine_planar_facts (p1 p2 q : vec3 R) (t : R) :
  z p1 = z q -> z p2 = z q ->
  (x p1 <> x p2 \/ y p1 <> y p2) ->
  0 <= distanceLine p1 p2 q /\
  distanceLine p1 p2 q = distanceLine p2 p1 q /\
  distanceLine p1 p2
    (mkvec3 (x p1 + t * (x p2 - x p1)) (y p1 + t * (y p2 - y p1)) (z q)) = 0.
Proof.
  intros Z1 Z2 Hne.
  assert (Hlen : 0 < sqrt ((x p2 - x p1) * (x p2 - x p1) + (y p2 - y p1) * (y p2 - y p1))).
  { apply sqrt_lt_R0.
    destruct Hne as [Hx | Hy].
    - assert (0 < (x p2 - x p1) * (x p2 - x p1)) by (apply Rsqr_pos_lt; lra).
      pose proof (Rle_0_sqr (y p2 - y p1)) as Hy. unfold Rsqr in Hy. lra.
    - assert (0 < (y p2 - y p1) * (y p2 - y p1)) by (apply Rsqr_pos_lt; lra).
      pose proof (Rle_0_sqr (x p2 - x p1)) as Hx. unfold Rsqr in Hx. lra. }
  split; [| split].
  - rewrite (distanceLine_planar p1 p2 q) by congruence.
    apply Rmult_le_pos; [apply Rabs_pos |].
    apply Rlt_le, Rinv_0_lt_compat, Hlen.
  - rewrite (distanceLine_planar p1 p2 q), (distanceLine_planar p2 p1 q) by congruence.
    f_equal.
    + rewrite <- Rabs_Ropp. f_equal. ring.
    + f_equal. ring.
  - rewrite distanceLine_planar by (cbn; congruence). cbn.
    replace ((x p2 - x p1) * (y p1 + t * (y p2 - y p1) - y p1)
             - (y p2 - y p1) * (x p1 + t * (x p2 - x p1) - x p1)) with 0 by ring.
    rewrite Rabs_R0. field. apply Rgt_not_eq, Hlen.
Qed.

Lemma distanceLine_planar_facts_witness :
  z (mkvec3 0 0 1) = z (mkvec3 2 5 1) /\
  (x (mkvec3 0 0 1) <> x (mkvec3 1 1 1) \/ y (mkvec3 0 0 1) <> y (mkvec3 1 1 1)) /\
  0 <= distanceLine (mkvec3 0 0 1) (mkvec3 1 1 1) (mkvec3 2 5 1) /\
  distanceLine (mkvec3 0 0 1) (mkvec3 1 1 1) (mkvec3 2 5 1)
  = distanceLine (mkvec3 1 1 1) (mkvec3 0 0 1) (mkvec3 2 5 1).
Proof.
  assert (Hne : x (mkvec3 0 0 1) <> x (mkvec3 1 1 1)
                \/ y (mkvec3 0 0 1) <> y (mkvec3 1 1 1)) by (left; cbn; lra).
  split; [reflexivity |]. split; [exact Hne |].
  destruct (distanceLine_planar_facts
              (mkvec3 0 0 1) (mkvec3 1 1 1) (mkvec3 2 5 1) 0 eq_refl eq_refl Hne)
    as (Hpos & Hsym & _).
  split; [exact Hpos | exact Hsym].
Defined.
End ExactDistance.

(** ** The queries in every arithmetic *)

Section QueriesAnyArithmetic.
Context {F : Type} `{FloatOps F}.

Lemma searchNearestP_loop_In (pos : vec3 F) (rest : list (vec3 F)) :
  forall (minD : F) (est : vec3 F),
    searchNearestP_loop pos rest minD est = est \/
    In (searchNearestP_loop pos rest minD est) rest.
Proof.
  induction rest as [| q rest IH]; intros minD est; cbn [searchNearestP_loop].
  - left; reflexivity.
  - destruct (point_distance pos q <? minD)%flt.
    + destruct (IH (point_distance pos q) q) as [-> | Hin];
        right; [left; reflexivity | right; exact Hin].
    + destruct (IH minD est) as [-> | Hin]; [left; reflexivity | right; right; exact Hin].
Qed.

(** The result of [searchNearestP] is the sentinel on the empty registry
    and a stored point otherwise. *)
Lemma searchNearestP_cases (ps : list (vec3 F)) (pos : vec3 F) :
  (ps = [] /\ searchNearestP ps pos = mkvec3 0%flt 0%flt 1%flt) \/
  In (searchNearestP ps pos) ps.
Proof.
  destruct ps as [| p0 rest]; [left; split; reflexivity | right].
  cbn [searchNearestP].
  destruct (searchNearestP_loop_In pos rest (point_distance pos p0) p0) as [-> | Hin];
    [left; reflexivity | right; exact Hin].
Qed.

(** X9. Whatever the arithmetic does (rounding, NaN, infinities), the
    nearest-point query on a non-empty registry returns one of the stored
    points: it never makes up a point. *)
Theorem searchNearestP_in_registry (ps : list (vec3 F)) (pos : vec3 F) :
  ps <> [] -> In (searchNearestP ps pos) ps.
Proof.
  intros Hne. destruct (searchNearestP_cases ps pos) as [[E _] | Hin];
    [contradiction | exact Hin].
Qed.

(** The scan returns the running candidate or the converted index of one of
    the remaining lines. *)
Lemma findNearestLine_loop_index (q : vec3 F) (m : nat) :
  forall (rest : list (vec3 F)) (i : nat) (minD : F) (near : Z),
    List.length rest = (4 * m)%nat ->
    exists r, findNearestLine_loop q rest i minD near = Ok r /\
      (r = near \/ exists k, (k < m)%nat /\ r = int_of_size_t (i + 4 * k)).
Proof.
  induction m as [| m IH]; intros rest i minD near Hlen.
  - destruct rest; [| discriminate]. exists near. split; [reflexivity | left; reflexivity].
  - destruct rest as [| a [| b [| c [| d rest']]]]; cbn in Hlen; try lia.
    assert (Hlen' : List.length rest' = (4 * m)%nat) by lia.
    cbn [findNearestLine_loop].
    destruct ((distanceLine a b q <? minD)%flt && flt_0_01 (distanceLine a b q)).
    + destruct (IH rest' (i + 4)%nat (distanceLine a b q) (int_of_size_t i) Hlen')
        as (r & Hr & [Er | (k & Hk & Er)]); exists r; (split; [exact Hr |]); right.
      * exists 0%nat. split; [lia |]. rewrite Er. f_equal; lia.
      * exists (S k). split; [lia |]. rewrite Er. f_equal; lia.
    + destruct (IH rest' (i + 4)%nat minD near Hlen')
        as (r & Hr & [Er | (k & Hk & Er)]); exists r; (split; [exact Hr |]).
      * left; exact Er.
      * right. exists (S k). split; [lia |]. rewrite Er. f_equal; lia.
Qed.

(** X10. On a registry of n lines (4n slots, fewer than 2^31) the
    nearest-line query returns -1 or the first slot of a stored line: a
    multiple of 4 with all four slots inside the registry. *)
Theorem findNearestLine_in_bounds (lc : LineCollection F) (clickP : vec3 F) (n : nat) :
  List.length (Vtx lc) = (4 * n)%nat ->
  (Z.of_nat (4 * n) < 2147483648)%Z ->
  exists r, findNearestLine lc clickP = Ok r /\
    (r = (-1)%Z \/
     exists k, (k < n)%nat /\ r = Z.of_nat (4 * k) /\
       (r + 3 < Z.of_nat (List.length (Vtx lc)))%Z).
Proof.
  intros Hlen Hsmall. unfold findNearestLine.
  destruct (findNearestLine_loop_index clickP n (Vtx lc) 0 20%flt (-1)%Z Hlen)
    as (r & Hr & [Er | (k & Hk & Er)]); exists r; (split; [exact Hr |]).
  - left; exact Er.
  - right; exists k. split; [exact Hk |].
    rewrite Er, int_of_size_t_small by lia.
    split; [f_equal; lia | lia].
Qed.
End QueriesAnyArithmetic.

Lemma searchNearestP_in_registry_witness :
  [pt (F := B32.t) 0 0; pt 1 1] <> [] /\
  In (searchNearestP [pt (F := B32.t) 0 0; pt 1 1] (pt 5 5)) [pt 0 0; pt 1 1].
Proof.
  assert (Hne : [pt (F := B32.t) 0 0; pt 1 1] <> []) by discriminate.
  split; [exact Hne |].
  exact (searchNearestP_in_registry [pt (F := B32.t) 0 0; pt 1 1] (pt 5 5) Hne).
Defined.

Lemma findNearestLine_in_bounds_witness :
  List.length (Vtx (lines (state_after (F := B32.t) one_line))) = (4 * 1)%nat /\
  (Z.of_nat (4 * 1) < 2147483648)%Z /\
  exists r, findNearestLine (lines (state_after (F := B32.t) one_line)) (cursor 300 300)
            = Ok r /\
    (r = (-1)%Z \/ (r + 3 < 4)%Z).
Proof.
  assert (Hlen : List.length (Vtx (lines (state_after (F := B32.t) one_line)))
                 = (4 * 1)%nat) by (vm_compute; reflexivity).
  assert (Hsmall : (Z.of_nat (4 * 1) < 2147483648)%Z) by (vm_compute; reflexivity).
  split; [exact Hlen |]. split; [exact Hsmall |].
  destruct (findNearestLine_in_bounds (lines (state_after one_line)) (cursor 300 300) 1
              Hlen Hsmall) as (r & Hr & Hcase).
  exists r. split; [exact Hr |].
  destruct Hcase as [E | (k & _ & _ & Hb)]; [left; exact E | right].
  rewrite Hlen in Hb. exact Hb.
Defined.

(** ** Intersect mode *)

Section IntersectMode.
Context {F : Type} `{FloatOps F}.
Open Scope Z_scope.

Lemma vtx_at_in_bounds {A : Type} (v : list A) (k : Z) :
  0 <= k < Z.of_nat (List.length v) -> exists a, vtx_at v k = Ok a.
Proof.
  intros Hk. unfold vtx_at. destruct (Z.ltb_spec k 0); [lia |].
  destruct (nth_error v (Z.to_nat k)) as [a |] eqn:E; [exists a; reflexivity |].
  apply nth_error_None in E. lia.
Qed.

(** A left-button press in Intersect mode, as one expression. *)
Lemma onMouse_Intersect_eq (s : App F) (pX pY : Z) :
  current s = Key.i ->
  onMouse GLUT_LEFT_BUTTON GLUT_DOWN pX pY s
  = (r <- findNearestLine (lines s) (cursor pX pY) ;;
     if r =? -1 then Ok (set_idx s r)
     else ln <- Line_at (lines s) r ;;
          if firstLine s
          then Ok (mkApp (points s ++ [findIntersectionPoint (l1 s) ln]) (lines s)
                         (current s)
                         (Line_ctor (mkvec3 0 0 0) (mkvec3 0 0 0))%flt
                         (Line_ctor (mkvec3 0 0 0) (mkvec3 0 0 0))%flt
                         (moved s) (-1) false)
          else Ok (set_firstLine (set_l1 (set_idx s r) ln) true)).
Proof.
  intros Hcur.
  assert (Ep : onMouse_p GLUT_DOWN pX pY s = s)
    by (unfold onMouse_p; rewrite Hcur; reflexivity).
  assert (El : onMouse_l GLUT_DOWN pX pY s = s)
    by (unfold onMouse_l; rewrite Hcur; reflexivity).
  assert (Em : forall s1, current s1 = Key.i -> onMouse_m GLUT_DOWN pX pY s1 = Ok s1)
    by (intros s1 E1; unfold onMouse_m; rewrite E1; reflexivity).
  unfold onMouse. change (GLUT_LEFT_BUTTON =? GLUT_LEFT_BUTTON) with true.
  cbv iota. rewrite Ep, El. unfold onMouse_i. rewrite Hcur.
  change (Key.eqb Key.i Key.i && (GLUT_DOWN =? GLUT_DOWN)) with true. cbv iota.
  destruct (findNearestLine (lines s) (cursor pX pY)) as [r |]; [| reflexivity].
  cbn [bind idx set_idx lines firstLine].
  destruct (r =? -1); cbn [negb].
  - apply Em; exact Hcur.
  - destruct (Line_at (lines s) r) as [ln |]; cbn [bind].
    + destruct (firstLine s); cbn [negb bind];
        (rewrite Em;
         [unfold set_idx, set_firstLine, set_l1, set_l2, set_points, addPoint; cbn;
          rewrite ?Hcur; reflexivity | exact Hcur]).
    + destruct (firstLine s); reflexivity.
Qed.

(** X11. In Intersect mode a left-button press is always handled within
    bounds on a registry of whole lines, unlike in MoveLine mode: a miss
    only records idx = -1; the first hit remembers the line through the two
    defining slots and sets the flag; the second hit appends the
    intersection of the remembered line with the new one to the points,
    clears the flag and the two lines and resets idx to -1. *)
Theorem onMouse_Intersect (s : App F) (pX pY : Z) (n : nat) :
  current s = Key.i ->
  List.length (Vtx (lines s)) = (4 * n)%nat ->
  Z.of_nat (4 * n) < 2147483648 ->
  exists r s',
    findNearestLine (lines s) (cursor pX pY) = Ok r /\
    onMouse GLUT_LEFT_BUTTON GLUT_DOWN pX pY s = Ok s' /\
    (r = -1 -> s' = set_idx s (-1)) /\
    (r <> -1 ->
     exists q1 q2,
       vtx_at (Vtx (lines s)) r = Ok q1 /\ vtx_at (Vtx (lines s)) (r + 1) = Ok q2 /\
       (firstLine s = false ->
        s' = set_firstLine (set_l1 (set_idx s r) (Line_ctor q1 q2)) true) /\
       (firstLine s = true ->
        points s' = points s ++ [findIntersectionPoint (l1 s) (Line_ctor q1 q2)] /\
        lines s' = lines s /\ firstLine s' = false /\ idx s' = -1 /\
        l1 s' = (Line_ctor (mkvec3 0 0 0) (mkvec3 0 0 0))%flt /\ l2 s' = l1 s' /\
        current s' = Key.i /\ moved s' = moved s)).
Proof.
  intros Hcur Hlen Hsmall.
  assert (Hfind : exists r, findNearestLine (lines s) (cursor pX pY) = Ok r /\
            (r = -1 \/ exists k, (k < n)%nat /\ r = Z.of_nat (4 * k) /\
                         r + 3 < Z.of_nat (List.length (Vtx (lines s))))).
  { unfold findNearestLine.
    destruct (findNearestLine_loop_index (cursor pX pY) n (Vtx (lines s)) 0 20%flt (-1)
                Hlen) as (r & Hr & [Er | (k & Hk & Er)]); exists r; (split; [exact Hr |]).
    - left; exact Er.
    - right; exists k. split; [exact Hk |].
      rewrite Er, int_of_size_t_small by lia. split; [f_equal; lia | lia]. }
  destruct Hfind as (r & Hr & Hcase).
  rewrite (onMouse_Intersect_eq s pX pY Hcur), Hr. cbn [bind].
  exists r. destruct Hcase as [-> | (k & Hk & Er & Hb)].
  - cbn. eexists; split; [reflexivity |]. split; [reflexivity |].
    split; [reflexivity | intros Hne; contradiction].
  - assert (H0 : 0 <= r) by lia.
    destruct (vtx_at_in_bounds (Vtx (lines s)) r) as [q1 E1]; [lia |].
    destruct (vtx_at_in_bounds (Vtx (lines s)) (r + 1)) as [q2 E2]; [lia |].
    destruct (Z.eqb_spec r (-1)); [lia |].
    unfold Line_at. rewrite E1, E2. cbn [bind].
    destruct (firstLine s) eqn:Ef.
    + eexists; split; [reflexivity |]. split; [reflexivity |].
      split; [intros; lia |]. intros _. exists q1, q2.
      split; [reflexivity |]. split; [reflexivity |].
      split; [discriminate |]. intros _. cbn.
      repeat conj_split; try reflexivity; exact Hcur.
    + eexists; split; [reflexivity |]. split; [reflexivity |].
      split; [intros; lia |]. intros _. exists q1, q2.
      split; [reflexivity |]. split; [reflexivity |].
      split; [reflexivity | discriminate].
Qed.

(** X12. Selecting the same line twice in Intersect mode (two presses at
    the same pixel), when the determinant a b - a b of the line with itself
    compares equal to zero, appends the sentinel (0,0,1) to the points as if
    it were an intersection. *)
Theorem Intersect_same_line_twice (s : App F) (pX pY r : Z) (ln : Line F) :
  current s = Key.i ->
  firstLine s = false ->
  findNearestLine (lines s) (cursor pX pY) = Ok r ->
  r <> -1 ->
  Line_at (lines s) r = Ok ln ->
  (getA ln * getB ln - getA ln * getB ln == 0)%flt = true ->
  exists s2,
    run [Mouse GLUT_LEFT_BUTTON GLUT_DOWN pX pY; Mouse GLUT_LEFT_BUTTON GLUT_DOWN pX pY] s
    = Ok s2 /\
    points s2 = points s ++ [mkvec3 0 0 1]%flt /\
    lines s2 = lines s /\ firstLine s2 = false /\ idx s2 = -1.
Proof.
  intros Hcur Hf Hr Hne Hln Hdet.
  cbn [run step].
  rewrite (onMouse_Intersect_eq s pX pY Hcur), Hr. cbn [bind].
  destruct (Z.eqb_spec r (-1)); [contradiction |].
  rewrite Hln, Hf. cbn [bind].
  set (s1 := set_firstLine (set_l1 (set_idx s r) ln) true).
  assert (Hcur1 : current s1 = Key.i) by exact Hcur.
  rewrite (onMouse_Intersect_eq s1 pX pY Hcur1).
  change (lines s1) with (lines s). rewrite Hr. cbn [bind].
  destruct (Z.eqb_spec r (-1)); [contradiction |].
  rewrite Hln. cbn [bind]. change (firstLine s1) with true. cbv iota.
  eexists; split; [reflexivity |].
  cbn [points lines firstLine idx]. change (l1 s1) with ln. change (points s1) with (points s).
  unfold findIntersectionPoint. rewrite Hdet.
  repeat conj_split; reflexivity.
Qed.
End IntersectMode.

Lemma onMouse_Intersect_witness :
  current (state_after (F := B32.t) one_line_intersect) = Key.i /\
  List.length (Vtx (lines (state_after (F := B32.t) one_line_intersect))) = (4 * 1)%nat /\
  exists r s',
    findNearestLine (lines (state_after (F := B32.t) one_line_intersect)) (cursor 300 300)
    = Ok r /\
    onMouse GLUT_LEFT_BUTTON GLUT_DOWN 300 300 (state_after (F := B32.t) one_line_intersect)
    = Ok s'.
Proof.
  assert (C1 : current (state_after (F := B32.t) one_line_intersect) = Key.i)
    by (vm_compute; reflexivity).
  assert (L1 : List.length (Vtx (lines (state_after (F := B32.t) one_line_intersect)))
               = (4 * 1)%nat) by (vm_compute; reflexivity).
  assert (S1 : (Z.of_nat (4 * 1) < 2147483648)%Z) by (vm_compute; reflexivity).
  split; [exact C1 |]. split; [exact L1 |].
  destruct (onMouse_Intersect (state_after one_line_intersect) 300 300 1 C1 L1 S1)
    as (r & s' & Hr & Hs & _).
  exists r, s'. split; assumption.
Defined.

Lemma Intersect_same_line_twice_witness :
  let s := state_after (F := B32.t) one_line_intersect in
  exists ln s2,
    Line_at (lines s) 0 = Ok ln /\
    findNearestLine (lines s) (cursor 300 300) = Ok 0%Z /\
    run [Mouse GLUT_LEFT_BUTTON GLUT_DOWN 300 300; Mouse GLUT_LEFT_BUTTON GLUT_DOWN 300 300] s
    = Ok s2 /\
    points s2 = points s ++ [mkvec3 0 0 1]%flt.
Proof.
  cbv zeta.
  assert (C1 : current (state_after (F := B32.t) one_line_intersect) = Key.i)
    by (vm_compute; reflexivity).
  assert (F1 : firstLine (state_after (F := B32.t) one_line_intersect) = false)
    by (vm_compute; reflexivity).
  assert (R1 : findNearestLine (lines (state_after (F := B32.t) one_line_intersect))
                 (cursor 300 300) = Ok 0%Z) by (vm_compute; reflexivity).
  destruct (Line_at (lines (state_after (F := B32.t) one_line_intersect)) 0)
    as [ln |] eqn:Eln; [| vm_compute in Eln; discriminate].
  assert (D1 : (getA ln * getB ln - getA ln * getB ln == 0)%flt = true).
  { vm_compute in Eln. injection Eln as <-. vm_compute. reflexivity. }
  assert (N1 : 0%Z <> (-1)%Z) by discriminate.
  destruct (Intersect_same_line_twice (state_after one_line_intersect) 300 300 0 ln
              C1 F1 R1 N1 Eln D1) as (s2 & Hrun & Hpts & _).
  exists ln, s2. repeat conj_split; auto.
Defined.

(** ** What the callbacks keep *)

Section CallbackInvariants.
Context {F : Type} `{FloatOps F}.
Open Scope Z_scope.

Lemma Forall_set_nth {A : Type} (P : A -> Prop) (v : list A) (k : nat) (a : A) :
  Forall P v -> P a -> Forall P (set_nth v k a).
Proof.
  intros Hv Ha. revert k. induction Hv as [| hd tl Hhd Htl IH]; intros [| k]; cbn;
    constructor; auto.
Qed.

Lemma Forall_vtx_set {A : Type} (P : A -> Prop) (v v' : list A) (k : Z) (a : A) :
  vtx_set v k a = Ok v' -> Forall P v -> P a -> Forall P v'.
Proof.
  unfold vtx_set. destruct (k <? 0); [discriminate |].
  destruct (Z.to_nat k <? List.length v)%nat; [| discriminate].
  intros E; injection E as <-. apply Forall_set_nth.
Qed.

Lemma Line_ctor_endpoints_z (p1 p2 : vec3 F) :
  z (getP3 (Line_ctor p1 p2)) = 1%flt /\ z (getP4 (Line_ctor p1 p2)) = 1%flt.
Proof.
  unfold Line_ctor. destruct (Line_abc p1 p2) as [[a b] c].
  destruct (fneb b 0%flt); split; reflexivity.
Qed.

Lemma findIntersectionPoint_z (la lb : Line F) :
  z (findIntersectionPoint la lb) = 1%flt.
Proof.
  unfold findIntersectionPoint.
  destruct (getA la * getB lb - getA lb * getB la == 0)%flt; reflexivity.
Qed.

Lemma searchNearestP_z (ps : list (vec3 F)) (pos : vec3 F) :
  Forall (fun q => z q = 1%flt) ps -> z (searchNearestP ps pos) = 1%flt.
Proof.
  intros Hps. destruct (searchNearestP_cases ps pos) as [[_ ->] | Hin]; [reflexivity |].
  rewrite Forall_forall in Hps. apply Hps, Hin.
Qed.

Lemma onMouse_p_homogeneous (state pX pY : Z) (s : App F) :
  homogeneous_inv s -> homogeneous_inv (onMouse_p state pX pY s).
Proof.
  unfold onMouse_p, homogeneous_inv. intros (Hp & Hv & Hs).
  destruct (Key.eqb (current s) Key.p && (state =? GLUT_DOWN)); [| auto].
  cbn. split; [| auto]. unfold addPoint. apply Forall_app. split; [exact Hp |].
  constructor; [reflexivity | constructor].
Qed.

Lemma onMouse_l_homogeneous (state pX pY : Z) (s : App F) :
  homogeneous_inv s -> homogeneous_inv (onMouse_l state pX pY s).
Proof.
  unfold onMouse_l, homogeneous_inv, isFirst. intros (Hp & Hv & Hs).
  destruct (Key.eqb (current s) Key.l && (state =? GLUT_DOWN)
            && (2 <=? size (points s))); [| auto].
  pose proof (searchNearestP_z (points s) (cursor pX pY) Hp) as Hn.
  destruct (firstCLick (lines s)) eqn:Ef; cbn.
  - split; [exact Hp |]. split; [| discriminate].
    apply Forall_app. split; [exact Hv |].
    destruct (Line_ctor_points (startPoint (lines s))
                (searchNearestP (points s) (cursor pX pY))) as (-> & ->).
    destruct (Line_ctor_endpoints_z (startPoint (lines s))
                (searchNearestP (points s) (cursor pX pY))) as (E3 & E4).
    repeat constructor; auto.
  - split; [exact Hp |]. split; [exact Hv |]. intros _; exact Hn.
Qed.

Lemma onMouse_i_homogeneous (state pX pY : Z) (s s' : App F) :
  onMouse_i state pX pY s = Ok s' -> homogeneous_inv s -> homogeneous_inv s'.
Proof.
  unfold onMouse_i, homogeneous_inv.
  destruct (Key.eqb (current s) Key.i && (state =? GLUT_DOWN));
    [| intros E; injection E as <-; auto].
  destruct (findNearestLine (lines s) (cursor pX pY)) as [n |]; [| discriminate].
  cbn [bind idx set_idx].
  destruct (negb (n =? -1)); [| intros E; injection E as <-; auto].
  destruct (negb (firstLine (set_idx s n))); cbn [lines set_idx];
    (destruct (Line_at (lines s) n); [| discriminate]);
    cbn; intros E; injection E as <-; cbn; auto.
  intros (Hp & Hv & Hs). split; [| auto].
  apply Forall_app. split; [exact Hp |].
  constructor; [apply findIntersectionPoint_z | constructor].
Qed.

Lemma onMouse_m_homogeneous (state pX pY : Z) (s s' : App F) :
  onMouse_m state pX pY s = Ok s' -> homogeneous_inv s -> homogeneous_inv s'.
Proof.
  unfold onMouse_m, homogeneous_inv.
  destruct (Key.eqb (current s) Key.m && (state =? GLUT_DOWN)).
  - destruct (findNearestLine (lines s) (cursor pX pY)) as [n |]; [| discriminate].
    cbn [bind idx set_idx lines].
    destruct (Line_at (lines s) n); [| discriminate].
    cbn. intros E; injection E as <-; auto.
  - destruct (Key.eqb (current s) Key.m && negb (state =? GLUT_DOWN));
      intros E; injection E as <-; auto.
Qed.

Lemma onMouseMotion_homogeneous (pX pY : Z) (s s' : App F) :
  onMouseMotion pX pY s = Ok s' -> homogeneous_inv s -> homogeneous_inv s'.
Proof.
  unfold onMouseMotion, homogeneous_inv.
  destruct (negb (idx s =? -1) && Key.eqb (current s) Key.m);
    [| intros E; injection E as <-; auto].
  cbn [idx set_moved lines moved].
  destruct (vtx_set (Vtx (lines s)) (idx s + 2) _) as [v1 |] eqn:E1; [| discriminate].
  cbn [bind].
  destruct (vtx_set v1 (idx s) _) as [v2 |] eqn:E2; [| discriminate]. cbn [bind].
  destruct (vtx_set v2 (idx s + 3) _) as [v3 |] eqn:E3; [| discriminate]. cbn [bind].
  destruct (vtx_set v3 (idx s + 1) _) as [v4 |] eqn:E4; [| discriminate]. cbn [bind].
  intros E; injection E as <-. cbn. intros (Hp & Hv & Hs).
  split; [exact Hp |]. split; [| exact Hs].
  eapply Forall_vtx_set; [exact E4 | | reflexivity].
  eapply Forall_vtx_set; [exact E3 | | reflexivity].
  eapply Forall_vtx_set; [exact E2 | | reflexivity].
  eapply Forall_vtx_set; [exact E1 | exact Hv | reflexivity].
Qed.

Lemma step_homogeneous (e : event) (s s' : App F) :
  step e s = Ok s' -> homogeneous_inv s -> homogeneous_inv s'.
Proof.
  destruct e as [key | key | button state pX pY | pX pY]; cbn [step].
  - intros E; injection E as <-. unfold homogeneous_inv.
    destruct (onKeyboard_fields key s) as [-> ->]; auto.
  - intros E; injection E as <-. unfold homogeneous_inv, onKeyboardUp.
    destruct (onKeyboard_fields key s) as [-> ->]; auto.
  - unfold onMouse.
    destruct (button =? GLUT_LEFT_BUTTON); [| intros E; injection E as <-; auto].
    intros E Hs.
    destruct (onMouse_i state pX pY (onMouse_l state pX pY (onMouse_p state pX pY s)))
      as [s1 |] eqn:Ei; [| discriminate].
    cbn [bind] in E.
    eapply onMouse_m_homogeneous; [exact E |].
    eapply onMouse_i_homogeneous; [exact Ei |].
    apply onMouse_l_homogeneous, onMouse_p_homogeneous, Hs.
  - apply onMouseMotion_homogeneous.
Qed.

(** X13. Every position the program ever stores, in the point registry or
    in the four slots of a line, is a point of the plane z = 1; so is the
    pending start point while a line is being drawn.  (The distance of
    [findNearestLine] is therefore always a distance in the plane.) *)
Theorem stored_positions_homogeneous (s : App F) :
  reachable s -> homogeneous_inv s.
Proof.
  intros [es Hes].
  assert (G : forall es (s0 s1 : App F),
             run es s0 = Ok s1 -> homogeneous_inv s0 -> homogeneous_inv s1).
  { clear. induction es as [| e es IH]; intros s0 s1; cbn [run].
    - intros E; injection E as <-; auto.
    - destruct (step e s0) as [s2 |] eqn:Es; [| discriminate]. cbn [bind].
      intros E Hs. eapply IH; [exact E |]. eapply step_homogeneous; eauto. }
  eapply G; [exact Hes |].
  unfold homogeneous_inv; cbn. repeat conj_split; [constructor | constructor | discriminate].
Qed.
End CallbackInvariants.

Lemma stored_positions_homogeneous_witness :
  reachable (state_after (F := B32.t) line_grabbed) /\
  Forall (fun q => z q = 1%flt) (Vtx (lines (state_after (F := B32.t) line_grabbed))).
Proof.
  assert (R1 : reachable (state_after (F := B32.t) line_grabbed))
    by (apply reachable_state_after; vm_compute; discriminate).
  split; [exact R1 |].
  exact (proj1 (proj2 (stored_positions_homogeneous (state_after line_grabbed) R1))).
Defined.

Section RegistriesGrow.
Context {F : Type} `{FloatOps F}.
Open Scope Z_scope.

Lemma grows_refl (s : App F) : grows s s.
Proof. split; [exists []; symmetry; apply app_nil_r | lia]. Qed.

Lemma grows_trans (s1 s2 s3 : App F) : grows s1 s2 -> grows s2 s3 -> grows s1 s3.
Proof.
  intros [[a1 E1] L1] [[a2 E2] L2]. split; [| lia].
  exists (a1 ++ a2). rewrite E2, E1, app_assoc. reflexivity.
Qed.

Lemma onMouse_p_grows (state pX pY : Z) (s : App F) : grows s (onMouse_p state pX pY s).
Proof.
  unfold onMouse_p.
  destruct (Key.eqb (current s) Key.p && (state =? GLUT_DOWN)); [| apply grows_refl].
  split; cbn; [exists [cursor pX pY]; reflexivity | lia].
Qed.

Lemma onMouse_l_grows (state pX pY : Z) (s : App F) : grows s (onMouse_l state pX pY s).
Proof.
  unfold onMouse_l.
  destruct (Key.eqb (current s) Key.l && (state =? GLUT_DOWN)
            && (2 <=? size (points s))); [| apply grows_refl].
  destruct (negb (isFirst (lines s))); split; cbn;
    try (exists []; symmetry; apply app_nil_r); try lia;
    rewrite length_app; lia.
Qed.

Lemma onMouse_i_grows (state pX pY : Z) (s s' : App F) :
  onMouse_i state pX pY s = Ok s' -> grows s s'.
Proof.
  intros E. split; [| rewrite (onMouse_i_lines _ _ _ _ _ E); lia].
  revert E. unfold onMouse_i.
  destruct (Key.eqb (current s) Key.i && (state =? GLUT_DOWN));
    [| intros E; injection E as <-; exists []; symmetry; apply app_nil_r].
  destruct (findNearestLine (lines s) (cursor pX pY)) as [n |]; [| discriminate].
  cbn [bind idx set_idx].
  destruct (negb (n =? -1));
    [| intros E; injection E as <-; exists []; symmetry; apply app_nil_r].
  destruct (negb (firstLine (set_idx s n))); cbn [lines set_idx];
    (destruct (Line_at (lines s) n) as [ln |]; [| discriminate]);
    cbn; intros E; injection E as <-; cbn.
  - exists []; symmetry; apply app_nil_r.
  - eexists; reflexivity.
Qed.

Lemma onMouse_m_grows (state pX pY : Z) (s s' : App F) :
  onMouse_m state pX pY s = Ok s' -> grows s s'.
Proof.
  intros E. split; [| rewrite (onMouse_m_lines _ _ _ _ _ E); lia].
  revert E. unfold onMouse_m.
  destruct (Key.eqb (current s) Key.m && (state =? GLUT_DOWN)).
  - destruct (findNearestLine (lines s) (cursor pX pY)) as [n |]; [| discriminate].
    cbn [bind idx set_idx lines].
    destruct (Line_at (lines s) n); [| discriminate].
    cbn. intros E; injection E as <-. exists []; symmetry; apply app_nil_r.
  - destruct (Key.eqb (current s) Key.m && negb (state =? GLUT_DOWN));
      intros E; injection E as <-; exists []; symmetry; apply app_nil_r.
Qed.

Lemma onMouseMotion_points (pX pY : Z) (s s' : App F) :
  onMouseMotion pX pY s = Ok s' -> points s' = points s.
Proof.
  unfold onMouseMotion.
  destruct (negb (idx s =? -1) && Key.eqb (current s) Key.m);
    [| intros E; injection E as <-; reflexivity].
  cbn [idx set_moved lines moved].
  repeat match goal with
  | |- context [bind (vtx_set ?v ?n ?a) _] =>
      destruct (vtx_set v n a); cbn [bind]; [| discriminate]
  end.
  intros E; injection E as <-; reflexivity.
Qed.

Lemma step_grows (e : event) (s s' : App F) : step e s = Ok s' -> grows s s'.
Proof.
  destruct e as [key | key | button state pX pY | pX pY]; cbn [step].
  - intros E; injection E as <-. unfold grows.
    destruct (onKeyboard_fields key s) as [-> ->]. apply grows_refl.
  - intros E; injection E as <-. unfold grows, onKeyboardUp.
    destruct (onKeyboard_fields key s) as [-> ->]. apply grows_refl.
  - unfold onMouse.
    destruct (button =? GLUT_LEFT_BUTTON);
      [| intros E; injection E as <-; apply grows_refl].
    intros E.
    destruct (onMouse_i state pX pY (onMouse_l state pX pY (onMouse_p state pX pY s)))
      as [s1 |] eqn:Ei; [| discriminate].
    cbn [bind] in E.
    eapply grows_trans; [apply onMouse_p_grows |].
    eapply grows_trans; [apply onMouse_l_grows |].
    eapply grows_trans; [eapply onMouse_i_grows; exact Ei |].
    eapply onMouse_m_grows; exact E.
  - intros E. split.
    + exists []. rewrite (onMouseMotion_points _ _ _ _ E). symmetry; apply app_nil_r.
    + rewrite (onMouseMotion_slots _ _ _ _ E). lia.
Qed.

(** X14. No event removes or changes a stored point, and no event removes
    a line: after any handled sequence of events the old points are a prefix
    of the new ones, in the same order, and the line registry is at least as
    long as before. *)
Theorem registries_only_grow (es : list event) (s s' : App F) :
  run es s = Ok s' ->
  (exists added, points s' = points s ++ added) /\
  (List.length (Vtx (lines s)) <= List.length (Vtx (lines s')))%nat.
Proof.
  revert s s'. induction es as [| e es IH]; intros s s'; cbn [run].
  - intros E; injection E as <-. apply grows_refl.
  - destruct (step e s) as [s1 |] eqn:Es; [| discriminate]. cbn [bind].
    intros E. exact (grows_trans _ _ _ (step_grows _ _ _ Es) (IH _ _ E)).
Qed.

(** X15. A key event changes nothing but the mode: 'p', 'l', 'm' and 'i'
    select the four modes, any other key is ignored, a release acts as a
    press; the registries, a pending start point, a first selected line and
    idx all survive a change of mode. *)
Theorem onKeyboard_mode_only (key : Z) (s : App F) :
  let s' := onKeyboard key s in
  s' = set_current s (current s') /\
  onKeyboardUp key s = s' /\
  (key = 112 -> current s' = Key.p) /\
  (key = 108 -> current s' = Key.l) /\
  (key = 109 -> current s' = Key.m) /\
  (key = 105 -> current s' = Key.i) /\
  (key <> 112 -> key <> 108 -> key <> 109 -> key <> 105 -> s' = s).
Proof.
  cbv zeta. unfold onKeyboard, onKeyboardUp, onKeyboard.
  destruct (Z.eqb_spec key 112), (Z.eqb_spec key 108), (Z.eqb_spec key 109),
    (Z.eqb_spec key 105); subst; try lia; destruct s;
    repeat conj_split; try reflexivity; intros; try lia; try contradiction.
Qed.

(** X16. Releasing the left button in MoveLine mode ends the drag: idx
    becomes -1, and from then on motion events leave the whole state as it
    is. *)
Theorem MoveLine_release_ends_drag (s : App F) (state pX pY : Z) :
  current s = Key.m ->
  state <> GLUT_DOWN ->
  exists s', onMouse GLUT_LEFT_BUTTON state pX pY s = Ok s' /\
    idx s' = -1 /\ points s' = points s /\ lines s' = lines s /\
    current s' = Key.m /\
    forall qX qY, onMouseMotion qX qY s' = Ok s'.
Proof.
  intros Hcur Hst.
  assert (Hd : (state =? GLUT_DOWN) = false) by (apply Z.eqb_neq; exact Hst).
  assert (Ep : onMouse_p state pX pY s = s)
    by (unfold onMouse_p; rewrite Hcur; reflexivity).
  assert (El : onMouse_l state pX pY s = s)
    by (unfold onMouse_l; rewrite Hcur; reflexivity).
  assert (Ei : onMouse_i state pX pY s = Ok s)
    by (unfold onMouse_i; rewrite Hcur; reflexivity).
  unfold onMouse. change (GLUT_LEFT_BUTTON =? GLUT_LEFT_BUTTON) with true.
  cbv iota. rewrite Ep, El, Ei. cbn [bind].
  unfold onMouse_m. rewrite Hcur, Hd. cbn [Key.eqb andb negb].
  eexists; split; [reflexivity |].
  cbn. repeat conj_split; try reflexivity; exact Hcur.
Qed.
End RegistriesGrow.

Lemma registries_only_grow_witness :
  run (F := B32.t) [Keyboard 112; Mouse GLUT_LEFT_BUTTON GLUT_DOWN 300 300]
      (state_after two_points)
  = Ok (state_after (two_points ++ [Keyboard 112; Mouse GLUT_LEFT_BUTTON GLUT_DOWN 300 300])) /\
  exists added,
    points (state_after (F := B32.t)
              (two_points ++ [Keyboard 112; Mouse GLUT_LEFT_BUTTON GLUT_DOWN 300 300]))
    = points (state_after (F := B32.t) two_points) ++ added.
Proof.
  assert (E : run (F := B32.t) [Keyboard 112; Mouse GLUT_LEFT_BUTTON GLUT_DOWN 300 300]
                (state_after two_points)
              = Ok (state_after
                      (two_points ++ [Keyboard 112; Mouse GLUT_LEFT_BUTTON GLUT_DOWN 300 300])))
    by (vm_compute; reflexivity).
  split; [exact E |].
  exact (proj1 (registries_only_grow _ _ _ E)).
Defined.

Lemma MoveLine_release_ends_drag_witness :
  current (state_after (F := B32.t) line_grabbed) = Key.m /\
  GLUT_UP <> GLUT_DOWN /\
  exists s', onMouse GLUT_LEFT_BUTTON GLUT_UP 300 300 (state_after (F := B32.t) line_grabbed)
             = Ok s' /\ idx s' = (-1)%Z.
Proof.
  assert (C1 : current (state_after (F := B32.t) line_grabbed) = Key.m)
    by (vm_compute; reflexivity).
  assert (U1 : GLUT_UP <> GLUT_DOWN) by discriminate.
  split; [exact C1 |]. split; [exact U1 |].
  destruct (MoveLine_release_ends_drag (state_after line_grabbed) GLUT_UP 300 300 C1 U1)
    as (s' & E & Hi & _).
  exists s'. split; assumption.
Defined.

(** ** Dragging *)

Section Dragging.
Context {F : Type} `{FloatOps F}.
Open Scope Z_scope.

Lemma nth_error_set_nth {A : Type} (v : list A) (k j : nat) (a : A) :
  nth_error (set_nth v k a) j
  = if (j =? k)%nat then (if (j <? List.length v)%nat then Some a else None)
    else nth_error v j.
Proof.
  destruct (Nat.eqb_spec j k) as [-> | Hne].
  - destruct (Nat.ltb_spec k (List.length v)).
    + apply nth_error_set_nth_same; assumption.
    + apply nth_error_None. rewrite set_nth_length. assumption.
  - apply nth_error_set_nth_other; assumption.
Qed.

Lemma overwrite_line_length (v : list (vec3 F)) (k : nat) (q1 q2 : vec3 F) :
  List.length (overwrite_line v k q1 q2) = List.length v.
Proof. unfold overwrite_line. rewrite !set_nth_length. reflexivity. Qed.

Lemma overwrite_line_twice (v : list (vec3 F)) (k : nat) (a1 a2 b1 b2 : vec3 F) :
  overwrite_line (overwrite_line v k a1 a2) k b1 b2 = overwrite_line v k b1 b2.
Proof.
  apply nth_error_ext. intros j. unfold overwrite_line.
  rewrite !nth_error_set_nth, !set_nth_length.
  destruct (Nat.eqb_spec j (k + 1)), (Nat.eqb_spec j (k + 3)), (Nat.eqb_spec j k),
    (Nat.eqb_spec j (k + 2)); try lia; reflexivity.
Qed.

(** A motion event of a drag, as one expression. *)
Lemma onMouseMotion_eq (s : App F) (pX pY : Z) :
  current s = Key.m ->
  0 <= idx s ->
  idx s + 3 < Z.of_nat (List.length (Vtx (lines s))) ->
  onMouseMotion pX pY s
  = Ok (mkApp (points s)
              (mkLineCollection
                 (overwrite_line (Vtx (lines s)) (Z.to_nat (idx s))
                    (getP1 (move (moved s) (cursor pX pY)))
                    (getP2 (move (moved s) (cursor pX pY))))
                 (firstCLick (lines s)) (startPoint (lines s)))
              (current s) (l1 s) (l2 s) (move (moved s) (cursor pX pY))
              (idx s) (firstLine s)).
Proof.
  intros Hcur Hlo Hhi.
  unfold onMouseMotion. rewrite Hcur.
  destruct (Z.eqb_spec (idx s) (-1)); [lia |].
  cbn [negb andb Key.eqb idx set_moved lines moved].
  set (mv := move (moved s) (cursor pX pY)).
  set (v0 := Vtx (lines s)) in *.
  rewrite (vtx_set_in_bounds v0 (idx s + 2) (getP1 mv)) by lia. cbn [bind].
  rewrite (vtx_set_in_bounds _ (idx s) (getP1 mv)) by (rewrite set_nth_length; lia).
  cbn [bind].
  rewrite (vtx_set_in_bounds _ (idx s + 3) (getP2 mv)) by (rewrite !set_nth_length; lia).
  cbn [bind].
  rewrite (vtx_set_in_bounds _ (idx s + 1) (getP2 mv)) by (rewrite !set_nth_length; lia).
  cbn [bind]. unfold overwrite_line, set_lines, set_moved.
  cbn [points lines current l1 l2 moved idx firstLine firstCLick startPoint].
  rewrite !Z2Nat.inj_add by lia.
  change (Z.to_nat 1) with 1%nat. change (Z.to_nat 2) with 2%nat.
  change (Z.to_nat 3) with 3%nat. rewrite ?Hcur. reflexivity.
Qed.

(** Only the coefficients a, b of the dragged line enter [move]: moving a
    moved line is moving the original. *)
Lemma move_move (l : Line F) (t1 t2 : vec3 F) : move (move l t1) t2 = move l t2.
Proof. reflexivity. Qed.

(** X17. A drag does not depend on the path of the cursor: two motion
    events in a row leave the state that the second alone would leave. *)
Theorem drag_last_motion_wins (s : App F) (aX aY bX bY : Z) :
  current s = Key.m ->
  0 <= idx s ->
  idx s + 3 < Z.of_nat (List.length (Vtx (lines s))) ->
  exists s', run [MouseMotion aX aY; MouseMotion bX bY] s = Ok s' /\
             run [MouseMotion bX bY] s = Ok s'.
Proof.
  intros Hcur Hlo Hhi. cbn [run step].
  rewrite (onMouseMotion_eq s aX aY Hcur Hlo Hhi). cbn [bind].
  rewrite onMouseMotion_eq;
    cbn [current idx lines Vtx moved points l1 l2 firstLine firstCLick startPoint];
    [| exact Hcur | exact Hlo | rewrite overwrite_line_length; exact Hhi].
  rewrite (onMouseMotion_eq s bX bY Hcur Hlo Hhi). cbn [bind].
  rewrite overwrite_line_twice, move_move.
  eexists; split; reflexivity.
Qed.

(** X18. idx is shared by Intersect and MoveLine mode and a change of mode
    does not reset it: after the first selection of a line in Intersect
    mode, switching to MoveLine mode and moving the mouse (no press in
    MoveLine mode) overwrites the four slots of that line with the points of
    whatever line [moved] still holds, moved to the cursor. *)
Theorem Intersect_selection_leaks_into_MoveLine (s : App F) (pX pY qX qY r : Z) :
  current s = Key.i ->
  firstLine s = false ->
  findNearestLine (lines s) (cursor pX pY) = Ok r ->
  0 <= r ->
  r + 3 < Z.of_nat (List.length (Vtx (lines s))) ->
  exists s',
    run [Mouse GLUT_LEFT_BUTTON GLUT_DOWN pX pY; Keyboard 109; MouseMotion qX qY] s = Ok s' /\
    Vtx (lines s')
    = overwrite_line (Vtx (lines s)) (Z.to_nat r)
        (getP1 (move (moved s) (cursor qX qY))) (getP2 (move (moved s) (cursor qX qY))) /\
    vtx_at (Vtx (lines s')) r = Ok (getP1 (move (moved s) (cursor qX qY))) /\
    vtx_at (Vtx (lines s')) (r + 1) = Ok (getP2 (move (moved s) (cursor qX qY))).
Proof.
  intros Hcur Hf Hr Hlo Hhi. cbn [run step].
  rewrite (onMouse_Intersect_eq s pX pY Hcur), Hr. cbn [bind].
  destruct (Z.eqb_spec r (-1)); [lia |].
  destruct (vtx_at_in_bounds (Vtx (lines s)) r) as [q1 E1]; [lia |].
  destruct (vtx_at_in_bounds (Vtx (lines s)) (r + 1)) as [q2 E2]; [lia |].
  unfold Line_at. rewrite E1, E2, Hf. cbn [bind].
  set (s1 := onKeyboard 109 _).
  assert (Hs1 : s1 = mkApp (points s) (lines s) Key.m (Line_ctor q1 q2) (l2 s)
                           (moved s) r true) by reflexivity.
  rewrite Hs1. rewrite onMouseMotion_eq; cbn [current idx lines]; try assumption;
    [| reflexivity].
  cbn [bind moved lines Vtx]. eexists; split; [reflexivity |].
  cbn [lines Vtx]. split; [reflexivity |].
  unfold overwrite_line, vtx_at.
  destruct (Z.ltb_spec r 0); [lia |]. destruct (Z.ltb_spec (r + 1) 0); [lia |].
  rewrite !nth_error_set_nth, !set_nth_length.
  rewrite !Z2Nat.inj_add by lia. change (Z.to_nat 1) with 1%nat.
  destruct (Nat.eqb_spec (Z.to_nat r) (Z.to_nat r + 1)); [lia |].
  destruct (Nat.eqb_spec (Z.to_nat r) (Z.to_nat r + 3)); [lia |].
  destruct (Nat.eqb_spec (Z.to_nat r) (Z.to_nat r)); [| lia].
  destruct (Nat.eqb_spec (Z.to_nat r + 1) (Z.to_nat r + 1)); [| lia].
  destruct (Nat.ltb_spec (Z.to_nat r) (List.length (Vtx (lines s)))); [| lia].
  destruct (Nat.ltb_spec (Z.to_nat r + 1) (List.length (Vtx (lines s)))); [| lia].
  split; reflexivity.
Qed.
End Dragging.

Lemma drag_last_motion_wins_witness :
  let s := state_after (F := B32.t) line_grabbed in
  current s = Key.m /\ (0 <= idx s)%Z /\
  (idx s + 3 < Z.of_nat (List.length (Vtx (lines s))))%Z /\
  exists s', run [MouseMotion 10 20; MouseMotion 300 150] s = Ok s' /\
             run [MouseMotion 300 150] s = Ok s'.
Proof.
  cbv zeta.
  assert (C1 : current (state_after (F := B32.t) line_grabbed) = Key.m)
    by (vm_compute; reflexivity).
  assert (B1 : (0 <= idx (state_after (F := B32.t) line_grabbed))%Z)
    by (vm_compute; discriminate).
  assert (B2 : (idx (state_after (F := B32.t) line_grabbed) + 3
                < Z.of_nat (List.length (Vtx (lines (state_after (F := B32.t) line_grabbed)))))%Z)
    by (vm_compute; reflexivity).
  split; [exact C1 |]. split; [exact B1 |]. split; [exact B2 |].
  exact (drag_last_motion_wins (state_after line_grabbed) 10 20 300 150 C1 B1 B2).
Defined.

(** In the run of the witness [moved] is still the default line with
    a = b = 0, so the selected line is overwritten with NaN. *)
Lemma Intersect_selection_leaks_into_MoveLine_witness :
  let s := state_after (F := B32.t) one_line_intersect in
  findNearestLine (lines s) (cursor 300 300) = Ok 0%Z /\
  y (getP1 (move (moved s) (cursor 300 150))) = S754_nan /\
  exists s',
    run [Mouse GLUT_LEFT_BUTTON GLUT_DOWN 300 300; Keyboard 109; MouseMotion 300 150] s
    = Ok s' /\
    vtx_at (Vtx (lines s')) 0 = Ok (getP1 (move (moved s) (cursor 300 150))).
Proof.
  cbv zeta.
  assert (C1 : current (state_after (F := B32.t) one_line_intersect) = Key.i)
    by (vm_compute; reflexivity).
  assert (F1 : firstLine (state_after (F := B32.t) one_line_intersect) = false)
    by (vm_compute; reflexivity).
  assert (R1 : findNearestLine (lines (state_after (F := B32.t) one_line_intersect))
                 (cursor 300 300) = Ok 0%Z) by (vm_compute; reflexivity).
  assert (B1 : (0 <= 0)%Z) by discriminate.
  assert (B2 : (0 + 3 < Z.of_nat (List.length
                 (Vtx (lines (state_after (F := B32.t) one_line_intersect)))))%Z)
    by (vm_compute; reflexivity).
  split; [exact R1 |]. split; [vm_compute; reflexivity |].
  destruct (Intersect_selection_leaks_into_MoveLine (state_after one_line_intersect)
              300 300 300 150 0 C1 F1 R1 B1 B2) as (s' & E & _ & A0 & _).
  exists s'. split; assumption.
Defined.

Section ExactDragging.
Open Scope R_scope.

(** X19. After a motion event of a drag the registry is consistent again
    with what the constructor would store: the line re-read from the two
    new defining slots is parallel to the dragged line, passes through the
    cursor, and its endpoints p3, p4 are the stored ones. *)
Theorem drag_reread_line (l : Line R) (target : vec3 R) :
  getB l <> 0 ->
  let mv := move l target in
  let l' := Line_ctor (getP1 mv) (getP2 mv) in
  getA l' * getB l = getB l' * getA l /\
  on_line (getA l') (getB l') (getC l') target = 0 /\
  getP3 l' = getP3 mv /\ getP4 l' = getP4 mv.
Proof.
  intros Hb; cbv zeta.
  unfold Line_ctor, Line_abc, fneb, move, on_line; cbn.
  repeat match goal with
  | |- context [Reqb ?u ?v] =>
      let E := fresh "E" in destruct (Reqb u v) eqn:E; Rbool; [lra |]; cbn
  end.
  repeat conj_split.
  - field; exact Hb.
  - field; exact Hb.
  - f_equal. field; exact Hb.
  - f_equal. field; exact Hb.
Qed.

Lemma drag_reread_line_witness :
  let l := mkLine (mkvec3 0 0 1) (mkvec3 1 1 1) (mkvec3 (-1) (-1) 1) (mkvec3 1 1 1)
                  1 (-1) 0 1 1 in
  let target := mkvec3 0 (1 / 2) 1 in
  getB l <> 0 /\
  on_line (getA (Line_ctor (getP1 (move l target)) (getP2 (move l target))))
          (getB (Line_ctor (getP1 (move l target)) (getP2 (move l target))))
          (getC (Line_ctor (getP1 (move l target)) (getP2 (move l target)))) target = 0.
Proof.
  cbv zeta.
  assert (Hb : getB (mkLine (mkvec3 0 0 1) (mkvec3 1 1 1) (mkvec3 (-1) (-1) 1)
                            (mkvec3 1 1 1) 1 (-1) 0 1 1) <> 0) by (cbn; lra).
  split; [exact Hb |].
  exact (proj1 (proj2 (drag_reread_line _ (mkvec3 0 (1 / 2) 1) Hb))).
Defined.

(** X20. Pixels of the 600 x 600 window map into the world square
    [-1,1] x [-1,1]: the top left pixel to (-1, 1), the centre to (0, 0), the
    bottom right corner to (1, -1). *)
Theorem cursor_in_world_square (pX pY : Z) :
  (0 <= pX <= 600)%Z -> (0 <= pY <= 600)%Z ->
  -1 <= x (cursor pX pY) <= 1 /\ -1 <= y (cursor pX pY) <= 1 /\
  z (cursor pX pY) = 1 /\
  cursor 0 0 = mkvec3 (-1) 1 1 /\
  cursor 300 300 = mkvec3 0 0 1 /\
  cursor 600 600 = mkvec3 1 (-1) 1.
Proof.
  intros [Hx0 Hx1] [Hy0 Hy1]. unfold cursor, cX_of, cY_of, windowWidth, windowHeight; cbn.
  apply IZR_le in Hx0, Hx1, Hy0, Hy1.
  repeat conj_split; try lra; try reflexivity; f_equal; field.
Qed.

Lemma cursor_in_world_square_witness :
  (0 <= 150 <= 600)%Z /\ -1 <= x (cursor (F := R) 150 450) <= 1.
Proof.
  assert (Hp : (0 <= 150 <= 600)%Z) by lia.
  assert (Hq : (0 <= 450 <= 600)%Z) by lia.
  split; [exact Hp |].
  exact (proj1 (cursor_in_world_square 150 450 Hp Hq)).
Defined.

(** X21. The conversion is strictly increasing in the pixel column and
    strictly decreasing in the pixel row (the y axis is flipped); so
    different pixels give different world positions. *)
Theorem cursor_monotone (pX pY qX qY : Z) :
  ((pX < qX)%Z -> x (cursor pX pY) < x (cursor qX qY)) /\
  ((pY < qY)%Z -> y (cursor qX qY) < y (cursor pX pY)) /\
  (cursor (F := R) pX pY = cursor qX qY -> pX = qX /\ pY = qY).
Proof.
  unfold cursor, cX_of, cY_of, windowWidth, windowHeight; cbn.
  repeat conj_split.
  - intros Hlt. apply IZR_lt in Hlt. lra.
  - intros Hlt. apply IZR_lt in Hlt. lra.
  - intros E. injection E as Ex Ey. split; apply eq_IZR; lra.
Qed.
End ExactDragging.

(** ** framework.h: vec3 *)

Section ExactVec3.
Open Scope R_scope.

(** X22. The cross product is orthogonal to both of its arguments, and
    the cross product of a vector with itself is zero. *)
Theorem cross_orthogonal (v w : vec3 R) :
  dot (cross v w) v = 0 /\ dot (cross v w) w = 0 /\ cross v v = mkvec3 0 0 0.
Proof.
  unfold dot, cross; cbn. repeat conj_split; try ring. f_equal; ring.
Qed.

End ExactVec3.

(** ** LineCollection::index *)

Section IndexAnyArithmetic.
Context {F : Type} `{FloatOps F}.
Open Scope flt_scope.

(** With slot i + 1 in range, [isSameLine] is the disjunction the source
    writes. *)
Lemma isSameLine_Ok (fp sp : vec3 F) (l : Line F) :
  isSameLine fp (Ok sp) l
  = Ok (((x fp == x (getP1 l)) && (y fp == y (getP1 l))
         && ((x sp == x (getP2 l)) && (y sp == y (getP2 l))))
        || ((x fp == x (getP2 l)) && (y fp == y (getP2 l))
            && ((x sp == x (getP1 l)) && (y sp == y (getP1 l))))).
Proof.
  unfold isSameLine, same_pair.
  destruct ((x fp == x (getP1 l)) && (y fp == y (getP1 l))); cbn [bind andb orb].
  - destruct ((x sp == x (getP2 l)) && (y sp == y (getP2 l))); cbn [orb]; [reflexivity |].
    destruct ((x fp == x (getP2 l)) && (y fp == y (getP2 l))); reflexivity.
  - destruct ((x fp == x (getP2 l)) && (y fp == y (getP2 l))); reflexivity.
Qed.

(** If no pair of slots compares equal to the line, the search returns -1. *)
Lemma index_loop_no_match (l : Line F) (n : nat) :
  forall (rest : list (vec3 F)) (i : nat),
    List.length rest = (4 * n)%nat ->
    (forall fp sp, isSameLine fp (Ok sp) l = Ok false) ->
    index_loop l rest i = Ok (-1)%Z.
Proof.
  induction n as [| n IH]; intros rest i Hlen Hno.
  - destruct rest; [reflexivity | discriminate].
  - destruct rest as [| a [| b [| c [| d rest']]]]; cbn in Hlen; try lia.
    cbn [index_loop]. rewrite Hno. cbn [bind].
    apply IH; [lia | exact Hno].
Qed.
End IndexAnyArithmetic.

Section ExactIndex.
Open Scope R_scope.

Lemma stored_same_O (a b : vec3 R) (tl : list (vec3 R)) (l : Line R) :
  stored_same (a :: b :: tl) l 0 <->
  (x a = x (getP1 l) /\ y a = y (getP1 l) /\ x b = x (getP2 l) /\ y b = y (getP2 l)) \/
  (x a = x (getP2 l) /\ y a = y (getP2 l) /\ x b = x (getP1 l) /\ y b = y (getP1 l)).
Proof. reflexivity. Qed.

Lemma stored_same_S (a b c d : vec3 R) (tl : list (vec3 R)) (l : Line R) (j : nat) :
  stored_same (a :: b :: c :: d :: tl) l (S j) <-> stored_same tl l j.
Proof.
  unfold stored_same.
  replace (4 * S j)%nat with (S (S (S (S (4 * j))))) by lia. reflexivity.
Qed.

Lemma isSameLine_exact (a b : vec3 R) (tl : list (vec3 R)) (l : Line R) :
  exists same, isSameLine a (Ok b) l = Ok same /\
               (same = true <-> stored_same (a :: b :: tl) l 0).
Proof.
  rewrite isSameLine_Ok. eexists; split; [reflexivity |].
  rewrite stored_same_O. cbn [feqb exactR].
  rewrite orb_true_iff, !andb_true_iff, !Reqb_true. tauto.
Qed.

(** The search from slot [i] on returns, with -1 when no remaining line has
    the defining points of [l] and the slot of the first one that has. *)
Lemma index_loop_spec (l : Line R) (n : nat) :
  forall (rest : list (vec3 R)) (i : nat),
    List.length rest = (4 * n)%nat ->
    exists r, index_loop l rest i = Ok r /\
      ((r = (-1)%Z /\ forall j, (j < n)%nat -> ~ stored_same rest l j) \/
       (exists k, (k < n)%nat /\ r = Z.of_nat (i + 4 * k) /\
          stored_same rest l k /\
          forall j, (j < k)%nat -> ~ stored_same rest l j)).
Proof.
  induction n as [| n IH]; intros rest i Hlen.
  - destruct rest; [| discriminate]. exists (-1)%Z.
    split; [reflexivity |]. left; split; [reflexivity | intros; lia].
  - destruct rest as [| a [| b [| c [| d rest']]]]; cbn in Hlen; try lia.
    assert (Hlen' : List.length rest' = (4 * n)%nat) by lia.
    cbn [index_loop].
    destruct (isSameLine_exact a b (c :: d :: rest') l) as (same & -> & Hsame).
    cbn [bind]. destruct same.
    + exists (Z.of_nat i). split; [reflexivity |]. right. exists 0%nat.
      split; [lia |]. split; [f_equal; lia |].
      split; [apply Hsame; reflexivity | intros; lia].
    + assert (Hno : ~ stored_same (a :: b :: c :: d :: rest') l 0)
        by (intros Hs; apply Hsame in Hs; discriminate).
      destruct (IH rest' (i + 4)%nat Hlen')
        as (r & Hr & [[Er Hnone] | (k & Hk & Er & Hm & Hfirst)]);
        exists r; (split; [exact Hr |]).
      * left; split; [exact Er |].
        intros [| j] Hj; [exact Hno |]. rewrite stored_same_S. apply Hnone; lia.
      * right; exists (S k). split; [lia |]. split; [rewrite Er; f_equal; lia |].
        split; [apply stored_same_S; exact Hm |].
        intros [| j] Hj; [exact Hno |]. rewrite stored_same_S. apply Hfirst; lia.
Qed.

(** X23. On a registry of n lines [index] returns -1 exactly when no
    stored line has the two defining points of the given line (in either
    order, comparing x and y), and otherwise the slot 4k of the first stored
    line that has. *)
Theorem index_first_match (lc : LineCollection R) (l : Line R) (n : nat) :
  List.length (Vtx lc) = (4 * n)%nat ->
  exists r, index lc l = Ok r /\
    ((r = (-1)%Z /\ forall j, (j < n)%nat -> ~ stored_same (Vtx lc) l j) \/
     (exists k, (k < n)%nat /\ r = Z.of_nat (4 * k) /\
        stored_same (Vtx lc) l k /\
        forall j, (j < k)%nat -> ~ stored_same (Vtx lc) l j)).
Proof.
  intros Hlen. exact (index_loop_spec l n (Vtx lc) 0 Hlen).
Qed.

(** X24. A line that was added is found: after [addLine(l)] on a registry
    of n lines, [index(l)] returns the slot of a stored line with the same
    defining points, at the appended position 4n or before it. *)
Theorem index_after_addLine (lc : LineCollection R) (l : Line R) (n : nat) :
  List.length (Vtx lc) = (4 * n)%nat ->
  exists k, (k <= n)%nat /\
    index (addLine lc l) l = Ok (Z.of_nat (4 * k)) /\
    stored_same (Vtx (addLine lc l)) l k.
Proof.
  intros Hlen.
  assert (Hlen' : List.length (Vtx (addLine lc l)) = (4 * S n)%nat)
    by (cbn; rewrite length_app; cbn; lia).
  assert (Hlast : stored_same (Vtx (addLine lc l)) l n).
  { unfold stored_same; cbn [addLine Vtx].
    rewrite !app_nth2 by lia.
    replace (4 * n - List.length (Vtx lc))%nat with 0%nat by lia.
    replace (4 * n + 1 - List.length (Vtx lc))%nat with 1%nat by lia.
    cbn. left; repeat split; reflexivity. }
  destruct (index_loop_spec l (S n) (Vtx (addLine lc l)) 0 Hlen')
    as (r & Hr & [[_ Hnone] | (k & Hk & Er & Hm & _)]).
  - exfalso. apply (Hnone n); [lia | exact Hlast].
  - exists k. split; [lia |]. split; [| exact Hm].
    unfold index. rewrite Hr, Er. reflexivity.
Qed.
End ExactIndex.

Lemma index_first_match_witness :
  let lc := mkLineCollection (F := R) [pt 0 0; pt 1 0; pt (-1) 0; pt 1 0] false (pt 0 0) in
  List.length (Vtx lc) = (4 * 1)%nat /\
  exists r, index lc (Line_ctor (pt 5 5) (pt 6 6)) = Ok r /\ (r = (-1)%Z \/ r = 0%Z).
Proof.
  cbv zeta. split; [reflexivity |].
  destruct (index_first_match
              (mkLineCollection (F := R) [pt 0 0; pt 1 0; pt (-1) 0; pt 1 0] false (pt 0 0))
              (Line_ctor (pt 5 5) (pt 6 6)) 1 eq_refl)
    as (r & Hr & [[Er _] | (k & Hk & Er & _)]); exists r; (split; [exact Hr |]).
  - left; exact Er.
  - right. rewrite Er. replace k with 0%nat by lia. reflexivity.
Defined.

Lemma index_after_addLine_witness :
  let lc := mkLineCollection (F := R) [pt 0 0; pt 1 0; pt (-1) 0; pt 1 0] false (pt 0 0) in
  List.length (Vtx lc) = (4 * 1)%nat /\
  exists k, (k <= 1)%nat /\
    index (addLine lc (Line_ctor (pt 0 0) (pt 1 1))) (Line_ctor (pt 0 0) (pt 1 1))
    = Ok (Z.of_nat (4 * k)).
Proof.
  cbv zeta. split; [reflexivity |].
  destruct (index_after_addLine
              (mkLineCollection (F := R) [pt 0 0; pt 1 0; pt (-1) 0; pt 1 0] false (pt 0 0))
              (Line_ctor (pt 0 0) (pt 1 1)) 1 eq_refl) as (k & Hk & Hr & _).
  exists k. split; assumption.
Defined.

(** ** index in binary32 *)

Lemma SFeqb_nan_r (u : B32.t) : SFeqb u S754_nan = false.
Proof. destruct u; reflexivity. Qed.

Lemma SFeqb_nan_l (u : B32.t) : SFeqb S754_nan u = false.
Proof. reflexivity. Qed.

(** X25. In binary32 a line one of whose defining coordinates is NaN is
    never found by [index], although its points may be stored (a dragged
    vertical line): NaN compares unequal to itself. *)
Theorem index_nan_not_found (lc : LineCollection B32.t) (l : Line B32.t) (n : nat) :
  List.length (Vtx lc) = (4 * n)%nat ->
  x (getP1 l) = S754_nan \/ y (getP1 l) = S754_nan \/
  x (getP2 l) = S754_nan \/ y (getP2 l) = S754_nan ->
  index lc l = Ok (-1)%Z.
Proof.
  intros Hlen Hnan. unfold index.
  apply (index_loop_no_match l n); [exact Hlen |].
  intros fp sp. rewrite isSameLine_Ok. f_equal. cbn [feqb binary32].
  destruct Hnan as [E | [E | [E | E]]]; rewrite E, !SFeqb_nan_r;
    rewrite ?andb_false_r, ?andb_false_l; reflexivity.
Qed.

Lemma index_nan_not_found_witness :
  let s := state_after (F := B32.t)
             (draw_and_drag (300, 450) (300, 150) (300, 300) (0, 300))%Z in
  List.length (Vtx (lines s)) = (4 * 1)%nat /\
  y (getP1 (moved s)) = S754_nan /\
  vtx_at (Vtx (lines s)) 0 = Ok (getP1 (moved s)) /\
  vtx_at (Vtx (lines s)) 1 = Ok (getP2 (moved s)) /\
  index (lines s) (moved s) = Ok (-1)%Z.
Proof.
  cbv zeta.
  assert (L1 : List.length (Vtx (lines (state_after (F := B32.t)
                 (draw_and_drag (300, 450) (300, 150) (300, 300) (0, 300))%Z)))
               = (4 * 1)%nat) by (vm_compute; reflexivity).
  assert (N1 : y (getP1 (moved (state_after (F := B32.t)
                 (draw_and_drag (300, 450) (300, 150) (300, 300) (0, 300))%Z)))
               = S754_nan) by (vm_compute; reflexivity).
  split; [exact L1 |]. split; [exact N1 |].
  split; [vm_compute; reflexivity |]. split; [vm_compute; reflexivity |].
  exact (index_nan_not_found _ _ 1 L1 (or_intror (or_introl N1))).
Defined.

(** ** A line from a point to itself *)

Section DegenerateLine.
Open Scope R_scope.

(** X26. Over the reals, the constructor applied to one point twice (two
    clicks on the same point in DrawLine mode) gives the vertical line
    through it: a = 1, b = 0, c = -x, direction (0, 0), drawn from (x, -1)
    to (x, 1). *)
Theorem Line_ctor_same_point (p : vec3 R) :
  Line_ctor p p
  = mkLine p p (mkvec3 (x p) (-1) 1) (mkvec3 (x p) 1 1) 1 0 (- x p) 0 0%R.
Proof.
  unfold Line_ctor, Line_abc, fneb; cbn.
  destruct (Reqb (x p) (x p)) eqn:E; Rbool; [| contradiction].
  destruct (Reqb 0 0) eqn:E0; Rbool; [| contradiction]. cbn.
  f_equal; ring.
Qed.

Lemma SFsub_diag_zn (u : B32.t) : zero_or_nan (SFsub B32.prec B32.emax u u) = true.
Proof.
  destruct u as [[|] | [|] | | s m e]; try reflexivity.
  unfold SFsub. rewrite Z.sub_diag. reflexivity.
Qed.

Lemma SFmul_zn_l (u v : B32.t) :
  zero_or_nan u = true -> zero_or_nan (SFmul B32.prec B32.emax u v) = true.
Proof. destruct u, v; try discriminate; reflexivity. Qed.

Lemma SFsub_zn (u v : B32.t) :
  zero_or_nan u = true -> zero_or_nan v = true ->
  zero_or_nan (SFsub B32.prec B32.emax u v) = true.
Proof. destruct u as [[|] | | |], v as [[|] | | |]; try discriminate; reflexivity. Qed.

Lemma SFadd_zn (u v : B32.t) :
  zero_or_nan u = true -> zero_or_nan v = true ->
  zero_or_nan (SFadd B32.prec B32.emax u v) = true.
Proof. destruct u as [[|] | | |], v as [[|] | | |]; try discriminate; reflexivity. Qed.

Lemma SFsqrt_zn (u : B32.t) :
  zero_or_nan u = true -> zero_or_nan (SFsqrt B32.prec B32.emax u) = true.
Proof. destruct u; try discriminate; reflexivity. Qed.

Lemma SFdiv_zn (u v : B32.t) :
  zero_or_nan u = true -> zero_or_nan v = true ->
  SFdiv B32.prec B32.emax u v = S754_nan.
Proof. destruct u, v; try discriminate; reflexivity. Qed.

Lemma length_zn (v : vec3 B32.t) :
  zero_or_nan (x v) = true -> zero_or_nan (y v) = true -> zero_or_nan (z v) = true ->
  zero_or_nan (length v) = true.
Proof.
  intros Hx Hy Hz. unfold length, dot; cbn [fsqrt fadd fmul binary32].
  apply SFsqrt_zn. repeat apply SFadd_zn; apply SFmul_zn_l; assumption.
Qed.

Lemma distanceLine_same_point (p q : vec3 B32.t) : distanceLine p p q = S754_nan.
Proof.
  unfold distanceLine. cbn [fdiv binary32].
  assert (Hx : zero_or_nan (x (vec3_sub p p)) = true) by apply SFsub_diag_zn.
  assert (Hy : zero_or_nan (y (vec3_sub p p)) = true) by apply SFsub_diag_zn.
  assert (Hz : zero_or_nan (z (vec3_sub p p)) = true) by apply SFsub_diag_zn.
  apply SFdiv_zn; [| apply length_zn; assumption].
  apply length_zn; unfold cross; cbn [x y z fsub fmul binary32];
    apply SFsub_zn; apply SFmul_zn_l; assumption.
Qed.

(** X27. In binary32 a stored line whose two defining points are the same
    point can never be selected: its distance to any query is 0/0 = NaN,
    both comparisons of [findNearestLine] fail, and the scan passes over it
    whatever the query, the running minimum and the coordinates are. *)
Theorem degenerate_line_never_selected
        (p p3 p4 q : vec3 B32.t) (rest : list (vec3 B32.t))
        (i : nat) (minD : B32.t) (near : Z) :
  distanceLine p p q = S754_nan /\
  findNearestLine_loop q (p :: p :: p3 :: p4 :: rest) i minD near
  = findNearestLine_loop q rest (i + 4) minD near /\
  findNearestLine (mkLineCollection [p; p; p3; p4] false p) q = Ok (-1)%Z.
Proof.
  pose proof (distanceLine_same_point p q) as E.
  split; [exact E |].
  unfold findNearestLine. cbn [findNearestLine_loop Vtx]. rewrite E.
  split; reflexivity.
Qed.
End DegenerateLine.

(** ** PlacePoint and DrawLine presses *)

Section MorePresses.
Context {F : Type} `{FloatOps F}.
Open Scope Z_scope.

(** X28. In PlacePoint mode a left-button press always succeeds and
    appends the cursor position, with z = 1, to the points; nothing else
    changes, duplicates are not filtered, and a release changes nothing. *)
Theorem onMouse_PlacePoint (s : App F) (state pX pY : Z) :
  current s = Key.p ->
  onMouse GLUT_LEFT_BUTTON GLUT_DOWN pX pY s
  = Ok (set_points s (points s ++ [cursor pX pY])) /\
  size (points s ++ [cursor pX pY]) = size (points s) + 1 /\
  z (cursor pX pY) = 1%flt /\
  (state <> GLUT_DOWN -> onMouse GLUT_LEFT_BUTTON state pX pY s = Ok s).
Proof.
  intros Hcur.
  assert (Em : forall st s1, current s1 = Key.p -> onMouse_m st pX pY s1 = Ok s1)
    by (intros st s1 E1; unfold onMouse_m; rewrite E1; reflexivity).
  assert (Ei : forall st s1, current s1 = Key.p -> onMouse_i st pX pY s1 = Ok s1)
    by (intros st s1 E1; unfold onMouse_i; rewrite E1; reflexivity).
  assert (El : forall st s1, current s1 = Key.p -> onMouse_l st pX pY s1 = s1)
    by (intros st s1 E1; unfold onMouse_l; rewrite E1; reflexivity).
  repeat conj_split.
  - unfold onMouse. change (GLUT_LEFT_BUTTON =? GLUT_LEFT_BUTTON) with true. cbv iota.
    assert (Ep : onMouse_p GLUT_DOWN pX pY s = set_points s (points s ++ [cursor pX pY]))
      by (unfold onMouse_p; rewrite Hcur; reflexivity).
    rewrite Ep, El, Ei by exact Hcur. cbn [bind]. apply Em; exact Hcur.
  - apply (size_addPoint (points s) (cursor pX pY)).
  - reflexivity.
  - intros Hst. apply Z.eqb_neq in Hst.
    unfold onMouse. change (GLUT_LEFT_BUTTON =? GLUT_LEFT_BUTTON) with true. cbv iota.
    assert (Ep : onMouse_p state pX pY s = s)
      by (unfold onMouse_p; rewrite Hcur, Hst; reflexivity).
    rewrite Ep, El, Ei by exact Hcur. cbn [bind]. apply Em; exact Hcur.
Qed.

(** X29. In DrawLine mode, while fewer than two points are stored, a press
    is ignored altogether: no start point is recorded. *)
Theorem onMouse_DrawLine_too_few_points (s : App F) (state pX pY : Z) :
  current s = Key.l ->
  size (points s) < 2 ->
  onMouse GLUT_LEFT_BUTTON state pX pY s = Ok s.
Proof.
  intros Hcur Hsz.
  assert (Ep : onMouse_p state pX pY s = s)
    by (unfold onMouse_p; rewrite Hcur; reflexivity).
  assert (El : onMouse_l state pX pY s = s).
  { unfold onMouse_l. destruct (Z.leb_spec 2 (size (points s))); [lia |].
    rewrite andb_false_r. reflexivity. }
  assert (Ei : onMouse_i state pX pY s = Ok s)
    by (unfold onMouse_i; rewrite Hcur; reflexivity).
  unfold onMouse. change (GLUT_LEFT_BUTTON =? GLUT_LEFT_BUTTON) with true. cbv iota.
  rewrite Ep, El, Ei. cbn [bind]. unfold onMouse_m. rewrite Hcur. reflexivity.
Qed.
End MorePresses.

Lemma onMouse_PlacePoint_witness :
  current (initial (F := B32.t)) = Key.p /\
  onMouse GLUT_LEFT_BUTTON GLUT_DOWN 150 450 (initial (F := B32.t))
  = Ok (set_points initial (points initial ++ [cursor 150 450])).
Proof.
  split; [reflexivity |].
  exact (proj1 (onMouse_PlacePoint (initial (F := B32.t)) GLUT_UP 150 450 eq_refl)).
Defined.

Lemma onMouse_DrawLine_too_few_points_witness :
  let s := state_after (F := B32.t)
             [Mouse GLUT_LEFT_BUTTON GLUT_DOWN 150 450; Keyboard 108]%Z in
  current s = Key.l /\ (size (points s) < 2)%Z /\
  onMouse GLUT_LEFT_BUTTON GLUT_DOWN 150 450 s = Ok s.
Proof.
  cbv zeta.
  assert (C1 : current (state_after (F := B32.t)
                 [Mouse GLUT_LEFT_BUTTON GLUT_DOWN 150 450; Keyboard 108]%Z) = Key.l)
    by (vm_compute; reflexivity).
  assert (S1 : (size (points (state_after (F := B32.t)
                 [Mouse GLUT_LEFT_BUTTON GLUT_DOWN 150 450; Keyboard 108]%Z)) < 2)%Z)
    by (vm_compute; reflexivity).
  split; [exact C1 |]. split; [exact S1 |].
  exact (onMouse_DrawLine_too_few_points _ GLUT_DOWN 150 450 C1 S1).
Defined.
